(** * Delta-neutral arbitrage bot: price state, market data stream,
      event bus and live trading cycle

    A shallow embedding of [websocket_manager.py], [trade_events.py] and
    [test_live_trade.py].  Python [float] is IEEE binary64 and is modelled
    by Rocq's primitive [float]; Python [int] counters are [Z]; decoded
    JSON is the inductive [json]; an exception is the [Raise] branch of
    [result], and code that mutates [self] before it raises is run in a
    state monad whose state survives the exception. *)

From Stdlib Require Import Floats ZArith List String Bool Lia.
Import ListNotations.

Set Warnings "-inexact-float,-register-all,-notation-for-abbreviation".

(** ** The Python runtime the three modules rely on *)

Module Py.

Inductive exn : Type :=
| TypeError | KeyError | ValueError | AttributeError | IndexError | OSError.

Inductive result (A : Type) : Type :=
| Ok (a : A)
| Raise (e : exn).
Arguments Ok {A} a.
Arguments Raise {A} e.

Definition rbind {A B} (r : result A) (k : A -> result B) : result B :=
  match r with
  | Ok a => k a
  | Raise e => Raise e
  end.

Definition returned {A} (r : result A) : bool :=
  match r with Ok _ => true | Raise _ => false end.

(** What [json.loads] produces.  A JSON integer is kept as the float it
    converts to under [float(...)]; a [dict] is an association list read
    at its first binding. *)
Inductive json : Type :=
| JNull
| JBool (b : bool)
| JNum (x : float)
| JStr (s : string)
| JArr (xs : list json)
| JObj (kvs : list (string * json)).

Fixpoint assoc {V} (k : string) (kvs : list (string * V)) : option V :=
  match kvs with
  | [] => None
  | (k', v) :: rest => if String.eqb k k' then Some v else assoc k rest
  end.

(** [d.get(k, default)]; only a dict has [get]. *)
Definition dict_get (d : json) (k : string) (default : json) : result json :=
  match d with
  | JObj kvs => Ok (match assoc k kvs with Some v => v | None => default end)
  | _ => Raise AttributeError
  end.

(** [len(v)] *)
Definition py_len (v : json) : result nat :=
  match v with
  | JArr xs => Ok (List.length xs)
  | JObj kvs => Ok (List.length kvs)
  | JStr s => Ok (String.length s)
  | _ => Raise TypeError
  end.

(** Truth value of [v] in a condition. *)
Definition truthy (v : json) : bool :=
  match v with
  | JNull => false
  | JBool b => b
  | JNum x => negb (PrimFloat.eqb x 0)
  | JStr s => negb (String.eqb s "")
  | JArr xs => match xs with [] => false | _ => true end
  | JObj kvs => match kvs with [] => false | _ => true end
  end.

(** [v[i]] for a non-negative integer literal [i]. *)
Definition getitem_int (v : json) (i : nat) : result json :=
  match v with
  | JArr xs =>
      match nth_error xs i with Some x => Ok x | None => Raise IndexError end
  | JStr s =>
      match String.get i s with
      | Some c => Ok (JStr (String c EmptyString))
      | None => Raise IndexError
      end
  | JObj _ => Raise KeyError
  | _ => Raise TypeError
  end.

(** [v[k]] for a string literal [k]. *)
Definition getitem_str (v : json) (k : string) : result json :=
  match v with
  | JObj kvs =>
      match assoc k kvs with Some x => Ok x | None => Raise KeyError end
  | _ => Raise TypeError
  end.

(** [v == "literal"] *)
Definition eq_str (v : json) (s : string) : bool :=
  match v with
  | JStr s' => String.eqb s' s
  | _ => false
  end.

(** ["k" in v]: key of a dict, element of a list, substring of a str. *)
Definition contains (k : string) (v : json) : result bool :=
  match v with
  | JObj kvs => Ok (match assoc k kvs with Some _ => true | None => false end)
  | JArr xs => Ok (existsb (fun x => eq_str x k) xs)
  | JStr s => Ok (match String.index 0 k s with Some _ => true | None => false end)
  | _ => Raise TypeError
  end.

(** [l[start:]] with Python's treatment of a negative or overlong start. *)
Definition slice_from {A} (start : Z) (l : list A) : list A :=
  let n := Z.of_nat (List.length l) in
  let lo := if (start <? 0)%Z then Z.max 0 (n + start) else Z.min start n in
  skipn (Z.to_nat lo) l.

Section Builtins.

(** [float(s)] on a [str]: Python's decimal parser, [None] on the strings
    for which it raises [ValueError]. *)
Variable float_of_str : string -> option float.

(** [float(v)] *)
Definition py_float (v : json) : result float :=
  match v with
  | JNum x => Ok x
  | JBool b => Ok (if b then 1%float else 0%float)
  | JStr s =>
      match float_of_str s with
      | Some x => Ok x
      | None => Raise ValueError
      end
  | _ => Raise TypeError
  end.

End Builtins.

(** [for x in v]: the elements of a list, the keys of a dict, the
    characters of a str. *)
Definition py_iter (v : json) : result (list json) :=
  match v with
  | JArr xs => Ok xs
  | JObj kvs => Ok (map (fun kv => JStr (fst kv)) kvs)
  | JStr s => Ok (map (fun c => JStr (String c EmptyString)) (list_ascii_of_string s))
  | _ => Raise TypeError
  end.

(** A method that mutates its object and may raise: the state reached
    when the exception leaves is kept. *)
Definition ST (S A : Type) : Type := S -> S * result A.

Definition ret {S A} (a : A) : ST S A := fun s => (s, Ok a).

Definition raise {S A} (e : exn) : ST S A := fun s => (s, Raise e).

Definition bind {S A B} (c : ST S A) (k : A -> ST S B) : ST S B :=
  fun s =>
    match c s with
    | (s', Ok a) => k a s'
    | (s', Raise e) => (s', Raise e)
    end.

Definition get {S} : ST S S := fun s => (s, Ok s).

Definition modify {S} (f : S -> S) : ST S unit := fun s => (f s, Ok tt).

Definition lift {S A} (r : result A) : ST S A := fun s => (s, r).

End Py.

Declare Scope result_scope.
Delimit Scope result_scope with result.
Notation "x <- c1 ;; c2" := (Py.rbind c1 (fun x => c2))
  (at level 61, c1 at next level, right associativity) : result_scope.

Declare Scope st_scope.
Delimit Scope st_scope with st.
Notation "x <- c1 ;; c2" := (Py.bind c1 (fun x => c2))
  (at level 61, c1 at next level, right associativity) : st_scope.
Notation "c1 ;; c2" := (Py.bind c1 (fun _ => c2))
  (at level 61, right associativity) : st_scope.

(** ** [websocket_manager.py]: the price state model *)

Module PriceModel.
Import Py.
#[local] Open Scope float_scope.

Record OrderBookState : Type := mkBook {
  symbol : string;
  best_bid : float;
  best_ask : float;
  bid_size : float;
  ask_size : float;
  last_update : float
}.

Definition is_valid (b : OrderBookState) : bool :=
  (0 <? best_bid b) && (0 <? best_ask b).

Record PriceState : Type := mkPrices {
  spot : OrderBookState;
  perp : OrderBookState
}.

Definition is_ready (p : PriceState) : bool :=
  is_valid (spot p) && is_valid (perp p).

Definition get_entry_spread (p : PriceState) : float :=
  if negb (is_ready p) then 0
  else (best_bid (perp p) - best_ask (spot p)) / best_ask (spot p).

Definition get_exit_spread (p : PriceState) : float :=
  if negb (is_ready p) then infinity
  else (best_ask (perp p) - best_bid (spot p)) / best_bid (spot p).

(** The state on which the testable properties evaluate
    [entry_spread(spot_ask, perp_bid)] and [exit_spread(spot_bid, perp_ask)]:
    the four best prices as given, sizes and time stamps immaterial. *)
Definition quotes (spot_bid spot_ask perp_bid perp_ask : float) : PriceState :=
  {| spot := mkBook "@107" spot_bid spot_ask 1 1 0;
     perp := mkBook "HYPE" perp_bid perp_ask 1 1 0 |}.

End PriceModel.

(** ** [websocket_manager.py]: the market data stream *)

Module WebSocketManager.
Import Py PriceModel.
#[local] Open Scope result_scope.

(** The connection object [websockets.connect] yields; [close()] on it is
    the library's, and closing a closed connection changes nothing. *)
Record socket : Type := mkSocket {
  sock_id : nat;
  sock_open : bool
}.

Definition close (ws : socket) : socket :=
  {| sock_id := sock_id ws; sock_open := false |}.

Section Manager.

(** [config.py] is the operator's and is not part of the repository: its
    constants are parameters. *)
Variable SPOT_SYMBOL PERP_SYMBOL : string.
Variable WS_RECONNECT_DELAY WS_RECONNECT_MAX_DELAY : Z.
Variable float_of_str : string -> option float.
(** The registered listener, an opaque callable. *)
Variable Callback : Type.

Record manager : Type := mkManager {
  on_price_update : option Callback;
  price_state : PriceState;
  _ws : option socket;
  _running : bool;
  _reconnect_delay : Z
}.

(** [WebSocketManager.__init__] *)
Definition init (cb : option Callback) : manager :=
  {| on_price_update := cb;
     price_state :=
       {| spot := mkBook SPOT_SYMBOL 0 0 0 0 0;
          perp := mkBook PERP_SYMBOL 0 0 0 0 0 |};
     _ws := None;
     _running := false;
     _reconnect_delay := WS_RECONNECT_DELAY |}.

Definition set_spot (m : manager) (b : OrderBookState) : manager :=
  {| on_price_update := on_price_update m;
     price_state := {| spot := b; perp := perp (price_state m) |};
     _ws := _ws m;
     _running := _running m;
     _reconnect_delay := _reconnect_delay m |}.

Definition set_perp (m : manager) (b : OrderBookState) : manager :=
  {| on_price_update := on_price_update m;
     price_state := {| spot := spot (price_state m); perp := b |};
     _ws := _ws m;
     _running := _running m;
     _reconnect_delay := _reconnect_delay m |}.

(** [float(side[0][key]) if side else 0.0] *)
Definition top_of_book (side : json) (key : string) : result float :=
  if truthy side then
    lvl <- getitem_int side 0 ;;
    v <- getitem_str lvl key ;;
    py_float float_of_str v
  else Ok 0%float.

(** The reading of [book_data["levels"]] in [_handle_message]: best bid,
    best ask, bid size, ask size. *)
Definition read_levels (book_data : json) : result (float * float * float * float) :=
  levels <- dict_get book_data "levels" (JArr [JArr []; JArr []]) ;;
  n0 <- py_len levels ;;
  bids <- (if Nat.ltb 0 n0 then getitem_int levels 0 else Ok (JArr [])) ;;
  n1 <- py_len levels ;;
  asks <- (if Nat.ltb 1 n1 then getitem_int levels 1 else Ok (JArr [])) ;;
  best_bid <- top_of_book bids "px" ;;
  best_ask <- top_of_book asks "px" ;;
  bid_size <- top_of_book bids "sz" ;;
  ask_size <- top_of_book asks "sz" ;;
  Ok (best_bid, best_ask, bid_size, ask_size).

(** The listener call at the end of [_handle_message], recorded with the
    price state it is given. *)
Definition notify (m : manager) : list (Callback * PriceState) :=
  match on_price_update m with
  | Some cb => if is_ready (price_state m) then [(cb, price_state m)] else []
  | None => []
  end.

(** [_handle_message(data)], with [timestamp] the reading of [time.time()].
    Every step that can raise comes before the first assignment to
    [self.price_state], so the result is either an exception with [self]
    untouched or the new manager with the listener calls made. *)
Definition _handle_message (data : json) (timestamp : float) (m : manager)
  : result (manager * list (Callback * PriceState)) :=
  channel <- dict_get data "channel" JNull ;;
  if eq_str channel "subscriptionResponse" then Ok (m, [])
  else if eq_str channel "l2Book" then
    book_data <- dict_get data "data" (JObj []) ;;
    coin <- dict_get book_data "coin" (JStr "") ;;
    top <- read_levels book_data ;;
    let '(best_bid, best_ask, bid_size, ask_size) := top in
    let m' :=
      if eq_str coin SPOT_SYMBOL then
        set_spot m (mkBook SPOT_SYMBOL best_bid best_ask bid_size ask_size timestamp)
      else if eq_str coin PERP_SYMBOL then
        set_perp m (mkBook PERP_SYMBOL best_bid best_ask bid_size ask_size timestamp)
      else m in
    Ok (m', notify m')
  else Ok (m, []).

(** [await self._ws.close()] when [self._ws] is set; [self._ws] keeps
    pointing at the closed connection. *)
Definition close_ws (m : manager) : manager :=
  {| on_price_update := on_price_update m;
     price_state := price_state m;
     _ws := option_map close (_ws m);
     _running := _running m;
     _reconnect_delay := _reconnect_delay m |}.

Definition set_running (m : manager) (b : bool) : manager :=
  {| on_price_update := on_price_update m;
     price_state := price_state m;
     _ws := _ws m;
     _running := b;
     _reconnect_delay := _reconnect_delay m |}.

(** [disconnect()]: clear the flag, then close the socket when there is
    one. *)
Definition disconnect (m : manager) : manager :=
  close_ws (set_running m false).

(** *** [connect()] as a coroutine

    [connect()] suspends at three [await]s: in [websockets.connect], in the
    [async for] of [_listen], and in [asyncio.sleep].  A [task] is the
    manager together with the point the coroutine is suspended at and what
    it has done so far; the event loop resumes it with an [event]. *)
Inductive point : Type :=
| Connecting
| Listening
| Sleeping (delay : Z)
| Returned.

Inductive event : Type :=
| ConnectOk (ws : socket)
| ConnectFail
| Frame (data : option json) (timestamp : float)
| SessionEnd
| SleepDone
| Disconnect.

Record task : Type := mkTask {
  self : manager;
  at_point : point;
  sleeps : list Z;
  sent : list (string * string);
  calls : list (Callback * PriceState)
}.

Definition with_self (t : task) (m : manager) : task :=
  {| self := m; at_point := at_point t; sleeps := sleeps t;
     sent := sent t; calls := calls t |}.

Definition goto (t : task) (p : point) : task :=
  {| self := self t; at_point := p; sleeps := sleeps t;
     sent := sent t; calls := calls t |}.

Definition set_delay (m : manager) (d : Z) : manager :=
  {| on_price_update := on_price_update m;
     price_state := price_state m;
     _ws := _ws m;
     _running := _running m;
     _reconnect_delay := d |}.

Definition set_ws (m : manager) (ws : socket) : manager :=
  {| on_price_update := on_price_update m;
     price_state := price_state m;
     _ws := Some ws;
     _running := _running m;
     _reconnect_delay := _reconnect_delay m |}.

(** [while self._running:] *)
Definition loop_head (t : task) : task :=
  if _running (self t) then goto t Connecting else goto t Returned.

(** The tail of the loop body, reached when the [try] statement is left:
    [if self._running: await asyncio.sleep(self._reconnect_delay)]. *)
Definition after_try (t : task) : task :=
  if _running (self t) then
    {| self := self t;
       at_point := Sleeping (_reconnect_delay (self t));
       sleeps := sleeps t ++ [_reconnect_delay (self t)];
       sent := sent t;
       calls := calls t |}
  else loop_head t.

(** [connect()] up to its first suspension. *)
Definition connect (m : manager) : task :=
  loop_head
    {| self := set_running m true; at_point := Connecting;
       sleeps := []; sent := []; calls := [] |}.

(** One resumption of the coroutine, or one run of [disconnect()] by
    another task while the coroutine is suspended.
    - [ConnectOk ws]: [websockets.connect] yields [ws]; the delay is reset
      and the two subscriptions go out.
    - [ConnectFail]: [websockets.connect] raises.
    - [Frame]: the [async for] yields a message, [None] when [json.loads]
      raises on it; an exception of the handler is logged and the message
      skipped.
    - [SessionEnd]: the [async for] ends or raises; leaving the
      [async with] block closes the connection.
    - [SleepDone]: [asyncio.sleep] returns, the whole delay having passed.
    - [Disconnect]: [disconnect()] runs.
    An event the coroutine is not waiting for leaves it where it is. *)
Definition step (e : event) (t : task) : task :=
  match e, at_point t with
  | Disconnect, _ => with_self t (disconnect (self t))
  | ConnectOk ws, Connecting =>
      let m := set_delay (set_ws (self t) ws) WS_RECONNECT_DELAY in
      {| self := m;
         at_point := Listening;
         sleeps := sleeps t;
         sent := sent t ++ [("l2Book"%string, SPOT_SYMBOL); ("l2Book"%string, PERP_SYMBOL)];
         calls := calls t |}
  | ConnectFail, Connecting => after_try t
  | Frame (Some data) timestamp, Listening =>
      match _handle_message data timestamp (self t) with
      | Ok (m, cs) =>
          {| self := m; at_point := Listening; sleeps := sleeps t;
             sent := sent t; calls := calls t ++ cs |}
      | Raise _ => t
      end
  | Frame None _, Listening => t
  | SessionEnd, Listening => after_try (with_self t (close_ws (self t)))
  | SleepDone, Sleeping _ =>
      loop_head
        (with_self t
           (set_delay (self t)
              (Z.min (_reconnect_delay (self t) * 2) WS_RECONNECT_MAX_DELAY)))
  | _, _ => t
  end.

Definition run (es : list event) (t : task) : task :=
  fold_left (fun t e => step e t) es t.

(** A reconnection attempt that fails, followed by its whole wait. *)
Definition failed_attempt : list event := [ConnectFail; SleepDone].

Fixpoint failed_attempts (k : nat) : list event :=
  match k with
  | O => []
  | S k' => failed_attempt ++ failed_attempts k'
  end.

(** The waits the backoff rule prescribes for [k] failures in a row. *)
Definition backoff (k : nat) : list Z :=
  map (fun i => Z.min (2 ^ Z.of_nat i * WS_RECONNECT_DELAY) WS_RECONNECT_MAX_DELAY)
    (seq 0 k).

End Manager.

Arguments on_price_update {Callback} m.
Arguments price_state {Callback} m.
Arguments _ws {Callback} m.
Arguments _running {Callback} m.
Arguments _reconnect_delay {Callback} m.
Arguments set_spot {Callback} m b.
Arguments set_perp {Callback} m b.
Arguments set_running {Callback} m b.
Arguments set_delay {Callback} m d.
Arguments set_ws {Callback} m ws.
Arguments close_ws {Callback} m.
Arguments notify {Callback} m.
Arguments disconnect {Callback} m.
Arguments self {Callback} t.
Arguments at_point {Callback} t.
Arguments sleeps {Callback} t.
Arguments sent {Callback} t.
Arguments calls {Callback} t.
Arguments with_self {Callback} t m.
Arguments goto {Callback} t p.
Arguments loop_head {Callback} t.
Arguments after_try {Callback} t.
Arguments connect {Callback} m.
Arguments init SPOT_SYMBOL PERP_SYMBOL WS_RECONNECT_DELAY {Callback} cb.
Arguments _handle_message SPOT_SYMBOL PERP_SYMBOL float_of_str {Callback}
  data timestamp m.
Arguments step SPOT_SYMBOL PERP_SYMBOL WS_RECONNECT_DELAY WS_RECONNECT_MAX_DELAY
  float_of_str {Callback} e t.
Arguments run SPOT_SYMBOL PERP_SYMBOL WS_RECONNECT_DELAY WS_RECONNECT_MAX_DELAY
  float_of_str {Callback} es t.

End WebSocketManager.

(** ** [trade_events.py]: the event bus *)

Module TradeEvents.
Import Py.
#[local] Open Scope st_scope.

(** [TradeEvent.to_dict()]: the dict appended to [_events]. *)
Record event : Type := mkEvent {
  timestamp : string;
  event_type : string;
  message : string;
  details : list (string * json)
}.

(** The dict [entry_executed] stores in [_current_position]. *)
Record position : Type := mkPosition {
  size : float;
  entry_spot : float;
  entry_perp : float;
  entry_spread : float;
  entry_time : string
}.

Record TradeEventManager : Type := mkBus {
  _events : list event;
  _trades_executed : Z;
  _total_pnl : float;
  _current_position : option position
}.

(** The object in [trade_events.json]; a key may be missing from a file
    this process did not write. *)
Record snapshot : Type := mkSnapshot {
  events : option (list event);
  trades_executed : option Z;
  total_pnl : option float;
  current_position : option position;
  last_update : option string
}.

(** [EVENTS_FILE] on disk: missing, present but not a JSON object (also
    what an interrupted [json.dump] leaves), or a snapshot. *)
Inductive file : Type :=
| Absent
| Garbled
| Stored (data : snapshot).

(** What the file system does with the write of one [_save]. *)
Inductive write_outcome : Type :=
| Written
| OpenRaises
| DumpRaises.

Record world : Type := mkWorld {
  bus : TradeEventManager;
  disk : file;
  clock : nat
}.

Definition with_bus (w : world) (b : TradeEventManager) : world :=
  {| bus := b; disk := disk w; clock := clock w |}.

Definition with_disk (w : world) (f : file) : world :=
  {| bus := bus w; disk := f; clock := clock w |}.

Definition default {A} (d : A) (o : option A) : A :=
  match o with Some a => a | None => d end.

Section Bus.

(** [datetime.now().isoformat()] at the n-th reading of the clock. *)
Variable isoformat_now : nat -> string.
(** The f-strings of [entry_executed] and [exit_executed]. *)
Variable entry_message : float -> float -> float -> string.
Variable exit_message : float -> float -> float -> float -> string.

Definition now : ST world string :=
  fun w =>
    ({| bus := bus w; disk := disk w; clock := S (clock w) |},
     Ok (isoformat_now (clock w))).

(** [_load()] *)
Definition _load : ST world unit :=
  fun w =>
    match disk w with
    | Stored data =>
        (with_bus w
           {| _events := slice_from (-100) (default [] (events data));
              _trades_executed := default 0%Z (trades_executed data);
              _total_pnl := default 0%float (total_pnl data);
              _current_position := current_position data |},
         Ok tt)
    | Garbled => (w, Ok tt)
    | Absent => (w, Ok tt)
    end.

(** [_save()] *)
Definition _save (io : write_outcome) : ST world unit :=
  stamp <- now ;;
  w <- get ;;
  let data :=
    {| events := Some (slice_from (-100) (_events (bus w)));
       trades_executed := Some (_trades_executed (bus w));
       total_pnl := Some (_total_pnl (bus w));
       current_position := _current_position (bus w);
       last_update := Some stamp |} in
  match io with
  | Written => modify (fun w => with_disk w (Stored data))
  | OpenRaises => raise OSError
  | DumpRaises => modify (fun w => with_disk w Garbled) ;; raise OSError
  end.

Definition append_event (e : event) (b : TradeEventManager) : TradeEventManager :=
  {| _events := _events b ++ [e];
     _trades_executed := _trades_executed b;
     _total_pnl := _total_pnl b;
     _current_position := _current_position b |}.

(** [add_event(event_type, message, details)] *)
Definition add_event (io : write_outcome) (event_type message : string)
    (details : option (list (string * json))) : ST world unit :=
  stamp <- now ;;
  let e :=
    {| timestamp := stamp;
       event_type := event_type;
       message := message;
       details := default [] details |} in
  modify (fun w => with_bus w (append_event e (bus w))) ;;
  _save io.

(** [entry_executed(size, spot_price, perp_price, spread)] *)
Definition entry_executed (io : write_outcome)
    (size spot_price perp_price spread : float) : ST world unit :=
  stamp <- now ;;
  modify (fun w =>
    with_bus w
      {| _events := _events (bus w);
         _trades_executed := _trades_executed (bus w);
         _total_pnl := _total_pnl (bus w);
         _current_position :=
           Some {| size := size;
                   entry_spot := spot_price;
                   entry_perp := perp_price;
                   entry_spread := spread;
                   entry_time := stamp |} |}) ;;
  add_event io "entry" (entry_message size spot_price perp_price)
    (Some [("size"%string, JNum size); ("spot_price"%string, JNum spot_price);
           ("perp_price"%string, JNum perp_price); ("spread"%string, JNum spread)]).

(** [exit_executed(size, spot_price, perp_price, net_pnl)] *)
Definition exit_executed (io : write_outcome)
    (size spot_price perp_price net_pnl : float) : ST world unit :=
  modify (fun w =>
    with_bus w
      {| _events := _events (bus w);
         _trades_executed := _trades_executed (bus w) + 1;
         _total_pnl := (_total_pnl (bus w) + net_pnl)%float;
         _current_position := None |}) ;;
  add_event io "exit" (exit_message size spot_price perp_price net_pnl)
    (Some [("size"%string, JNum size); ("spot_price"%string, JNum spot_price);
           ("perp_price"%string, JNum perp_price); ("net_pnl"%string, JNum net_pnl)]).

(** [error(message, details)] *)
Definition error (io : write_outcome) (message : string)
    (details : option (list (string * json))) : ST world unit :=
  add_event io "error" ("⚠️ ERROR: " ++ message)%string details.

(** [get_events(limit)] *)
Definition get_events (limit : Z) : ST world (list event) :=
  _load ;;
  w <- get ;;
  ret (slice_from (- limit) (_events (bus w))).

(** [get_stats()] *)
Definition get_stats : ST world (Z * float * option position) :=
  _load ;;
  w <- get ;;
  ret (_trades_executed (bus w), _total_pnl (bus w), _current_position (bus w)).

(** [reset()] *)
Definition reset (io : write_outcome) : ST world unit :=
  modify (fun w =>
    with_bus w
      {| _events := [];
         _trades_executed := 0;
         _total_pnl := 0%float;
         _current_position := None |}) ;;
  _save io.

(** [TradeEventManager()] on first use: empty fields, then [_load()]. *)
Definition new (f : file) : world :=
  fst (_load
         {| bus := {| _events := [];
                      _trades_executed := 0;
                      _total_pnl := 0%float;
                      _current_position := None |};
            disk := f;
            clock := 0 |}).

(** The mutating operations of the bus, as calls. *)
Inductive call : Type :=
| AddEvent (event_type message : string) (details : option (list (string * json)))
| EntryExecuted (size spot_price perp_price spread : float)
| ExitExecuted (size spot_price perp_price net_pnl : float)
| Error (message : string) (details : option (list (string * json))).

Definition perform (io : write_outcome) (c : call) : ST world unit :=
  match c with
  | AddEvent ty msg d => add_event io ty msg d
  | EntryExecuted sz sp pp sd => entry_executed io sz sp pp sd
  | ExitExecuted sz sp pp pnl => exit_executed io sz sp pp pnl
  | Error msg d => error io msg d
  end.

(** The in-memory bookkeeping of a call, apart from its write: the
    counters and the position mirror it sets. *)
Definition bookkeeping (c : call) (stamp : string) (b : TradeEventManager)
  : Z * float * option position :=
  match c with
  | AddEvent _ _ _ => (_trades_executed b, _total_pnl b, _current_position b)
  | EntryExecuted sz sp pp sd =>
      (_trades_executed b, _total_pnl b,
       Some {| size := sz; entry_spot := sp; entry_perp := pp;
               entry_spread := sd; entry_time := stamp |})
  | ExitExecuted _ _ _ pnl =>
      ((_trades_executed b + 1)%Z, (_total_pnl b + pnl)%float, None)
  | Error _ _ => (_trades_executed b, _total_pnl b, _current_position b)
  end.

Definition kind_of (c : call) : string :=
  match c with
  | AddEvent ty _ _ => ty
  | EntryExecuted _ _ _ _ => "entry"
  | ExitExecuted _ _ _ _ => "exit"
  | Error _ _ => "error"
  end.

(** A sequence of calls, each write completing. *)
Definition perform_all (cs : list call) (w : world) : world :=
  fold_left (fun w c => fst (perform Written c w)) cs w.

(** The most recent [k] elements of [l], in order. *)
Definition most_recent {A} (k : nat) (l : list A) : list A :=
  skipn (List.length l - k) l.

End Bus.

End TradeEvents.

(** ** [test_live_trade.py]: one live trading cycle *)

Module LiveTradingTest.
Import Py.

(** The dict [parse_order_result] returns:
    [{"success": True, "size", "price", "fee", "oid"}] or
    [{"success": False, "error"}]. *)
Inductive fill : Type :=
| Filled (size price fee : float) (oid : json)
| Failed (error : json).

Definition success (f : fill) : bool :=
  match f with Filled _ _ _ _ => true | Failed _ => false end.

(** The arguments of one [self.exchange.order(...)]. *)
Record order_request : Type := mkOrder {
  name : string;
  is_buy : bool;
  sz : float;
  limit_px : float;
  tif : string;
  reduce_only : bool
}.

Record LiveTradingTest : Type := mkTest {
  entry_spot_fill : option fill;
  entry_perp_fill : option fill;
  exit_spot_fill : option fill;
  exit_perp_fill : option fill;
  total_fees : float;
  spot_fees : float;
  perp_fees : float
}.

(** [LiveTradingTest.__init__], the account and clients apart. *)
Definition init : LiveTradingTest :=
  {| entry_spot_fill := None; entry_perp_fill := None;
     exit_spot_fill := None; exit_perp_fill := None;
     total_fees := 0; spot_fees := 0; perp_fees := 0 |}.

(** The P&L block [_print_summary] prints. *)
Record pnl_report : Type := mkReport {
  spot_pnl : float;
  perp_pnl : float;
  gross_pnl : float;
  reported_fees : float;
  net_pnl : float;
  roi : float
}.

(** What a run has done to the outside: the orders submitted, in order,
    and the P&L block of each summary printed ([None] for a summary
    without one). *)
Record run_state : Type := mkRun {
  test : LiveTradingTest;
  orders : list order_request;
  summaries : list (option pnl_report)
}.

Definition with_test (r : run_state) (t : LiveTradingTest) : run_state :=
  {| test := t; orders := orders r; summaries := summaries r |}.

Definition add_fee (t : LiveTradingTest) (fee : float) : LiveTradingTest :=
  {| entry_spot_fill := entry_spot_fill t; entry_perp_fill := entry_perp_fill t;
     exit_spot_fill := exit_spot_fill t; exit_perp_fill := exit_perp_fill t;
     total_fees := (total_fees t + fee)%float;
     spot_fees := spot_fees t; perp_fees := perp_fees t |}.

Definition set_entry_spot (t : LiveTradingTest) (f : fill) : LiveTradingTest :=
  {| entry_spot_fill := Some f; entry_perp_fill := entry_perp_fill t;
     exit_spot_fill := exit_spot_fill t; exit_perp_fill := exit_perp_fill t;
     total_fees := total_fees t;
     spot_fees := spot_fees t; perp_fees := perp_fees t |}.

Definition set_entry_perp (t : LiveTradingTest) (f : fill) : LiveTradingTest :=
  {| entry_spot_fill := entry_spot_fill t; entry_perp_fill := Some f;
     exit_spot_fill := exit_spot_fill t; exit_perp_fill := exit_perp_fill t;
     total_fees := total_fees t;
     spot_fees := spot_fees t; perp_fees := perp_fees t |}.

Definition set_exit_spot (t : LiveTradingTest) (f : fill) : LiveTradingTest :=
  {| entry_spot_fill := entry_spot_fill t; entry_perp_fill := entry_perp_fill t;
     exit_spot_fill := Some f; exit_perp_fill := exit_perp_fill t;
     total_fees := total_fees t;
     spot_fees := spot_fees t; perp_fees := perp_fees t |}.

Definition set_exit_perp (t : LiveTradingTest) (f : fill) : LiveTradingTest :=
  {| entry_spot_fill := entry_spot_fill t; entry_perp_fill := entry_perp_fill t;
     exit_spot_fill := exit_spot_fill t; exit_perp_fill := Some f;
     total_fees := total_fees t;
     spot_fees := spot_fees t; perp_fees := perp_fees t |}.

(** The fixed taker fee rate of [parse_order_result]. *)
Definition taker_fee_rate : float := 0.00025.

Section Cycle.

Variable SPOT_SYMBOL PERP_SYMBOL : string.
Variable float_of_str : string -> option float.
(** [str(result)] and [round(x, ndigits)], Python's. *)
Variable py_str : json -> string.
Variable py_round : float -> Z -> float.
(** The exchange's clients: [info.user_state] behind [get_account_state]
    ([None] when either query raised), the n-th [info.l2_snapshot] round of
    [get_current_prices], and the response to the n-th order. *)
Variable account_state : option (json * json).
Variable l2_snapshot : nat -> string -> result json.
Variable exchange_order : nat -> order_request -> result json.

#[local] Open Scope result_scope.

(** The body of [for status in statuses:]; [None] when the loop runs off
    the end of the list. *)
Fixpoint scan_statuses (statuses : list json) : result (option fill) :=
  match statuses with
  | [] => Ok None
  | status :: rest =>
      has_filled <- contains "filled" status ;;
      if has_filled : bool then
        filled <- getitem_str status "filled" ;;
        v_sz <- dict_get filled "totalSz" (JNum 0) ;;
        total_sz <- py_float float_of_str v_sz ;;
        v_px <- dict_get filled "avgPx" (JNum 0) ;;
        avg_px <- py_float float_of_str v_px ;;
        let fee := (total_sz * avg_px * taker_fee_rate)%float in
        oid <- dict_get filled "oid" JNull ;;
        Ok (Some (Filled total_sz avg_px fee oid))
      else
        has_error <- contains "error" status ;;
        if has_error : bool then
          err <- getitem_str status "error" ;;
          Ok (Some (Failed err))
        else scan_statuses rest
  end.

Definition unknown_result : fill := Failed (JStr "Unknown result format").

(** [parse_order_result(result, order_name)]: the fill, and [self] with
    the fee of a successful fill added to [total_fees]. *)
Definition parse_order_result (result : json) (t : LiveTradingTest)
  : Py.result (LiveTradingTest * fill) :=
  status <- dict_get result "status" JNull ;;
  if negb (eq_str status "ok") then Ok (t, Failed (JStr (py_str result)))
  else
    response <- dict_get result "response" (JObj []) ;;
    ty <- dict_get response "type" JNull ;;
    if eq_str ty "order" then
      data <- dict_get response "data" (JObj []) ;;
      statuses <- dict_get data "statuses" (JArr []) ;;
      items <- py_iter statuses ;;
      found <- scan_statuses items ;;
      match found with
      | Some (Filled total_sz avg_px fee oid) =>
          Ok (add_fee t fee, Filled total_sz avg_px fee oid)
      | Some (Failed err) => Ok (t, Failed err)
      | None => Ok (t, unknown_result)
      end
    else Ok (t, unknown_result).

(** An entry the loop of [parse_order_result] passes over: it has neither
    key. *)
Definition passed_over (status : json) : Prop :=
  contains "filled" status = Ok false /\ contains "error" status = Ok false.

(** [result] has status ["ok"] and a response of type ["order"], and
    [items] are the entries of its [statuses] the loop goes through. *)
Definition reaches_statuses (result : json) (items : list json) : Prop :=
  exists status response ty data statuses : json,
    dict_get result "status" JNull = Ok status /\
    eq_str status "ok" = true /\
    dict_get result "response" (JObj []) = Ok response /\
    dict_get response "type" JNull = Ok ty /\
    eq_str ty "order" = true /\
    dict_get response "data" (JObj []) = Ok data /\
    dict_get data "statuses" (JArr []) = Ok statuses /\
    py_iter statuses = Ok items.

(** [float(book["levels"][side][0]["px"]) if book["levels"][side] else 0] *)
Definition best_px (book : json) (side : nat) : result float :=
  levels <- getitem_str book "levels" ;;
  lvl <- getitem_int levels side ;;
  if truthy lvl then
    levels' <- getitem_str book "levels" ;;
    lvl' <- getitem_int levels' side ;;
    top <- getitem_int lvl' 0 ;;
    px <- getitem_str top "px" ;;
    py_float float_of_str px
  else Ok 0%float.

(** [get_current_prices()], the n-th time it is called: spot bid, spot
    ask, perp bid, perp ask, all zero when anything raised. *)
Definition get_current_prices (n : nat) : float * float * float * float :=
  let attempt :=
    spot_book <- l2_snapshot n SPOT_SYMBOL ;;
    spot_bid <- best_px spot_book 0 ;;
    spot_ask <- best_px spot_book 1 ;;
    perp_book <- l2_snapshot n PERP_SYMBOL ;;
    perp_bid <- best_px perp_book 0 ;;
    perp_ask <- best_px perp_book 1 ;;
    Ok (spot_bid, spot_ask, perp_bid, perp_ask) in
  match attempt with
  | Ok prices => prices
  | Raise _ => (0, 0, 0, 0)%float
  end.

(** [_print_summary()]: the P&L block, printed when all four fills are
    there and succeeded. *)
Definition _print_summary (t : LiveTradingTest) : option pnl_report :=
  match entry_spot_fill t, entry_perp_fill t, exit_spot_fill t, exit_perp_fill t with
  | Some (Filled es_size es_price _ _), Some (Filled ep_size ep_price _ _),
    Some (Filled _ xs_price _ _), Some (Filled _ xp_price _ _) =>
      let spot_pnl := ((xs_price - es_price) * es_size)%float in
      let perp_pnl := ((ep_price - xp_price) * ep_size)%float in
      let gross_pnl := (spot_pnl + perp_pnl)%float in
      let net_pnl := (gross_pnl - total_fees t)%float in
      let total_value := (es_size * es_price)%float in
      let roi :=
        if (0 <? total_value)%float then (net_pnl / total_value * 100)%float
        else 0%float in
      Some {| spot_pnl := spot_pnl; perp_pnl := perp_pnl;
              gross_pnl := gross_pnl; reported_fees := total_fees t;
              net_pnl := net_pnl; roi := roi |}
  | _, _, _, _ => None
  end.

#[local] Close Scope result_scope.
#[local] Open Scope st_scope.

(** [place_spot_order] and [place_perp_order]: the order goes out, then
    its response comes back or the client raises. *)
Definition place_order (req : order_request) : ST run_state json :=
  r <- get ;;
  modify (fun r =>
    {| test := test r; orders := orders r ++ [req]; summaries := summaries r |}) ;;
  lift (exchange_order (List.length (orders r)) req).

Definition place_spot_order (is_buy : bool) (size price : float) : ST run_state json :=
  place_order
    {| name := SPOT_SYMBOL; is_buy := is_buy; sz := size; limit_px := price;
       tif := "Ioc"; reduce_only := false |}.

Definition place_perp_order (is_buy : bool) (size price : float) (reduce_only : bool)
  : ST run_state json :=
  place_order
    {| name := PERP_SYMBOL; is_buy := is_buy; sz := size; limit_px := price;
       tif := "Ioc"; reduce_only := reduce_only |}.

(** [self.<slot> = self.parse_order_result(result, ...)] *)
Definition record_fill (store : LiveTradingTest -> fill -> LiveTradingTest)
    (result : json) : ST run_state fill :=
  r <- get ;;
  tf <- lift (parse_order_result result (test r)) ;;
  modify (fun r => with_test r (store (fst tf) (snd tf))) ;;
  ret (snd tf).

Definition print_summary : ST run_state unit :=
  modify (fun r =>
    {| test := test r; orders := orders r;
       summaries := summaries r ++ [_print_summary (test r)] |}).

(** Step 1 of [run_test]: the margin line, which converts
    [marginSummary.accountValue]. *)
Definition check_account_state : ST run_state unit :=
  match account_state with
  | Some (_, perp) =>
      lift (ms <- dict_get perp "marginSummary" (JObj []) ;;
            av <- dict_get ms "accountValue" (JNum 0) ;;
            _ <- py_float float_of_str av ;;
            Ok tt)%result
  | None => ret tt
  end.

(** [fill.get("size", size)] *)
Definition filled_size (f : fill) (size : float) : float :=
  match f with Filled s _ _ _ => s | Failed _ => size end.

(** [run_test(size_usd)].  The funding-rate line of step 3 only prints and
    cannot raise, and the five-second hold of step 5 only waits. *)
Definition run_test (size_usd : float) : ST run_state unit :=
  check_account_state ;;
  let '(spot_bid, spot_ask, perp_bid, perp_ask) := get_current_prices 0 in
  if (spot_ask =? 0)%float || (perp_bid =? 0)%float then ret tt
  else
    let size := py_round (size_usd / spot_ask)%float 2 in
    let entry_spot_price := py_round (spot_ask * 1.001)%float 4 in
    let entry_perp_price := py_round (perp_bid * 0.999)%float 4 in
    spot_result <- place_spot_order true size entry_spot_price ;;
    es <- record_fill set_entry_spot spot_result ;;
    perp_result <- place_perp_order false size entry_perp_price false ;;
    ep <- record_fill set_entry_perp perp_result ;;
    if negb (success es && success ep) then print_summary
    else
      let '(spot_bid, spot_ask, perp_bid, perp_ask) := get_current_prices 1 in
      let exit_spot_price := py_round (spot_bid * 0.999)%float 4 in
      let exit_perp_price := py_round (perp_ask * 1.001)%float 4 in
      let filled_spot_size := filled_size es size in
      let filled_perp_size := filled_size ep size in
      spot_result <- place_spot_order false filled_spot_size exit_spot_price ;;
      _ <- record_fill set_exit_spot spot_result ;;
      perp_result <- place_perp_order true filled_perp_size exit_perp_price true ;;
      _ <- record_fill set_exit_perp perp_result ;;
      print_summary.

(** A whole run of the script: a new [LiveTradingTest], then
    [run_test(size_usd)]. *)
Definition fresh : run_state :=
  {| test := init; orders := []; summaries := [] |}.

End Cycle.

End LiveTradingTest.

(** ** Concrete inputs

    The configuration of [config.example.py] with the reconnect delays of
    the spec's backoff example, and the frames and managers the theorems
    below are run on. *)

Module Examples.
Import Py PriceModel.

Definition SPOT_SYMBOL : string := "@107".
Definition PERP_SYMBOL : string := "HYPE".

(** A [float(...)] under which no string parses: the examples carry their
    numbers as JSON numbers. *)
Definition no_float_of_str (s : string) : option float := None.

(** A manager with a listener and a ready price state, [connect()] running
    and listening. *)
Definition ready_manager (delay : Z) : WebSocketManager.manager unit :=
  {| WebSocketManager.on_price_update := Some tt;
     WebSocketManager.price_state := quotes 9.99 10.00 10.02 10.03;
     WebSocketManager._ws := Some (WebSocketManager.mkSocket 0 true);
     WebSocketManager._running := true;
     WebSocketManager._reconnect_delay := delay |}.

Definition listening (m : WebSocketManager.manager unit) : WebSocketManager.task unit :=
  {| WebSocketManager.self := m;
     WebSocketManager.at_point := WebSocketManager.Listening;
     WebSocketManager.sleeps := [];
     WebSocketManager.sent := [];
     WebSocketManager.calls := [] |}.

(** [{"channel": "l2Book", "data": {"coin": "BTC", "levels": levels}}] *)
Definition btc_frame (levels : json) : json :=
  JObj [("channel", JStr "l2Book");
        ("data", JObj [("coin", JStr "BTC"); ("levels", levels)])]%string.

(** [{"channel": "l2Book", "data": {"coin": "@107", "levels": levels}}] *)
Definition spot_frame (levels : json) : json :=
  JObj [("channel", JStr "l2Book");
        ("data", JObj [("coin", JStr "@107"); ("levels", levels)])]%string.

(** One bid and one ask, well formed. *)
Definition good_levels : json :=
  JArr [JArr [JObj [("px", JNum 30000); ("sz", JNum 1)]%string];
        JArr [JObj [("px", JNum 30001); ("sz", JNum 2)]%string]].

(** A bid level that lacks its price. *)
Definition levels_without_px : json :=
  JArr [JArr [JObj [("sz", JNum 1)]%string]; JArr []].

(** The readings of the clock and the f-string messages of the bus. *)
Definition clock_reading (n : nat) : string := "2025-01-01T00:00:00".
Definition entry_text (size spot_price perp_price : float) : string := "ENTRY".
Definition exit_text (size spot_price perp_price net_pnl : float) : string := "EXIT".

(** [{"status": "ok", "response": {"type": "order",
      "data": {"statuses": statuses}}}] *)
Definition order_response (statuses : list json) : json :=
  JObj [("status", JStr "ok");
        ("response",
         JObj [("type", JStr "order");
               ("data", JObj [("statuses", JArr statuses)])])]%string.

Definition filled_status (total_sz avg_px : float) : json :=
  JObj [("filled",
         JObj [("totalSz", JNum total_sz); ("avgPx", JNum avg_px);
               ("oid", JNum 77)])]%string.

Definition error_status : json :=
  JObj [("error", JStr "Insufficient margin")]%string.

Definition resting_status : json :=
  JObj [("resting", JObj [("oid", JNum 78)])]%string.

(** [str(result)], immaterial here. *)
Definition repr (v : json) : string := "<result>".

(** An exchange that quotes 10.00 / 10.01 on both books and fills every
    order in full at its limit price, and a [round] that leaves its
    argument alone. *)
Definition quoted_book (symbol : string) : json :=
  JObj [("coin", JStr symbol);
        ("levels",
         JArr [JArr [JObj [("px", JNum 10.00); ("sz", JNum 5)]];
               JArr [JObj [("px", JNum 10.01); ("sz", JNum 5)]]])]%string.

Definition l2_quotes (n : nat) (symbol : string) : result json :=
  Ok (quoted_book symbol).

Definition fills_in_full (n : nat) (req : LiveTradingTest.order_request)
  : result json :=
  Ok (order_response
        [filled_status (LiveTradingTest.sz req) (LiveTradingTest.limit_px req)]).

Definition no_rounding (x : float) (ndigits : Z) : float := x.

End Examples.

(** ** Observations on runs

    What the invariants below count and compare: the frames and the
    successful connects among the events given to [connect()], the
    subscription requests of a number of sessions, and sequences of bus
    operations with reads among the mutating calls. *)

Module StreamObservers.
Import PriceModel WebSocketManager.

Definition is_frame (e : event) : bool :=
  match e with Frame _ _ => true | _ => false end.

Definition is_connect_ok (e : event) : bool :=
  match e with ConnectOk _ => true | _ => false end.

Definition frames_among (es : list event) : nat :=
  List.length (filter is_frame es).

Definition connects_among (es : list event) : nat :=
  List.length (filter is_connect_ok es).

(** The requests [n] sessions send: for each, the spot book then the perp
    book. *)
Fixpoint subscriptions (SPOT_SYMBOL PERP_SYMBOL : string) (n : nat)
  : list (string * string) :=
  match n with
  | O => []
  | S n' =>
      subscriptions SPOT_SYMBOL PERP_SYMBOL n'
        ++ [("l2Book"%string, SPOT_SYMBOL); ("l2Book"%string, PERP_SYMBOL)]
  end.

Section Observed.

Variable SPOT_SYMBOL PERP_SYMBOL : string.
Variable Callback : Type.

(** What every step keeps: the calls made so far were all on ready
    states, there are no more of them than frames seen, none without a
    listener, and each book carries the symbol of its leg. *)
Definition well_observed (cb : option Callback) (n : nat) (t : task Callback) : Prop :=
  Forall (fun c => is_ready (snd c) = true) (calls t) /\
  (List.length (calls t) <= n)%nat /\
  on_price_update (self t) = cb /\
  (cb = None -> calls t = []) /\
  symbol (spot (price_state (self t))) = SPOT_SYMBOL /\
  symbol (perp (price_state (self t))) = PERP_SYMBOL.

End Observed.

End StreamObservers.

Module BusTraces.
Import Py TradeEvents.

(** An operation on the bus: a mutating call, or one of the two reads. *)
Inductive op : Type :=
| Mutate (c : call)
| ReadEvents (limit : Z)
| ReadStats.

Fixpoint calls_of (ops : list op) : list call :=
  match ops with
  | [] => []
  | Mutate c :: rest => c :: calls_of rest
  | _ :: rest => calls_of rest
  end.

Definition is_exit (c : call) : bool :=
  match c with ExitExecuted _ _ _ _ => true | _ => false end.

Definition exits_among (cs : list call) : nat :=
  List.length (filter is_exit cs).

(** The net P&L of the exits of [cs] added to [start], in call order. *)
Definition pnl_after (cs : list call) (start : float) : float :=
  fold_left
    (fun acc c =>
       match c with
       | ExitExecuted _ _ _ net_pnl => (acc + net_pnl)%float
       | _ => acc
       end) cs start.

(** Whether a position is open after [cs]: the last entry or exit
    decides. *)
Definition open_after (cs : list call) (start : bool) : bool :=
  fold_left
    (fun b c =>
       match c with
       | EntryExecuted _ _ _ _ => true
       | ExitExecuted _ _ _ _ => false
       | _ => b
       end) cs start.

Definition is_some {A} (o : option A) : bool :=
  match o with Some _ => true | None => false end.

(** The bus with its list cut to the most recent 100 events. *)
Definition truncated (b : TradeEventManager) : TradeEventManager :=
  {| _events := most_recent 100 (_events b);
     _trades_executed := _trades_executed b;
     _total_pnl := _total_pnl b;
     _current_position := _current_position b |}.

(** A world [r] that has also served reads, against the world [p] of the
    mutating calls alone: same clock, same file, same counters and position
    mirror, the same most recent 100 events, and the file (when there is
    one) holding what [p] has in memory. *)
Definition in_step (r p : world) : Prop :=
  clock r = clock p /\
  disk r = disk p /\
  _trades_executed (bus r) = _trades_executed (bus p) /\
  _total_pnl (bus r) = _total_pnl (bus p) /\
  _current_position (bus r) = _current_position (bus p) /\
  most_recent 100 (_events (bus r)) = most_recent 100 (_events (bus p)) /\
  match disk p with
  | Absent => True
  | Garbled => False
  | Stored data =>
      events data = Some (most_recent 100 (_events (bus p))) /\
      trades_executed data = Some (_trades_executed (bus p)) /\
      total_pnl data = Some (_total_pnl (bus p)) /\
      current_position data = _current_position (bus p)
  end.

Section Traces.

Variable isoformat_now : nat -> string.
Variable entry_message : float -> float -> float -> string.
Variable exit_message : float -> float -> float -> float -> string.

(** One operation, its write (if it has one) completing. *)
Definition exec (o : op) (w : world) : world :=
  match o with
  | Mutate c => fst (perform isoformat_now entry_message exit_message Written c w)
  | ReadEvents limit => fst (get_events limit w)
  | ReadStats => fst (get_stats w)
  end.

Definition exec_all (ops : list op) (w : world) : world :=
  fold_left (fun w o => exec o w) ops w.

End Traces.

End BusTraces.

(** ** Sessions on the bus

    What processes do with the bus over time: mutating calls, reads, and
    restarts (a new process creating the bus over the file the last one
    left), and the events the calls of a session appended. *)

Module BusSessions.
Import Py TradeEvents.

Inductive action : Type :=
| Call (c : call)
| GetEvents (limit : Z)
| GetStats
| Restart.

Fixpoint calls_in (acts : list action) : list call :=
  match acts with
  | [] => []
  | Call c :: rest => c :: calls_in rest
  | _ :: rest => calls_in rest
  end.

Section Sessions.

Variable isoformat_now : nat -> string.
Variable entry_message : float -> float -> float -> string.
Variable exit_message : float -> float -> float -> float -> string.

(** The [TradeEvent] a call builds and appends, in the world it is called
    in: [entry_executed] reads the clock once for [entry_time] before
    [add_event] reads it for the event. *)
Definition event_of (c : call) (w : world) : event :=
  match c with
  | AddEvent ty msg d =>
      {| timestamp := isoformat_now (clock w); event_type := ty;
         message := msg; details := default [] d |}
  | EntryExecuted sz sp pp sd =>
      {| timestamp := isoformat_now (S (clock w)); event_type := "entry";
         message := entry_message sz sp pp;
         details := [("size"%string, JNum sz); ("spot_price"%string, JNum sp);
                     ("perp_price"%string, JNum pp); ("spread"%string, JNum sd)] |}
  | ExitExecuted sz sp pp pnl =>
      {| timestamp := isoformat_now (clock w); event_type := "exit";
         message := exit_message sz sp pp pnl;
         details := [("size"%string, JNum sz); ("spot_price"%string, JNum sp);
                     ("perp_price"%string, JNum pp); ("net_pnl"%string, JNum pnl)] |}
  | Error msg d =>
      {| timestamp := isoformat_now (clock w); event_type := "error";
         message := ("⚠️ ERROR: " ++ msg)%string; details := default [] d |}
  end.

(** A new process: [TradeEventManager()] with empty fields, then
    [_load()] from the file that is there. *)
Definition restart (w : world) : world :=
  fst (_load
         {| bus := {| _events := [];
                      _trades_executed := 0;
                      _total_pnl := 0%float;
                      _current_position := None |};
            disk := disk w;
            clock := clock w |}).

(** One action, its write (if it has one) completing. *)
Definition act (a : action) (w : world) : world :=
  match a with
  | Call c => fst (perform isoformat_now entry_message exit_message Written c w)
  | GetEvents limit => fst (get_events limit w)
  | GetStats => fst (get_stats w)
  | Restart => restart w
  end.

Definition session (acts : list action) (w : world) : world :=
  fold_left (fun w a => act a w) acts w.

(** The events the calls of [acts] appended, in call order, whatever was
    read or restarted in between. *)
Fixpoint appended (acts : list action) (w : world) : list event :=
  match acts with
  | [] => []
  | a :: rest =>
      match a with
      | Call c => event_of c w :: appended rest (act a w)
      | _ => appended rest (act a w)
      end
  end.

End Sessions.

End BusSessions.

(** ** [test_live_trade.py]: the funding rate *)

Module FundingRate.
Import Py.
#[local] Open Scope result_scope.

Section Funding.

Variable PERP_SYMBOL : string.
Variable float_of_str : string -> option float.
(** [self.info.meta()] *)
Variable meta : result json.

(** The body of [for asset in meta.get("universe", []):]; [None] when the
    loop runs off the end. *)
Fixpoint scan_universe (assets : list json) : result (option float) :=
  match assets with
  | [] => Ok None
  | asset :: rest =>
      name <- dict_get asset "name" JNull ;;
      if eq_str name PERP_SYMBOL then
        v <- dict_get asset "funding" (JNum 0) ;;
        x <- py_float float_of_str v ;;
        Ok (Some x)
      else scan_universe rest
  end.

(** [get_funding_rate()] *)
Definition get_funding_rate : float :=
  let attempt :=
    m <- meta ;;
    universe <- dict_get m "universe" (JArr []) ;;
    assets <- py_iter universe ;;
    scan_universe assets in
  match attempt with
  | Ok (Some x) => x
  | Ok None => 0%float
  | Raise _ => 0%float
  end.

End Funding.

End FundingRate.

(** ** [test_live_trade.py]: the plan of a run

    The orders [run_test] builds, named after the steps that submit them,
    and the places where a run can end. *)

Module CyclePlan.
Import Py LiveTradingTest.
#[local] Open Scope result_scope.

Section Plan.

Variable SPOT_SYMBOL PERP_SYMBOL : string.
Variable float_of_str : string -> option float.
Variable py_str : json -> string.
Variable py_round : float -> Z -> float.
Variable l2_snapshot : nat -> string -> result json.

#[local] Notation parse_order_result := (parse_order_result float_of_str py_str).
#[local] Notation get_current_prices :=
  (get_current_prices SPOT_SYMBOL PERP_SYMBOL float_of_str l2_snapshot).

(** *** The four orders of the plan *)

Definition requested_size (size_usd : float) : float :=
  let '(_, spot_ask, _, _) := get_current_prices 0 in
  py_round (size_usd / spot_ask)%float 2.

Definition entry_spot_order (size_usd : float) : order_request :=
  let '(_, spot_ask, _, _) := get_current_prices 0 in
  mkOrder SPOT_SYMBOL true (requested_size size_usd)
    (py_round (spot_ask * 1.001)%float 4) "Ioc" false.

Definition entry_perp_order (size_usd : float) : order_request :=
  let '(_, _, perp_bid, _) := get_current_prices 0 in
  mkOrder PERP_SYMBOL false (requested_size size_usd)
    (py_round (perp_bid * 0.999)%float 4) "Ioc" false.

Definition exit_spot_order (size_usd : float) (entry_spot : fill) : order_request :=
  let '(spot_bid, _, _, _) := get_current_prices 1 in
  mkOrder SPOT_SYMBOL false (filled_size entry_spot (requested_size size_usd))
    (py_round (spot_bid * 0.999)%float 4) "Ioc" false.

Definition exit_perp_order (size_usd : float) (entry_perp : fill) : order_request :=
  let '(_, _, _, perp_ask) := get_current_prices 1 in
  mkOrder PERP_SYMBOL true (filled_size entry_perp (requested_size size_usd))
    (py_round (perp_ask * 1.001)%float 4) "Ioc" true.

(** *** Where a run can end *)

(** The states in which [run_test] on a new [LiveTradingTest] can end,
    with what it returned: before any order (the account line raised, or a
    price was missing); after each order whose submission or parsing
    raised; after the entry, when not both legs filled; or after the
    summary of a whole cycle. *)
Inductive ends_in (size_usd : float) : run_state -> result unit -> Prop :=
| NothingSent (res : result unit) :
    ends_in size_usd fresh res
| SpotEntryRaised (e : exn) :
    ends_in size_usd
      {| test := init;
         orders := [entry_spot_order size_usd];
         summaries := [] |}
      (Raise e)
| PerpEntryRaised (j1 : json) (t1 : LiveTradingTest) (f1 : fill) (e : exn) :
    parse_order_result j1 init = Ok (t1, f1) ->
    ends_in size_usd
      {| test := set_entry_spot t1 f1;
         orders := [entry_spot_order size_usd; entry_perp_order size_usd];
         summaries := [] |}
      (Raise e)
| EntryFailed (j1 j2 : json) (t1 t2 : LiveTradingTest) (f1 f2 : fill) :
    parse_order_result j1 init = Ok (t1, f1) ->
    parse_order_result j2 (set_entry_spot t1 f1) = Ok (t2, f2) ->
    success f1 && success f2 = false ->
    ends_in size_usd
      {| test := set_entry_perp t2 f2;
         orders := [entry_spot_order size_usd; entry_perp_order size_usd];
         summaries := [_print_summary (set_entry_perp t2 f2)] |}
      (Ok tt)
| SpotExitRaised (j1 j2 : json) (t1 t2 : LiveTradingTest) (f1 f2 : fill)
    (e : exn) :
    parse_order_result j1 init = Ok (t1, f1) ->
    parse_order_result j2 (set_entry_spot t1 f1) = Ok (t2, f2) ->
    success f1 && success f2 = true ->
    ends_in size_usd
      {| test := set_entry_perp t2 f2;
         orders := [entry_spot_order size_usd; entry_perp_order size_usd;
                    exit_spot_order size_usd f1];
         summaries := [] |}
      (Raise e)
| PerpExitRaised (j1 j2 j3 : json) (t1 t2 t3 : LiveTradingTest)
    (f1 f2 f3 : fill) (e : exn) :
    parse_order_result j1 init = Ok (t1, f1) ->
    parse_order_result j2 (set_entry_spot t1 f1) = Ok (t2, f2) ->
    success f1 && success f2 = true ->
    parse_order_result j3 (set_entry_perp t2 f2) = Ok (t3, f3) ->
    ends_in size_usd
      {| test := set_exit_spot t3 f3;
         orders := [entry_spot_order size_usd; entry_perp_order size_usd;
                    exit_spot_order size_usd f1; exit_perp_order size_usd f2];
         summaries := [] |}
      (Raise e)
| Summarised (j1 j2 j3 j4 : json) (t1 t2 t3 t4 : LiveTradingTest)
    (f1 f2 f3 f4 : fill) :
    parse_order_result j1 init = Ok (t1, f1) ->
    parse_order_result j2 (set_entry_spot t1 f1) = Ok (t2, f2) ->
    success f1 && success f2 = true ->
    parse_order_result j3 (set_entry_perp t2 f2) = Ok (t3, f3) ->
    parse_order_result j4 (set_exit_spot t3 f3) = Ok (t4, f4) ->
    ends_in size_usd
      {| test := set_exit_perp t4 f4;
         orders := [entry_spot_order size_usd; entry_perp_order size_usd;
                    exit_spot_order size_usd f1; exit_perp_order size_usd f2];
         summaries := [_print_summary (set_exit_perp t4 f4)] |}
      (Ok tt).

End Plan.

(** [acc] with the fee of a recorded fill added when it is a success. *)
Definition with_fee_of (acc : float) (slot : option fill) : float :=
  match slot with
  | Some (Filled _ _ fee _) => (acc + fee)%float
  | _ => acc
  end.

End CyclePlan.

(** ** Further concrete inputs *)

Module MoreExamples.
Import Py PriceModel.
#[local] Open Scope string_scope.

(** One bid and no ask. *)
Definition one_sided_levels : json :=
  JArr [JArr [JObj [("px", JNum 30000); ("sz", JNum 1)]]; JArr []].

(** [{"coin": coin, "levels": levels}] *)
Definition book_of (coin : string) (levels : json) : json :=
  JObj [("coin", JStr coin); ("levels", levels)].

(** A manager whose [connect()] was listening when [disconnect()] ran. *)
Definition stopped : WebSocketManager.task unit :=
  Examples.listening
    (WebSocketManager.set_running (Examples.ready_manager 40) false).

(** An exchange that rejects every order, and one whose books cannot be
    fetched. *)
Definition rejects_all (n : nat) (req : LiveTradingTest.order_request)
  : result json :=
  Ok (Examples.order_response [Examples.error_status]).

Definition no_books (n : nat) (symbol : string) : result json :=
  Raise OSError.

(** A fill reported with its order id alone. *)
Definition bare_fill : json :=
  JObj [("filled", JObj [("oid", JNum 77)])].

(** [{"universe": [{"name": "BTC", ...}, {"name": "HYPE", ...},
                   {"name": "HYPE", ...}]}] *)
Definition listed_twice : json :=
  JObj [("universe",
         JArr [JObj [("name", JStr "BTC"); ("funding", JNum 0.0001)];
               JObj [("name", JStr "HYPE"); ("funding", JNum 0.0000125)];
               JObj [("name", JStr "HYPE"); ("funding", JNum 0.5)]])].

End MoreExamples.

(** * Properties *)

(** ** The price state model *)

Module PriceModelFacts.
Import Py PriceModel.
#[local] Open Scope float_scope.

(** Python's [x == 0] holds of both zeros of binary64, and of nothing that
    compares greater than zero. *)
Lemma zero_is_not_positive (x : float) :
  (x =? 0) = true -> (0 <? x) = false.
Proof.
  rewrite FloatAxioms.eqb_spec, FloatAxioms.ltb_spec.
  change (Prim2SF 0) with (S754_zero false).
  destruct (Prim2SF x) as [s|s| |s m e]; try destruct s; cbn; congruence.
Qed.

Lemma is_ready_positive (p : PriceState) :
  is_ready p = true <->
  (0 <? best_bid (spot p)) = true /\ (0 <? best_ask (spot p)) = true /\
  (0 <? best_bid (perp p)) = true /\ (0 <? best_ask (perp p)) = true.
Proof.
  unfold is_ready, is_valid.
  rewrite !andb_true_iff. tauto.
Qed.

Lemma not_ready_when_a_price_is_zero (p : PriceState) :
  (best_bid (spot p) =? 0) = true \/ (best_ask (spot p) =? 0) = true \/
  (best_bid (perp p) =? 0) = true \/ (best_ask (perp p) =? 0) = true ->
  is_ready p = false.
Proof.
  intros H.
  destruct (is_ready p) eqn:R; [|reflexivity].
  apply is_ready_positive in R.
  destruct R as (A & B & C & D).
  destruct H as [H|[H|[H|H]]]; apply zero_is_not_positive in H; congruence.
Qed.

(** C3, as the specification states it, at the spec's own two examples: the state is
    ready, and under Python's [==] the entry spread of spot ask 10.00 and
    perp bid 10.02 is not 0.0020, nor is the exit spread of spot bid 10.00
    and perp ask 9.995 equal to -0.0005. *)
Lemma spread_examples_are_not_exact :
  is_ready (quotes 9.99 10.00 10.02 10.03) = true /\
  (get_entry_spread (quotes 9.99 10.00 10.02 10.03) =? 0.0020) = false /\
  is_ready (quotes 10.00 10.01 9.99 9.995) = true /\
  (get_exit_spread (quotes 10.00 10.01 9.99 9.995) =? -0.0005) = false.
Proof. repeat split; vm_compute; reflexivity. Qed.

(** C3, amended.  When all four best prices are greater than zero the state
    is ready and the two spreads are the binary64 results of
    [(perp.best_bid - spot.best_ask) / spot.best_ask] and
    [(perp.best_ask - spot.best_bid) / spot.best_bid]; at the spec's
    examples these are 0.0019999999999999575 and -0.00050000000000007818,
    within 1e-15 of 0.0020 and -0.0005; when any of the four best prices
    equals zero the state is not ready, the entry spread is 0 and the exit
    spread is +infinity. *)
Theorem spreads_follow_readiness :
  (forall p : PriceState,
     (0 <? best_bid (spot p)) = true -> (0 <? best_ask (spot p)) = true ->
     (0 <? best_bid (perp p)) = true -> (0 <? best_ask (perp p)) = true ->
     is_ready p = true /\
     get_entry_spread p
       = (best_bid (perp p) - best_ask (spot p)) / best_ask (spot p) /\
     get_exit_spread p
       = (best_ask (perp p) - best_bid (spot p)) / best_bid (spot p)) /\
  (forall spot_bid perp_ask : float,
     (0 <? spot_bid) = true -> (0 <? perp_ask) = true ->
     get_entry_spread (quotes spot_bid 10.00 10.02 perp_ask)
       = 0.0019999999999999575 /\
     (abs (get_entry_spread (quotes spot_bid 10.00 10.02 perp_ask) - 0.0020)
        <? 1e-15) = true) /\
  (forall spot_ask perp_bid : float,
     (0 <? spot_ask) = true -> (0 <? perp_bid) = true ->
     get_exit_spread (quotes 10.00 spot_ask perp_bid 9.995)
       = -0.00050000000000007818 /\
     (abs (get_exit_spread (quotes 10.00 spot_ask perp_bid 9.995) - -0.0005)
        <? 1e-15) = true) /\
  (forall p : PriceState,
     (best_bid (spot p) =? 0) = true \/ (best_ask (spot p) =? 0) = true \/
     (best_bid (perp p) =? 0) = true \/ (best_ask (perp p) =? 0) = true ->
     is_ready p = false /\
     get_entry_spread p = 0 /\
     get_exit_spread p = infinity).
Proof.
  split; [|split; [|split]].
  - intros p A B C D.
    assert (R : is_ready p = true) by (apply is_ready_positive; auto).
    unfold get_entry_spread, get_exit_spread.
    rewrite R. cbn. auto.
  - intros sb pa A B.
    assert (E : get_entry_spread (quotes sb 10.00 10.02 pa)
                = 0.0019999999999999575).
    { unfold get_entry_spread, is_ready, is_valid, quotes. cbn.
      rewrite A, B. vm_compute. reflexivity. }
    rewrite E. split; [reflexivity | vm_compute; reflexivity].
  - intros sa pb A B.
    assert (E : get_exit_spread (quotes 10.00 sa pb 9.995)
                = -0.00050000000000007818).
    { unfold get_exit_spread, is_ready, is_valid, quotes. cbn.
      rewrite A, B. vm_compute. reflexivity. }
    rewrite E. split; [reflexivity | vm_compute; reflexivity].
  - intros p H.
    apply not_ready_when_a_price_is_zero in H.
    unfold get_entry_spread, get_exit_spread.
    rewrite H. cbn. auto.
Qed.

Lemma spreads_follow_readiness_at_quotes :
  (is_ready (quotes 9.99 10.00 10.02 10.03) = true /\
   get_entry_spread (quotes 9.99 10.00 10.02 10.03) = (10.02 - 10.00) / 10.00 /\
   get_exit_spread (quotes 9.99 10.00 10.02 10.03) = (10.03 - 9.99) / 9.99) /\
  (is_ready (quotes 0 10.00 10.02 10.03) = false /\
   get_entry_spread (quotes 0 10.00 10.02 10.03) = 0 /\
   get_exit_spread (quotes 0 10.00 10.02 10.03) = infinity).
Proof.
  split.
  - apply (proj1 spreads_follow_readiness (quotes 9.99 10.00 10.02 10.03));
      reflexivity.
  - apply (proj2 (proj2 (proj2 spreads_follow_readiness))
             (quotes 0 10.00 10.02 10.03)).
    left. reflexivity.
Defined.

End PriceModelFacts.

(** ** The market data stream *)

Module StreamFacts.
Import Py PriceModel WebSocketManager.

Section Stream.

Variable SPOT_SYMBOL PERP_SYMBOL : string.
Variable WS_RECONNECT_DELAY WS_RECONNECT_MAX_DELAY : Z.
Variable float_of_str : string -> option float.
Variable Callback : Type.

#[local] Notation manager := (manager Callback).
#[local] Notation task := (task Callback).
#[local] Notation handle :=
  (@_handle_message SPOT_SYMBOL PERP_SYMBOL float_of_str Callback).
#[local] Notation step :=
  (@step SPOT_SYMBOL PERP_SYMBOL WS_RECONNECT_DELAY WS_RECONNECT_MAX_DELAY
         float_of_str Callback).
#[local] Notation run :=
  (@run SPOT_SYMBOL PERP_SYMBOL WS_RECONNECT_DELAY WS_RECONNECT_MAX_DELAY
        float_of_str Callback).
#[local] Notation init := (@init SPOT_SYMBOL PERP_SYMBOL WS_RECONNECT_DELAY Callback).
#[local] Notation backoff := (backoff WS_RECONNECT_DELAY WS_RECONNECT_MAX_DELAY).

(** *** Frames for a coin that is neither leg *)

Lemma handle_foreign_coin (data channel book_data coin : json)
    (timestamp : float) (m : manager) :
  dict_get data "channel" JNull = Ok channel ->
  eq_str channel "l2Book" = true ->
  dict_get data "data" (JObj []) = Ok book_data ->
  dict_get book_data "coin" (JStr "") = Ok coin ->
  eq_str coin SPOT_SYMBOL = false ->
  eq_str coin PERP_SYMBOL = false ->
  handle data timestamp m
  = match read_levels float_of_str book_data with
    | Ok _ => Ok (m, notify m)
    | Raise e => Raise e
    end.
Proof.
  intros Hch Hl2 Hbd Hcoin Hs Hp.
  unfold _handle_message.
  rewrite Hch. cbn [rbind].
  destruct (eq_str channel "subscriptionResponse") eqn:Hsub.
  { destruct channel; cbn in Hl2, Hsub; try discriminate.
    apply String.eqb_eq in Hl2, Hsub. congruence. }
  rewrite Hl2, Hbd. cbn [rbind]. rewrite Hcoin. cbn [rbind].
  destruct (read_levels float_of_str book_data) as [[[[bb ba] bs] sz]|e];
    cbn [rbind]; [|reflexivity].
  rewrite Hs, Hp. reflexivity.
Qed.

(** C9, amended.  For an [l2Book] frame whose coin is neither the spot nor
    the perp symbol, [_handle_message] converts the top of the book before
    it looks at the coin: when the conversion returns, it leaves the manager
    (both legs with it) unchanged and makes the listener call of [notify],
    which is one call with the unchanged price state when a listener is
    registered and the state is ready, and none when the state is not
    ready; when the conversion raises, the handler raises the same
    exception and the listener is not called.  In [connect()] the frame
    leaves the manager as it was either way, and adds the call of [notify]
    in the first case and no call in the second. *)
Theorem foreign_coin_frame (data channel book_data coin : json)
    (timestamp : float) (m : manager) :
  dict_get data "channel" JNull = Ok channel ->
  eq_str channel "l2Book" = true ->
  dict_get data "data" (JObj []) = Ok book_data ->
  dict_get book_data "coin" (JStr "") = Ok coin ->
  eq_str coin SPOT_SYMBOL = false ->
  eq_str coin PERP_SYMBOL = false ->
  (forall top, read_levels float_of_str book_data = Ok top ->
     handle data timestamp m = Ok (m, notify m)) /\
  (forall e, read_levels float_of_str book_data = Raise e ->
     handle data timestamp m = Raise e) /\
  (forall cb, on_price_update m = Some cb ->
     is_ready (price_state m) = true ->
     notify m = [(cb, price_state m)]) /\
  (is_ready (price_state m) = false -> notify m = []) /\
  (forall t : task, self t = m ->
     self (step (Frame (Some data) timestamp) t) = m) /\
  (forall (t : task) top, self t = m -> at_point t = Listening ->
     read_levels float_of_str book_data = Ok top ->
     calls (step (Frame (Some data) timestamp) t) = calls t ++ notify m) /\
  (forall (t : task) e, self t = m ->
     read_levels float_of_str book_data = Raise e ->
     calls (step (Frame (Some data) timestamp) t) = calls t).
Proof.
  intros Hch Hl2 Hbd Hcoin Hs Hp.
  pose proof (handle_foreign_coin data channel book_data coin timestamp m
                Hch Hl2 Hbd Hcoin Hs Hp) as H.
  repeat apply conj.
  - intros top E. rewrite H, E. reflexivity.
  - intros e E. rewrite H, E. reflexivity.
  - intros cb Hcb R. unfold notify. rewrite Hcb, R. reflexivity.
  - intros R. unfold notify. rewrite R. destruct (on_price_update m); reflexivity.
  - intros t Ht. unfold WebSocketManager.step.
    destruct (at_point t); try exact Ht.
    rewrite Ht, H.
    destruct (read_levels float_of_str book_data); [reflexivity | exact Ht].
  - intros t top Ht Hl E. unfold WebSocketManager.step.
    rewrite Hl, Ht, H, E. reflexivity.
  - intros t e Ht E. unfold WebSocketManager.step.
    destruct (at_point t); try reflexivity.
    rewrite Ht, H, E. reflexivity.
Qed.

(** *** Frames for a leg *)

Lemma notify_cases (m : manager) :
  notify m = [] \/
  exists cb : Callback,
    on_price_update m = Some cb /\
    is_ready (price_state m) = true /\
    notify m = [(cb, price_state m)].
Proof.
  unfold notify.
  destruct (on_price_update m) as [cb|]; [|left; reflexivity].
  destruct (is_ready (price_state m)) eqn:R; [|left; reflexivity].
  right. exists cb. auto.
Qed.

(** A frame that is handled calls the listener at most once, with the
    price state the handler leaves, and only when that state is ready. *)
Theorem listener_sees_ready_states_only (data : json) (timestamp : float)
    (m m' : manager) (cs : list (Callback * PriceState)) :
  handle data timestamp m = Ok (m', cs) ->
  cs = [] \/
  exists cb : Callback,
    on_price_update m' = Some cb /\
    is_ready (price_state m') = true /\
    cs = [(cb, price_state m')].
Proof.
  unfold _handle_message.
  repeat
    match goal with
    | |- context [rbind ?r _] => destruct r; cbn [rbind]
    | |- context [let '(_, _) := ?p in _] => destruct p
    end;
    try discriminate;
    repeat
      match goal with
      | |- context [if ?b then _ else _] => destruct b
      end;
    intros H; inversion H; subst; auto using notify_cases.
Qed.

(** An [l2Book] frame for the spot symbol replaces the spot book by the
    frame's top of book, stamped with the arrival time, and leaves the perp
    book; a frame for the perp symbol (when that differs from the spot
    symbol) does the same to the perp book. *)
Theorem leg_frame_replaces_its_book (data channel book_data coin : json)
    (timestamp : float) (m : manager)
    (best_bid best_ask bid_size ask_size : float) :
  dict_get data "channel" JNull = Ok channel ->
  eq_str channel "l2Book" = true ->
  dict_get data "data" (JObj []) = Ok book_data ->
  dict_get book_data "coin" (JStr "") = Ok coin ->
  read_levels float_of_str book_data
  = Ok (best_bid, best_ask, bid_size, ask_size) ->
  (eq_str coin SPOT_SYMBOL = true ->
   exists m' : manager,
     handle data timestamp m = Ok (m', notify m') /\
     spot (price_state m')
     = mkBook SPOT_SYMBOL best_bid best_ask bid_size ask_size timestamp /\
     perp (price_state m') = perp (price_state m)) /\
  (eq_str coin SPOT_SYMBOL = false -> eq_str coin PERP_SYMBOL = true ->
   exists m' : manager,
     handle data timestamp m = Ok (m', notify m') /\
     perp (price_state m')
     = mkBook PERP_SYMBOL best_bid best_ask bid_size ask_size timestamp /\
     spot (price_state m') = spot (price_state m)).
Proof.
  intros Hch Hl2 Hbd Hcoin Hlv.
  assert (Hsub : eq_str channel "subscriptionResponse" = false).
  { destruct channel; cbn in Hl2 |- *; try discriminate.
    apply String.eqb_eq in Hl2. subst s. reflexivity. }
  split.
  - intros Hs. eexists. split.
    { unfold _handle_message.
      rewrite Hch. cbn [rbind]. rewrite Hsub, Hl2, Hbd. cbn [rbind].
      rewrite Hcoin. cbn [rbind]. rewrite Hlv. cbn [rbind]. rewrite Hs.
      reflexivity. }
    split; reflexivity.
  - intros Hs Hp. eexists. split.
    { unfold _handle_message.
      rewrite Hch. cbn [rbind]. rewrite Hsub, Hl2, Hbd. cbn [rbind].
      rewrite Hcoin. cbn [rbind]. rewrite Hlv. cbn [rbind]. rewrite Hs, Hp.
      reflexivity. }
    split; reflexivity.
Qed.

(** *** What a frame and [disconnect()] leave alone *)

Lemma handle_keeps_connection (data : json) (timestamp : float)
    (m m' : manager) (cs : list (Callback * PriceState)) :
  handle data timestamp m = Ok (m', cs) ->
  _ws m' = _ws m /\ _running m' = _running m /\
  _reconnect_delay m' = _reconnect_delay m.
Proof.
  unfold _handle_message.
  repeat
    match goal with
    | |- context [rbind ?r _] => destruct r; cbn [rbind]
    | |- context [if ?b then _ else _] => destruct b
    | |- context [let '(_, _) := ?p in _] => destruct p
    end;
    intros H; inversion H; subst; cbn; auto.
Qed.

Lemma disconnect_twice (m : manager) :
  disconnect (disconnect m) = disconnect m.
Proof.
  destruct m as [cb ps ws r d].
  unfold disconnect, close_ws, set_running. cbn.
  destruct ws as [[i o]|]; reflexivity.
Qed.

Lemma run_app (es es' : list event) (t : task) :
  run (es ++ es') t = run es' (run es t).
Proof. unfold WebSocketManager.run. apply fold_left_app. Qed.

(** *** [disconnect()] and a pending wait *)

(** C2, amended.  [disconnect()] is idempotent: it returns with
    [_running] cleared and the socket, if there is one, closed (the
    listener, the price state and the stored delay are left alone), and a
    second call changes nothing.  It does not cancel a pending backoff
    wait: run while [connect()] is suspended in [asyncio.sleep(d)], it
    leaves the coroutine suspended in that sleep, and no event but the end
    of the whole wait resumes it; when the wait is over [connect()] returns
    without another connection attempt. *)
Theorem disconnect_leaves_the_wait_pending :
  (forall m : manager,
     _running (disconnect m) = false /\
     _ws (disconnect m) = option_map close (_ws m) /\
     (forall ws, _ws (disconnect m) = Some ws -> sock_open ws = false) /\
     (_ws m = None -> _ws (disconnect m) = None) /\
     on_price_update (disconnect m) = on_price_update m /\
     price_state (disconnect m) = price_state m /\
     _reconnect_delay (disconnect m) = _reconnect_delay m /\
     disconnect (disconnect m) = disconnect m) /\
  (forall (t : task) (d : Z),
     at_point t = Sleeping d ->
     at_point (step Disconnect t) = Sleeping d /\
     self (step Disconnect t) = disconnect (self t) /\
     (forall e, e <> SleepDone ->
        at_point (step e (step Disconnect t)) = Sleeping d) /\
     at_point (step SleepDone (step Disconnect t)) = Returned /\
     sleeps (step SleepDone (step Disconnect t)) = sleeps t).
Proof.
  split.
  - intros m.
    assert (W : _ws (disconnect m) = option_map close (_ws m)) by reflexivity.
    split; [reflexivity|]. split; [exact W|]. split.
    { intros ws H. rewrite W in H.
      destruct (_ws m) as [ws0|]; cbn [option_map] in H; [|discriminate H].
      injection H as <-. reflexivity. }
    split.
    { intros H. rewrite W, H. reflexivity. }
    repeat split. apply disconnect_twice.
  - intros t d Hd.
    assert (A : at_point (step Disconnect t) = Sleeping d)
      by (unfold WebSocketManager.step; cbn; exact Hd).
    repeat split.
    + exact A.
    + intros e He. unfold WebSocketManager.step at 1. rewrite A.
      destruct e as [ws| |[data|] ts| | |]; cbn; try exact Hd; try exact A.
      contradiction He. reflexivity.
    + unfold WebSocketManager.step at 1. rewrite A. reflexivity.
    + unfold WebSocketManager.step at 1. rewrite A. reflexivity.
Qed.

(** *** The backoff schedule *)

Lemma double_capped (j : nat) :
  (WS_RECONNECT_DELAY <= WS_RECONNECT_MAX_DELAY)%Z ->
  Z.min (Z.min (2 ^ Z.of_nat j * WS_RECONNECT_DELAY) WS_RECONNECT_MAX_DELAY * 2)
        WS_RECONNECT_MAX_DELAY
  = Z.min (2 ^ Z.of_nat (S j) * WS_RECONNECT_DELAY) WS_RECONNECT_MAX_DELAY.
Proof.
  intros H.
  rewrite Nat2Z.inj_succ, Z.pow_succ_r by lia.
  assert (P : (1 <= 2 ^ Z.of_nat j)%Z) by (apply Z.pow_le_mono_r with (b := 0%Z); lia).
  nia.
Qed.

Lemma failed_attempts_wait (k : nat) :
  (WS_RECONNECT_DELAY <= WS_RECONNECT_MAX_DELAY)%Z ->
  forall (j : nat) (t : task),
    at_point t = Connecting ->
    _running (self t) = true ->
    _reconnect_delay (self t)
      = Z.min (2 ^ Z.of_nat j * WS_RECONNECT_DELAY) WS_RECONNECT_MAX_DELAY ->
    let t' := run (failed_attempts k) t in
    at_point t' = Connecting /\
    _running (self t') = true /\
    _reconnect_delay (self t')
      = Z.min (2 ^ Z.of_nat (j + k) * WS_RECONNECT_DELAY) WS_RECONNECT_MAX_DELAY /\
    sleeps t'
      = sleeps t ++
        map (fun i => Z.min (2 ^ Z.of_nat (j + i) * WS_RECONNECT_DELAY)
                        WS_RECONNECT_MAX_DELAY) (seq 0 k).
Proof.
  intros Hcap. induction k as [|k IH]; intros j t Hp Hr Hd.
  - cbn. rewrite Nat.add_0_r, app_nil_r. auto.
  - cbn [failed_attempts]. rewrite run_app.
    set (t1 := run failed_attempt t).
    assert (Hp1 : at_point t1 = Connecting).
    { subst t1. unfold WebSocketManager.run, failed_attempt,
        WebSocketManager.step, after_try, loop_head. cbn.
      rewrite Hp. cbn. rewrite Hr. cbn. rewrite Hr. reflexivity. }
    assert (Hr1 : _running (self t1) = true).
    { subst t1. unfold WebSocketManager.run, failed_attempt,
        WebSocketManager.step, after_try, loop_head. cbn.
      rewrite Hp. cbn. rewrite Hr. cbn. rewrite Hr. cbn. exact Hr. }
    assert (Hd1 : _reconnect_delay (self t1)
                  = Z.min (2 ^ Z.of_nat (S j) * WS_RECONNECT_DELAY)
                      WS_RECONNECT_MAX_DELAY).
    { subst t1. unfold WebSocketManager.run, failed_attempt,
        WebSocketManager.step, after_try, loop_head. cbn.
      rewrite Hp. cbn. rewrite Hr. cbn. rewrite Hr. cbn.
      rewrite Hd. apply double_capped. exact Hcap. }
    assert (Hs1 : sleeps t1 = sleeps t ++ [_reconnect_delay (self t)]).
    { subst t1. unfold WebSocketManager.run, failed_attempt,
        WebSocketManager.step, after_try, loop_head. cbn.
      rewrite Hp. cbn. rewrite Hr. cbn. rewrite Hr. reflexivity. }
    destruct (IH (S j) t1 Hp1 Hr1 Hd1) as (A & B & C & D).
    cbv zeta. repeat split; auto.
    + rewrite C. do 3 f_equal. lia.
    + rewrite D, Hs1, Hd, <- app_assoc. f_equal.
      cbn [seq map app]. rewrite Nat.add_0_r. f_equal.
      rewrite <- seq_shift, map_map.
      apply map_ext. intros i. do 3 f_equal. lia.
Qed.

Lemma step_keeps_delay_capped (e : event) (t : task) :
  (WS_RECONNECT_DELAY <= WS_RECONNECT_MAX_DELAY)%Z ->
  (_reconnect_delay (self t) <= WS_RECONNECT_MAX_DELAY)%Z ->
  (_reconnect_delay (self (step e t)) <= WS_RECONNECT_MAX_DELAY)%Z.
Proof.
  intros Hcap H.
  unfold WebSocketManager.step.
  destruct e as [ws| |[data|] ts| | |], (at_point t) eqn:P; cbn; try exact H;
    unfold after_try, loop_head; cbn;
    repeat match goal with
           | |- context [if ?b then _ else _] => destruct b; cbn
           end;
    try exact H; try lia.
  destruct (_handle_message _ _ _ data ts (self t)) as [[m cs]|x] eqn:E;
    cbn; [|exact H].
  apply handle_keeps_connection in E. destruct E as (_ & _ & E).
  rewrite E. exact H.
Qed.

Lemma run_keeps_delay_capped (es : list event) :
  (WS_RECONNECT_DELAY <= WS_RECONNECT_MAX_DELAY)%Z ->
  forall t : task,
    (_reconnect_delay (self t) <= WS_RECONNECT_MAX_DELAY)%Z ->
    (_reconnect_delay (self (run es t)) <= WS_RECONNECT_MAX_DELAY)%Z.
Proof.
  intros Hcap. induction es as [|e es IH]; intros t H; [exact H|].
  cbn. apply IH. apply step_keeps_delay_capped; assumption.
Qed.

(** C4, amended.  Provided the initial delay [D] is at most the cap
    [D_max]: from a connection attempt with the stored delay at [D] (the
    first attempt of [connect()], or the one after a successful connect),
    [k] failed attempts in a row wait [min(2^i * D, D_max)] for
    [i = 0 .. k-1], that is D, 2D, 4D, ... capped at [D_max]; whatever
    happens after [connect()] starts, the stored delay never exceeds
    [D_max]; and a successful connect stores [D] again. *)
Theorem backoff_schedule :
  (WS_RECONNECT_DELAY <= WS_RECONNECT_MAX_DELAY)%Z ->
  (forall (k : nat) (t : task),
     at_point t = Connecting ->
     _running (self t) = true ->
     _reconnect_delay (self t) = WS_RECONNECT_DELAY ->
     sleeps (run (failed_attempts k) t) = sleeps t ++ backoff k) /\
  (forall (cb : option Callback) (k : nat),
     sleeps (run (failed_attempts k) (connect (init cb))) = backoff k) /\
  (forall (cb : option Callback) (es : list event),
     (_reconnect_delay (self (run es (connect (init cb))))
      <= WS_RECONNECT_MAX_DELAY)%Z) /\
  (forall (t : task) (ws : socket),
     at_point t = Connecting ->
     at_point (step (ConnectOk ws) t) = Listening /\
     _reconnect_delay (self (step (ConnectOk ws) t)) = WS_RECONNECT_DELAY).
Proof.
  intros Hcap.
  assert (G : forall (k : nat) (t : task),
             at_point t = Connecting ->
             _running (self t) = true ->
             _reconnect_delay (self t) = WS_RECONNECT_DELAY ->
             sleeps (run (failed_attempts k) t) = sleeps t ++ backoff k).
  { intros k t Hp Hr Hd.
    destruct (failed_attempts_wait k Hcap 0 t Hp Hr) as (_ & _ & _ & S).
    - rewrite Hd. cbn [Z.of_nat]. rewrite Z.pow_0_r. lia.
    - exact S. }
  repeat split.
  - exact G.
  - intros cb k. rewrite G; reflexivity.
  - intros cb es. apply run_keeps_delay_capped; [exact Hcap|]. cbn. exact Hcap.
  - unfold WebSocketManager.step. rewrite H. reflexivity.
  - unfold WebSocketManager.step. rewrite H. reflexivity.
Qed.

End Stream.

(** *** At the example configuration *)

#[local] Open Scope string_scope.

Lemma spot_frame_at_example :
  exists m' : manager unit,
    _handle_message Examples.SPOT_SYMBOL Examples.PERP_SYMBOL
      Examples.no_float_of_str (Examples.spot_frame Examples.good_levels)
      1700000000 (Examples.ready_manager 5)
    = Ok (m', notify m') /\
    spot (price_state m') = mkBook "@107" 30000 30001 1 2 1700000000 /\
    perp (price_state m') = perp (price_state (Examples.ready_manager 5)).
Proof.
  apply (proj1 (leg_frame_replaces_its_book
                  Examples.SPOT_SYMBOL Examples.PERP_SYMBOL
                  Examples.no_float_of_str unit
                  (Examples.spot_frame Examples.good_levels) (JStr "l2Book")
                  (JObj [("coin", JStr "@107");
                         ("levels", Examples.good_levels)])
                  (JStr "@107") 1700000000%float (Examples.ready_manager 5)
                  30000%float 30001%float 1%float 2%float
                  eq_refl eq_refl eq_refl eq_refl eq_refl)).
  reflexivity.
Defined.

Lemma listener_call_at_example :
  [(tt, price_state (Examples.ready_manager 5))] = []
  \/ exists cb : unit,
       on_price_update (Examples.ready_manager 5) = Some cb /\
       is_ready (price_state (Examples.ready_manager 5)) = true /\
       [(tt, price_state (Examples.ready_manager 5))]
       = [(cb, price_state (Examples.ready_manager 5))].
Proof.
  apply (listener_sees_ready_states_only
           Examples.SPOT_SYMBOL Examples.PERP_SYMBOL Examples.no_float_of_str
           unit (Examples.btc_frame Examples.good_levels) 0%float
           (Examples.ready_manager 5) (Examples.ready_manager 5)).
  reflexivity.
Defined.

#[local] Close Scope string_scope.

Import Examples.

(** C9, as the specification states it, at a frame for BTC whose bid level has no
    ["px"]: a listener is registered and the price state is ready, yet
    the handler raises [KeyError] before it reaches the listener, and the
    frame adds no listener call. *)
Lemma malformed_foreign_frame_is_not_announced :
  on_price_update (ready_manager 5) = Some tt /\
  is_ready (price_state (ready_manager 5)) = true /\
  _handle_message SPOT_SYMBOL PERP_SYMBOL no_float_of_str
    (btc_frame levels_without_px) 0 (ready_manager 5) = Raise KeyError /\
  calls (step SPOT_SYMBOL PERP_SYMBOL 5 60 no_float_of_str
           (Frame (Some (btc_frame levels_without_px)) 0)
           (listening (ready_manager 5))) = [].
Proof. repeat split. Qed.

Lemma foreign_coin_frame_at_btc :
  _handle_message SPOT_SYMBOL PERP_SYMBOL no_float_of_str
    (btc_frame good_levels) 0 (ready_manager 5)
  = Ok (ready_manager 5, [(tt, price_state (ready_manager 5))]).
Proof.
  destruct (foreign_coin_frame SPOT_SYMBOL PERP_SYMBOL 5 60 no_float_of_str unit
              (btc_frame good_levels) (JStr "l2Book")
              (JObj [("coin", JStr "BTC"); ("levels", good_levels)]%string)
              (JStr "BTC") 0%float (ready_manager 5)
              eq_refl eq_refl eq_refl eq_refl eq_refl eq_refl)
    as (A & _ & C & _).
  rewrite (A _ eq_refl). rewrite (C tt eq_refl eq_refl). reflexivity.
Defined.

(** C2, as the specification states it, at delay 5: [connect()] fails to connect and
    sleeps; [disconnect()] then leaves it in that sleep, it has not
    returned. *)
Lemma disconnect_does_not_cancel_the_sleep :
  at_point (run SPOT_SYMBOL PERP_SYMBOL 5 60 no_float_of_str [ConnectFail]
              (connect (init SPOT_SYMBOL PERP_SYMBOL 5 (@None unit))))
  = Sleeping 5 /\
  at_point (run SPOT_SYMBOL PERP_SYMBOL 5 60 no_float_of_str
              [ConnectFail; Disconnect]
              (connect (init SPOT_SYMBOL PERP_SYMBOL 5 (@None unit))))
  = Sleeping 5 /\
  at_point (run SPOT_SYMBOL PERP_SYMBOL 5 60 no_float_of_str
              [ConnectFail; Disconnect]
              (connect (init SPOT_SYMBOL PERP_SYMBOL 5 (@None unit))))
  <> Returned.
Proof. repeat split. discriminate. Qed.

Lemma disconnect_during_the_first_wait :
  _running (disconnect (ready_manager 5)) = false /\
  _ws (disconnect (ready_manager 5)) = Some (mkSocket 0 false) /\
  at_point (run SPOT_SYMBOL PERP_SYMBOL 5 60 no_float_of_str
              [ConnectFail; Disconnect]
              (connect (init SPOT_SYMBOL PERP_SYMBOL 5 (@None unit))))
  = Sleeping 5 /\
  at_point (run SPOT_SYMBOL PERP_SYMBOL 5 60 no_float_of_str
              [ConnectFail; Disconnect; SleepDone]
              (connect (init SPOT_SYMBOL PERP_SYMBOL 5 (@None unit))))
  = Returned.
Proof.
  destruct (proj1 (disconnect_leaves_the_wait_pending
                     SPOT_SYMBOL PERP_SYMBOL 5 60 no_float_of_str unit)
              (ready_manager 5))
    as (R & W & _).
  destruct (proj2 (disconnect_leaves_the_wait_pending
                     SPOT_SYMBOL PERP_SYMBOL 5 60 no_float_of_str unit)
              (run SPOT_SYMBOL PERP_SYMBOL 5 60 no_float_of_str [ConnectFail]
                 (connect (init SPOT_SYMBOL PERP_SYMBOL 5 (@None unit))))
              5%Z eq_refl)
    as (A & _ & _ & B & _).
  split; [exact R|]. split; [exact W|]. split; [exact A | exact B].
Defined.

(** C4, as the specification states it, at initial delay 100 and cap 60: the delay
    [connect()] starts from exceeds the cap, and the first wait is 100
    where the capped doubling sequence has 60. *)
Lemma initial_delay_above_the_cap :
  _reconnect_delay
    (self (connect (init SPOT_SYMBOL PERP_SYMBOL 100 (@None unit)))) = 100%Z /\
  sleeps (run SPOT_SYMBOL PERP_SYMBOL 100 60 no_float_of_str (failed_attempts 3)
            (connect (init SPOT_SYMBOL PERP_SYMBOL 100 (@None unit))))
  = [100; 60; 60]%Z /\
  backoff 100 60 3 = [60; 60; 60]%Z.
Proof. repeat split. Qed.

Lemma backoff_schedule_5_60 :
  sleeps (run SPOT_SYMBOL PERP_SYMBOL 5 60 no_float_of_str (failed_attempts 6)
            (connect (init SPOT_SYMBOL PERP_SYMBOL 5 (@None unit))))
  = [5; 10; 20; 40; 60; 60]%Z.
Proof.
  assert (H : (5 <= 60)%Z) by lia.
  destruct (backoff_schedule SPOT_SYMBOL PERP_SYMBOL 5 60 no_float_of_str unit H)
    as (_ & B & _).
  rewrite (B None 6%nat). reflexivity.
Defined.

End StreamFacts.

(** ** The event bus *)

Module BusFacts.
Import Py TradeEvents BusSessions.

(** *** Slices *)

Lemma most_recent_length {A} (k : nat) (l : list A) :
  List.length (most_recent k l) = Nat.min k (List.length l).
Proof. unfold most_recent. rewrite length_skipn. lia. Qed.

Lemma most_recent_suffix {A} (k : nat) (l : list A) :
  firstn (List.length l - k) l ++ most_recent k l = l.
Proof. apply firstn_skipn. Qed.

Lemma most_recent_min {A} (k : nat) (l : list A) :
  most_recent (Nat.min k (List.length l)) l = most_recent k l.
Proof. unfold most_recent. f_equal. lia. Qed.

Lemma slice_from_negative {A} (k : Z) (l : list A) :
  (0 < k)%Z -> slice_from (- k) l = most_recent (Z.to_nat k) l.
Proof.
  intros H. unfold slice_from, most_recent.
  replace (- k <? 0)%Z with true by (symmetry; apply Z.ltb_lt; lia).
  f_equal. lia.
Qed.

Lemma slice_from_zero {A} (l : list A) : slice_from (- 0) l = l.
Proof.
  unfold slice_from. cbn [Z.opp Z.ltb Z.compare].
  replace (Z.to_nat (Z.min 0 (Z.of_nat (List.length l)))) with 0%nat by lia.
  reflexivity.
Qed.

Lemma most_recent_snoc {A} (k : nat) (l : list A) (e : A) :
  most_recent (S k) (l ++ [e]) = most_recent k l ++ [e].
Proof.
  unfold most_recent. rewrite length_app. cbn [List.length].
  replace (List.length l + 1 - S k)%nat with (List.length l - k)%nat by lia.
  rewrite skipn_app.
  replace (List.length l - k - List.length l)%nat with 0%nat by lia.
  reflexivity.
Qed.

Lemma most_recent_of_more {A} (k : nat) (l : list A) :
  most_recent k (most_recent (S k) l) = most_recent k l.
Proof.
  unfold most_recent. rewrite length_skipn, skipn_skipn. f_equal. lia.
Qed.

Lemma most_recent_snoc_eq {A} (k : nat) (a b : list A) (e : A) :
  most_recent (S k) a = most_recent (S k) b ->
  most_recent (S k) (a ++ [e]) = most_recent (S k) (b ++ [e]).
Proof.
  intros H. rewrite !most_recent_snoc.
  rewrite <- (most_recent_of_more k a), <- (most_recent_of_more k b), H.
  reflexivity.
Qed.

Lemma most_recent_twice {A} (k : nat) (l : list A) :
  most_recent k (most_recent k l) = most_recent k l.
Proof.
  unfold most_recent at 1. rewrite most_recent_length.
  replace (Nat.min k (List.length l) - k)%nat with 0%nat by lia.
  reflexivity.
Qed.

Section Bus.

Variable isoformat_now : nat -> string.
Variable entry_message : float -> float -> float -> string.
Variable exit_message : float -> float -> float -> float -> string.

#[local] Notation _load := (_load : ST world unit).
#[local] Notation _save := (_save isoformat_now).
#[local] Notation add_event := (add_event isoformat_now).
#[local] Notation entry_executed := (entry_executed isoformat_now entry_message).
#[local] Notation exit_executed := (exit_executed isoformat_now exit_message).
#[local] Notation perform := (perform isoformat_now entry_message exit_message).
#[local] Notation perform_all := (perform_all isoformat_now entry_message exit_message).
#[local] Notation get_events := (get_events : Z -> ST world (list event)).
#[local] Notation event_of := (event_of isoformat_now entry_message exit_message).
#[local] Notation act := (act isoformat_now entry_message exit_message).
#[local] Notation session := (session isoformat_now entry_message exit_message).
#[local] Notation appended := (appended isoformat_now entry_message exit_message).

(** *** One call *)

(** [_save] touches the disk and the clock only; its outcome is the
    file system's. *)
Lemma save_effect (io : write_outcome) (w : world) :
  bus (fst (_save io w)) = bus w /\
  clock (fst (_save io w)) = S (clock w) /\
  disk (fst (_save io w))
  = match io with
    | Written =>
        Stored {| events := Some (slice_from (-100) (_events (bus w)));
                  trades_executed := Some (_trades_executed (bus w));
                  total_pnl := Some (_total_pnl (bus w));
                  current_position := _current_position (bus w);
                  last_update := Some (isoformat_now (clock w)) |}
    | OpenRaises => disk w
    | DumpRaises => Garbled
    end /\
  snd (_save io w) = match io with Written => Ok tt | _ => Raise OSError end.
Proof. destruct io; repeat split. Qed.

(** [add_event] appends one event, stamped with the clock, whatever the
    write does. *)
Lemma add_event_effect (io : write_outcome) (ty msg : string)
    (d : option (list (string * json))) (w : world) :
  let e := {| timestamp := isoformat_now (clock w); event_type := ty;
              message := msg; details := default [] d |} in
  let w' := fst (add_event io ty msg d w) in
  bus w' = append_event e (bus w) /\
  clock w' = S (S (clock w)) /\
  disk w'
  = match io with
    | Written =>
        Stored {| events := Some (slice_from (-100) (_events (bus w) ++ [e]));
                  trades_executed := Some (_trades_executed (bus w));
                  total_pnl := Some (_total_pnl (bus w));
                  current_position := _current_position (bus w);
                  last_update := Some (isoformat_now (S (clock w))) |}
    | OpenRaises => disk w
    | DumpRaises => Garbled
    end /\
  snd (add_event io ty msg d w)
  = match io with Written => Ok tt | _ => Raise OSError end.
Proof. destruct io; repeat split. Qed.

(** Every call appends exactly one event, of its own kind, and sets the
    counters and the position mirror as [bookkeeping] says: with the
    write completing or not. *)
Lemma perform_in_memory (io : write_outcome) (c : call) (w : world) :
  exists e : event,
    event_type e = kind_of c /\
    _events (bus (fst (perform io c w))) = _events (bus w) ++ [e] /\
    (_trades_executed (bus (fst (perform io c w))),
     _total_pnl (bus (fst (perform io c w))),
     _current_position (bus (fst (perform io c w))))
    = bookkeeping c (isoformat_now (clock w)) (bus w).
Proof.
  destruct c, io; cbn; eexists;
    (split; [|split; [reflexivity|reflexivity]]); reflexivity.
Qed.

Lemma perform_outcome (io : write_outcome) (c : call) (w : world) :
  snd (perform io c w) = match io with Written => Ok tt | _ => Raise OSError end.
Proof. destruct c, io; reflexivity. Qed.

Lemma perform_same_memory (io : write_outcome) (c : call) (w : world) :
  bus (fst (perform io c w)) = bus (fst (perform Written c w)).
Proof. destruct c, io; reflexivity. Qed.

Lemma perform_disk (io : write_outcome) (c : call) (w : world) :
  io <> Written ->
  disk (fst (perform io c w))
  = match io with DumpRaises => Garbled | _ => disk w end.
Proof. destruct c, io; intros H; try reflexivity; contradiction H; reflexivity. Qed.

(** C1, amended.  For every mutating operation ([add_event],
    [entry_executed], [exit_executed], [error]): if writing the snapshot
    file fails, the in-memory state is updated exactly as when the write
    completes (one event of the operation's kind appended, the counters
    and the position mirror set), the file is left as it was or garbled
    by the interrupted dump, and the [OSError] of the write leaves the
    operation and reaches the caller. *)
Theorem write_failure_reaches_the_caller
    (io : write_outcome) (c : call) (w : world) :
  io <> Written ->
  snd (perform io c w) = Raise OSError /\
  bus (fst (perform io c w)) = bus (fst (perform Written c w)) /\
  (exists e : event,
     event_type e = kind_of c /\
     _events (bus (fst (perform io c w))) = _events (bus w) ++ [e] /\
     (_trades_executed (bus (fst (perform io c w))),
      _total_pnl (bus (fst (perform io c w))),
      _current_position (bus (fst (perform io c w))))
     = bookkeeping c (isoformat_now (clock w)) (bus w)) /\
  disk (fst (perform io c w))
  = match io with DumpRaises => Garbled | _ => disk w end.
Proof.
  intros H. repeat split.
  - rewrite perform_outcome. destruct io; [contradiction H|..]; reflexivity.
  - apply perform_same_memory.
  - apply perform_in_memory.
  - apply perform_disk. exact H.
Qed.

(** C5.  From every state of the bus, [entry_executed] followed by
    [exit_executed] with net P&L 0.42 leaves [trades_executed] one higher,
    [total_pnl] higher by 0.42 (the float sum [total_pnl + 0.42]) and the
    position mirror cleared, and appends two events, the entry and then
    exactly one of kind ["exit"]; with both writes completing both calls
    return. *)
Theorem entry_then_exit_bookkeeping
    (io1 io2 : write_outcome) (w : world)
    (size spot_price perp_price spread size' spot_price' perp_price' : float) :
  let w1 := fst (entry_executed io1 size spot_price perp_price spread w) in
  let w2 := fst (exit_executed io2 size' spot_price' perp_price' 0.42 w1) in
  _trades_executed (bus w2) = (_trades_executed (bus w) + 1)%Z /\
  _total_pnl (bus w2) = (_total_pnl (bus w) + 0.42)%float /\
  _current_position (bus w2) = None /\
  (exists e1 e2 : event,
     _events (bus w2) = _events (bus w) ++ [e1; e2] /\
     event_type e1 = "entry"%string /\ event_type e2 = "exit"%string /\
     _events (bus w2) = _events (bus w1) ++ [e2]) /\
  bind (entry_executed Written size spot_price perp_price spread)
       (fun _ => exit_executed Written size' spot_price' perp_price' 0.42) w
  = (fst (exit_executed Written size' spot_price' perp_price' 0.42
            (fst (entry_executed Written size spot_price perp_price spread w))),
     Ok tt).
Proof.
  cbv zeta. repeat split.
  - destruct io1, io2; reflexivity.
  - destruct io1, io2; reflexivity.
  - destruct io1, io2; reflexivity.
  - destruct io1, io2; cbn; do 2 eexists;
      (split; [rewrite <- app_assoc; reflexivity|]); repeat split.
Qed.

(** *** What reaches the disk *)

Lemma perform_persists (c : call) (w : world) :
  exists data : snapshot,
    disk (fst (perform Written c w)) = Stored data /\
    events data
    = Some (most_recent 100 (_events (bus (fst (perform Written c w))))).
Proof.
  destruct c; cbn; eexists; (split; [reflexivity|]); cbn;
    rewrite (slice_from_negative 100) by lia; reflexivity.
Qed.

Lemma perform_all_snoc (cs : list call) (c : call) (w : world) :
  perform_all (cs ++ [c]) w = fst (perform Written c (perform_all cs w)).
Proof. unfold TradeEvents.perform_all. rewrite fold_left_app. reflexivity. Qed.

Lemma perform_all_memory (cs : list call) :
  forall w : world,
    map event_type (_events (bus (perform_all cs w)))
    = map event_type (_events (bus w)) ++ map kind_of cs.
Proof.
  induction cs as [|c cs IH]; intros w.
  - cbn. rewrite app_nil_r. reflexivity.
  - change (perform_all (c :: cs) w)
      with (perform_all cs (fst (perform Written c w))).
    rewrite IH.
    destruct (perform_in_memory Written c w) as (e & K & E & _).
    rewrite E, map_app. cbn [map]. rewrite K, <- app_assoc. reflexivity.
Qed.

(** *** Sessions: calls, reads and restarts *)

(** Every call appends the event [event_of] gives, with the write
    completing or not. *)
Lemma perform_appends (io : write_outcome) (c : call) (w : world) :
  _events (bus (fst (perform io c w))) = _events (bus w) ++ [event_of c w].
Proof. destruct c, io; reflexivity. Qed.

Lemma session_app (xs ys : list action) (w : world) :
  session (xs ++ ys) w = session ys (session xs w).
Proof. unfold BusSessions.session. apply fold_left_app. Qed.

Lemma appended_app (xs ys : list action) :
  forall w : world,
    appended (xs ++ ys) w = appended xs w ++ appended ys (session xs w).
Proof.
  induction xs as [|a xs IH]; intros w; [reflexivity|].
  change (session (a :: xs) w) with (session xs (act a w)).
  destruct a; cbn [app BusSessions.appended]; rewrite IH; reflexivity.
Qed.

Lemma appended_kinds (acts : list action) :
  forall w : world,
    map event_type (appended acts w) = map kind_of (calls_in acts).
Proof.
  induction acts as [|a acts IH]; intros w; [reflexivity|].
  destruct a as [c| | |]; cbn [BusSessions.appended calls_in map];
    rewrite IH; try reflexivity.
  destruct c; reflexivity.
Qed.

(** The reads leave the world their reload leaves. *)
Lemma reads_reload (limit : Z) (w : world) :
  fst (get_events limit w) = fst (_load w) /\
  fst (get_stats w) = fst (_load w).
Proof.
  unfold TradeEvents.get_events, TradeEvents.get_stats, TradeEvents._load, bind.
  destruct (disk w); split; reflexivity.
Qed.

(** A reload, by a read or by a restart, over a file that holds the most
    recent 100 of [h] leaves the most recent 100 of [h] in memory. *)
Lemma reload_most_recent (w : world) (data : snapshot) (h : list event) :
  disk w = Stored data ->
  events data = Some (most_recent 100 h) ->
  _events (bus (fst (_load w))) = most_recent 100 h /\
  disk (fst (_load w)) = disk w.
Proof.
  intros D E. unfold TradeEvents._load. rewrite D. cbn [fst bus with_bus disk _events].
  rewrite E. cbn [default].
  rewrite (slice_from_negative 100) by lia.
  change (Z.to_nat 100) with 100%nat.
  rewrite most_recent_twice. split; [reflexivity | exact D].
Qed.

(** What a session keeps, every write completing, on a bus started with no
    file: memory and the appended events agree on their most recent 100,
    and the file, once there is one, holds the most recent 100 of the
    appended events. *)
Lemma session_keeps_the_file (acts : list action) :
  most_recent 100 (_events (bus (session acts (new Absent))))
  = most_recent 100 (appended acts (new Absent)) /\
  match disk (session acts (new Absent)) with
  | Absent =>
      appended acts (new Absent) = [] /\
      _events (bus (session acts (new Absent))) = []
  | Garbled => False
  | Stored data =>
      events data = Some (most_recent 100 (appended acts (new Absent)))
  end.
Proof.
  induction acts as [|a acts IH] using rev_ind.
  { split; [reflexivity | split; reflexivity]. }
  rewrite session_app, appended_app.
  set (w := session acts (new Absent)) in *.
  set (h := appended acts (new Absent)) in *.
  clearbody w h. destruct IH as (M & F).
  change (session [a] w) with (act a w).
  destruct a as [c|limit| |].
  - cbn [BusSessions.appended BusSessions.act].
    destruct (perform_persists c w) as (data & D & E).
    rewrite D, E, perform_appends.
    assert (X : most_recent 100 (_events (bus w) ++ [event_of c w])
                = most_recent 100 (h ++ [event_of c w]))
      by (apply (most_recent_snoc_eq 99); exact M).
    split; [exact X | rewrite X; reflexivity].
  - cbn [BusSessions.appended BusSessions.act]. rewrite app_nil_r.
    rewrite (proj1 (reads_reload limit w)).
    destruct (disk w) as [| |data] eqn:D; [|contradiction|].
    + unfold TradeEvents._load. rewrite D. cbn [fst]. rewrite D.
      split; [exact M | exact F].
    + destruct (reload_most_recent w data h D F) as (L & K).
      rewrite L, K, D. split; [apply most_recent_twice | exact F].
  - cbn [BusSessions.appended BusSessions.act]. rewrite app_nil_r.
    rewrite (proj2 (reads_reload 0 w)).
    destruct (disk w) as [| |data] eqn:D; [|contradiction|].
    + unfold TradeEvents._load. rewrite D. cbn [fst]. rewrite D.
      split; [exact M | exact F].
    + destruct (reload_most_recent w data h D F) as (L & K).
      rewrite L, K, D. split; [apply most_recent_twice | exact F].
  - cbn [BusSessions.appended BusSessions.act]. rewrite app_nil_r.
    unfold BusSessions.restart.
    destruct (disk w) as [| |data] eqn:D; [|contradiction|].
    + unfold TradeEvents._load. cbn [disk fst bus _events].
      destruct F as (H0 & _). rewrite H0. split; [reflexivity|].
      split; reflexivity.
    + destruct (reload_most_recent
                  {| bus := {| _events := []; _trades_executed := 0;
                               _total_pnl := 0%float;
                               _current_position := None |};
                     disk := Stored data; clock := clock w |}
                  data h eq_refl F) as (L & K).
      rewrite L, K. cbn [disk].
      split; [apply most_recent_twice | exact F].
Qed.

(** C6, amended.  A persist that completes stores exactly the most recent
    [min(n, 100)] of the [n] events in the bus's list, in order.  On a bus
    started with no file, as long as every write completes, the file after
    each mutating call holds exactly the most recent [min(n, 100)] of the
    [n] events appended so far, in append order, whatever reads and
    restarts came in between (each reloads the list from the file); every
    call appends one event, [event_of] it.  In particular 150 calls of
    [add_event] leave the events of calls 51 to 150, a hundred, in the
    file. *)
Theorem persist_keeps_last_100 :
  (forall w : world,
     exists data : snapshot,
       disk (fst (_save Written w)) = Stored data /\
       events data
       = Some (most_recent (Nat.min 100 (List.length (_events (bus w))))
                 (_events (bus w)))) /\
  (forall (cs : list call) (c : call),
     let w := perform_all (cs ++ [c]) (new Absent) in
     map event_type (_events (bus w)) = map kind_of (cs ++ [c]) /\
     exists data : snapshot,
       disk w = Stored data /\
       events data
       = Some (most_recent (Nat.min 100 (List.length (cs ++ [c])))
                 (_events (bus w)))) /\
  (forall (acts : list action) (c : call),
     let w := session (acts ++ [Call c]) (new Absent) in
     let h := appended (acts ++ [Call c]) (new Absent) in
     h = appended acts (new Absent) ++ [event_of c (session acts (new Absent))] /\
     map event_type h = map kind_of (calls_in acts ++ [c]) /\
     exists data : snapshot,
       disk w = Stored data /\
       events data = Some (most_recent (Nat.min 100 (List.length h)) h)) /\
  (forall (io : write_outcome) (c : call) (w : world),
     _events (bus (fst (perform io c w))) = _events (bus w) ++ [event_of c w]) /\
  (forall msg : nat -> string,
     exists data : snapshot,
       disk (perform_all
               (map (fun i => AddEvent "opportunity" (msg i) None) (seq 0 150))
               (new Absent)) = Stored data /\
       events data
       = Some (map (fun i => {| timestamp := isoformat_now (2 * i);
                                event_type := "opportunity";
                                message := msg i;
                                details := [] |}) (seq 50 100))).
Proof.
  split; [|split; [|split; [|split]]].
  - intros w.
    destruct (save_effect Written w) as (_ & _ & D & _).
    rewrite D. eexists. split; [reflexivity|]. cbn [events].
    rewrite (slice_from_negative 100) by lia.
    change (Z.to_nat 100) with 100%nat.
    rewrite most_recent_min. reflexivity.
  - intros cs c. cbv zeta.
    assert (M : map event_type (_events (bus (perform_all (cs ++ [c]) (new Absent))))
                = map kind_of (cs ++ [c])).
    { rewrite perform_all_memory. reflexivity. }
    split; [exact M|].
    rewrite perform_all_snoc.
    destruct (perform_persists c (perform_all cs (new Absent))) as (data & D & E).
    exists data. split; [exact D|].
    rewrite E. f_equal.
    rewrite <- perform_all_snoc.
    rewrite <- (length_map kind_of), <- M, length_map.
    symmetry. apply most_recent_min.
  - intros acts c. cbv zeta.
    assert (H : appended (acts ++ [Call c]) (new Absent)
                = appended acts (new Absent)
                  ++ [event_of c (session acts (new Absent))])
      by (rewrite appended_app; reflexivity).
    split; [exact H|]. split.
    { rewrite appended_kinds.
      assert (C : forall xs, calls_in (xs ++ [Call c]) = calls_in xs ++ [c]).
      { induction xs as [|x xs IHxs]; [reflexivity|].
        destruct x; cbn [app calls_in]; rewrite IHxs; reflexivity. }
      rewrite C. reflexivity. }
    destruct (session_keeps_the_file (acts ++ [Call c])) as (_ & F).
    destruct (disk (session (acts ++ [Call c]) (new Absent))) as [| |data] eqn:D.
    + destruct F as (F & _). rewrite H in F.
      destruct (appended acts (new Absent)); discriminate F.
    + contradiction.
    + exists data. split; [reflexivity|]. rewrite F. f_equal.
      symmetry. apply most_recent_min.
  - apply perform_appends.
  - intros msg. eexists. split; [reflexivity|].
    vm_compute. reflexivity.
Qed.

(** C10.  [get_events(limit)] answers from the list it has after its
    reload, of length [n]: for [limit > 0] exactly the most recent
    [min(limit, n)] events in order, for [limit = 0] all [n] of them.  That
    list is the file's when the file holds a snapshot of at most 100
    events, and the in-memory one when there is no file. *)
Theorem get_events_most_recent (limit : Z) (w : world) :
  let stored := _events (bus (fst (_load w))) in
  let n := List.length stored in
  ((0 < limit)%Z ->
     snd (get_events limit w)
     = Ok (most_recent (Nat.min (Z.to_nat limit) n) stored) /\
     firstn (n - Nat.min (Z.to_nat limit) n) stored
       ++ most_recent (Nat.min (Z.to_nat limit) n) stored = stored /\
     List.length (most_recent (Nat.min (Z.to_nat limit) n) stored)
     = Nat.min (Z.to_nat limit) n) /\
  (limit = 0%Z -> snd (get_events limit w) = Ok stored) /\
  (forall (data : snapshot) (l : list event),
     disk w = Stored data -> events data = Some l ->
     (List.length l <= 100)%nat -> stored = l) /\
  (disk w = Absent -> stored = _events (bus w)).
Proof.
  cbv zeta. repeat split.
  - unfold TradeEvents.get_events, bind, get, ret.
    destruct (TradeEvents._load w) as [w' [[]|e]] eqn:L; cbn.
    + rewrite slice_from_negative by assumption.
      rewrite most_recent_min. reflexivity.
    + unfold TradeEvents._load in L. destruct (disk w); discriminate.
  - apply most_recent_suffix.
  - rewrite most_recent_length. lia.
  - intros ->.
    unfold TradeEvents.get_events, bind, get, ret.
    destruct (TradeEvents._load w) as [w' [[]|e]] eqn:L; cbn.
    + apply f_equal. apply slice_from_zero.
    + unfold TradeEvents._load in L. destruct (disk w); discriminate.
  - intros data l D E Hl.
    unfold TradeEvents._load. rewrite D. cbn. rewrite E. cbn.
    rewrite (slice_from_negative 100) by lia.
    unfold most_recent.
    replace (List.length l - Z.to_nat 100)%nat with 0%nat by lia.
    reflexivity.
  - intros D. unfold TradeEvents._load. rewrite D. reflexivity.
Qed.

(** Reads go through the file: after a call whose write completed,
    [get_stats] answers with the counters and the position mirror the call
    left in memory, and [get_events(limit)] with a slice of the most recent
    100 events. *)
Theorem reads_see_the_last_persist (c : call) (limit : Z) (w : world) :
  let w' := fst (perform Written c w) in
  snd (get_stats w')
  = Ok (_trades_executed (bus w'), _total_pnl (bus w'), _current_position (bus w'))
  /\
  snd (get_events limit w')
  = Ok (slice_from (- limit) (most_recent 100 (_events (bus w')))).
Proof.
  cbv zeta.
  destruct (perform_persists c w) as (data & D & E).
  split.
  - destruct c; reflexivity.
  - unfold TradeEvents.get_events, bind, get, ret, TradeEvents._load.
    rewrite D. cbn. rewrite E. cbn [default].
    rewrite (slice_from_negative 100) by lia.
    change (Z.to_nat 100) with 100%nat.
    rewrite most_recent_twice. reflexivity.
Qed.

End Bus.

(** *** At an example bus *)

Import Examples.

(** C1, as the specification states it, at a new bus with no file: when the file
    cannot be opened, [add_event] does not return, it raises. *)
Lemma failed_write_raises :
  snd (add_event clock_reading OpenRaises "opportunity" "spread 0.20%" None
         (new Absent)) = Raise OSError /\
  returned (snd (add_event clock_reading OpenRaises "opportunity" "spread 0.20%"
                   None (new Absent))) = false.
Proof. split; reflexivity. Qed.

(** C6, as the specification states it, at three appends on a new bus with no
    file: the write of the second fails (the file cannot be opened), a
    read follows, and the third persist completes.  Three events were
    appended, the second is in memory when its call ends, and the file
    after the last persist holds two: the first and the third. *)
Lemma failed_write_loses_an_event :
  map message
    (_events
       (bus (fst (add_event clock_reading OpenRaises "info" "B" None
                    (fst (add_event clock_reading Written "info" "A" None
                            (new Absent)))))))
  = ["A"; "B"]%string /\
  exists data : snapshot,
    disk (fst (add_event clock_reading Written "info" "C" None
                 (fst (get_events 50
                         (fst (add_event clock_reading OpenRaises "info" "B" None
                                 (fst (add_event clock_reading Written "info" "A"
                                         None (new Absent)))))))))
    = Stored data /\
    option_map (map message) (events data) = Some ["A"; "C"]%string /\
    option_map (map message) (events data) <> Some ["A"; "B"; "C"]%string.
Proof.
  split; [reflexivity|].
  eexists. split; [reflexivity|]. split; [reflexivity|]. discriminate.
Qed.

Lemma write_failure_in_exit_executed :
  snd (perform clock_reading entry_text exit_text OpenRaises
         (ExitExecuted 1 10 10 0.42) (new Absent)) = Raise OSError.
Proof.
  exact (proj1 (write_failure_reaches_the_caller clock_reading entry_text exit_text
                  OpenRaises (ExitExecuted 1 10 10 0.42) (new Absent)
                  (fun H => eq_ind OpenRaises
                              (fun o => match o with OpenRaises => True | _ => False end)
                              I Written H))).
Defined.

(** From a new bus the running total after one round trip is 0.42 itself. *)
Lemma first_round_trip_total :
  _total_pnl
    (bus (fst (exit_executed clock_reading exit_text Written 1 10 10 0.42
                 (fst (entry_executed clock_reading entry_text Written
                         1 10 10.02 0.002 (new Absent)))))) = 0.42%float.
Proof. reflexivity. Qed.

End BusFacts.

(** ** The live trading cycle *)

Module CycleFacts.
Import Py LiveTradingTest.
#[local] Open Scope result_scope.

Section Cycle.

Variable SPOT_SYMBOL PERP_SYMBOL : string.
Variable float_of_str : string -> option float.
Variable py_str : json -> string.
Variable py_round : float -> Z -> float.
Variable account_state : option (json * json).
Variable l2_snapshot : nat -> string -> result json.
Variable exchange_order : nat -> order_request -> result json.

#[local] Notation scan_statuses := (scan_statuses float_of_str).
#[local] Notation parse_order_result := (parse_order_result float_of_str py_str).
#[local] Notation py_float := (py_float float_of_str).

(** *** The scan of the statuses *)

Lemma scan_passes_over (skipped rest : list json) :
  Forall passed_over skipped ->
  scan_statuses (skipped ++ rest) = scan_statuses rest.
Proof.
  induction 1 as [|s skipped [Hf He] _ IH]; [reflexivity|].
  cbn [app LiveTradingTest.scan_statuses]. rewrite Hf. cbn [rbind].
  rewrite He. cbn [rbind]. exact IH.
Qed.

Lemma scan_stops_at_filled (status filled v_sz v_px oid : json)
    (total_sz avg_px : float) (rest : list json) :
  contains "filled" status = Ok true ->
  getitem_str status "filled" = Ok filled ->
  dict_get filled "totalSz" (JNum 0) = Ok v_sz -> py_float v_sz = Ok total_sz ->
  dict_get filled "avgPx" (JNum 0) = Ok v_px -> py_float v_px = Ok avg_px ->
  dict_get filled "oid" JNull = Ok oid ->
  scan_statuses (status :: rest)
  = Ok (Some (Filled total_sz avg_px (total_sz * avg_px * taker_fee_rate)%float oid)).
Proof.
  intros Hc Hg Hs Hfs Hp Hfp Ho.
  cbn [LiveTradingTest.scan_statuses].
  rewrite Hc. cbn [rbind]. rewrite Hg. cbn [rbind]. rewrite Hs. cbn [rbind].
  rewrite Hfs. cbn [rbind]. rewrite Hp. cbn [rbind]. rewrite Hfp. cbn [rbind].
  rewrite Ho. reflexivity.
Qed.

Lemma scan_stops_at_error (status err : json) (rest : list json) :
  contains "filled" status = Ok false ->
  contains "error" status = Ok true ->
  getitem_str status "error" = Ok err ->
  scan_statuses (status :: rest) = Ok (Some (Failed err)).
Proof.
  intros Hf He Hg.
  cbn [LiveTradingTest.scan_statuses].
  rewrite Hf. cbn [rbind]. rewrite He. cbn [rbind]. rewrite Hg. reflexivity.
Qed.

Lemma scan_runs_off (statuses : list json) :
  Forall passed_over statuses -> scan_statuses statuses = Ok None.
Proof.
  intros H. rewrite <- (app_nil_r statuses).
  rewrite scan_passes_over by exact H. reflexivity.
Qed.

(** The fee of a fill the scan reports is size times price times the
    taker rate. *)
Lemma scan_fee (statuses : list json) (size price fee : float) (oid : json) :
  scan_statuses statuses = Ok (Some (Filled size price fee oid)) ->
  fee = (size * price * taker_fee_rate)%float.
Proof.
  induction statuses as [|s rest IH]; [discriminate|].
  cbn [LiveTradingTest.scan_statuses].
  repeat
    match goal with
    | |- context [rbind ?r _] => destruct r; cbn [rbind]
    | |- context [if ?b then _ else _] => destruct b
    end;
    try discriminate; try exact IH;
    intros H; inversion H; reflexivity.
Qed.

(** A fill is reported only by the first entry that has either key, and
    only when that entry has ["filled"]. *)
Lemma scan_filled_inv (items : list json) (size price fee : float) (oid : json) :
  scan_statuses items = Ok (Some (Filled size price fee oid)) ->
  exists (skipped : list json) (entry : json) (rest : list json),
    items = skipped ++ entry :: rest /\
    Forall passed_over skipped /\
    contains "filled" entry = Ok true.
Proof.
  induction items as [|s items IH]; [discriminate|].
  cbn [LiveTradingTest.scan_statuses].
  destruct (contains "filled" s) as [[|]|x] eqn:Hf; cbn [rbind].
  - intros _. exists [], s, items. repeat split; auto.
  - destruct (contains "error" s) as [[|]|y] eqn:He; cbn [rbind].
    + destruct (getitem_str s "error"); discriminate.
    + intros H. destruct (IH H) as (skipped & entry & rest & E & F & C).
      exists (s :: skipped), entry, rest. subst items.
      repeat split; auto. constructor; [split; assumption | exact F].
    + discriminate.
  - discriminate.
Qed.

(** [parse_order_result] on a response that got as far as the statuses. *)
Lemma parse_from_scan (result : json) (items : list json) (t : LiveTradingTest) :
  reaches_statuses result items ->
  parse_order_result result t
  = (found <- scan_statuses items ;;
     match found with
     | Some (Filled total_sz avg_px fee oid) =>
         Ok (add_fee t fee, Filled total_sz avg_px fee oid)
     | Some (Failed err) => Ok (t, Failed err)
     | None => Ok (t, unknown_result)
     end).
Proof.
  intros (status & response & ty & data & statuses &
          Hs & Hok & Hr & Ht & Hty & Hd & Hst & Hit).
  unfold LiveTradingTest.parse_order_result.
  rewrite Hs. cbn [rbind]. rewrite Hok. cbn [negb].
  rewrite Hr. cbn [rbind]. rewrite Ht. cbn [rbind]. rewrite Hty.
  rewrite Hd. cbn [rbind]. rewrite Hst. cbn [rbind]. rewrite Hit. reflexivity.
Qed.

(** What a returned fill says about the call that returned it. *)
Lemma parse_filled_inv (result : json) (t t' : LiveTradingTest)
    (size price fee : float) (oid : json) :
  parse_order_result result t = Ok (t', Filled size price fee oid) ->
  t' = add_fee t fee /\
  fee = (size * price * taker_fee_rate)%float /\
  exists items : list json,
    reaches_statuses result items /\
    scan_statuses items = Ok (Some (Filled size price fee oid)).
Proof.
  unfold LiveTradingTest.parse_order_result.
  destruct (dict_get result "status" JNull) as [status|] eqn:Hs;
    cbn [rbind]; [|discriminate].
  destruct (eq_str status "ok") eqn:Hok; cbn [negb]; [|discriminate].
  destruct (dict_get result "response" (JObj [])) as [response|] eqn:Hr;
    cbn [rbind]; [|discriminate].
  destruct (dict_get response "type" JNull) as [ty|] eqn:Ht;
    cbn [rbind]; [|discriminate].
  destruct (eq_str ty "order") eqn:Hty; [|discriminate].
  destruct (dict_get response "data" (JObj [])) as [data|] eqn:Hd;
    cbn [rbind]; [|discriminate].
  destruct (dict_get data "statuses" (JArr [])) as [statuses|] eqn:Hst;
    cbn [rbind]; [|discriminate].
  destruct (py_iter statuses) as [items|] eqn:Hit; cbn [rbind]; [|discriminate].
  destruct (scan_statuses items) as [[[sz px f o|err]|]|] eqn:Hsc;
    cbn [rbind]; try discriminate.
  intros H. inversion H. subst.
  split; [reflexivity|]. split; [exact (scan_fee _ _ _ _ _ Hsc)|].
  exists items. split; [|exact Hsc].
  exists status, response, ty, data, statuses. repeat split; assumption.
Qed.

Lemma parse_failed_inv (result : json) (t t' : LiveTradingTest) (err : json) :
  parse_order_result result t = Ok (t', Failed err) -> t' = t.
Proof.
  unfold LiveTradingTest.parse_order_result, unknown_result.
  repeat
    match goal with
    | |- context [rbind ?r _] => destruct r; cbn [rbind]
    | |- context [if ?b then _ else _] => destruct b
    | |- context [match ?o with Some _ => _ | None => _ end] => destruct o
    | |- context [match ?f with Filled _ _ _ _ => _ | Failed _ => _ end] => destruct f
    end;
    try discriminate; intros H; inversion H; reflexivity.
Qed.

(** C7, amended.  [parse_order_result] returns a failed fill when the
    status is not ["ok"] (the error is [str(result)]), when the response
    type is not ["order"], when no statuses entry has ["filled"] or
    ["error"], and when the first entry that has either has no ["filled"]
    (the error is that entry's); when the first entry that has either has
    ["filled"] it returns success with size [float(totalSz)], price
    [float(avgPx)] and fee size x price x 0.00025, which it adds to
    [total_fees]; and it returns success in no other case.  Entries after
    the first with either key are not looked at. *)
Theorem parse_order_result_outcome :
  (forall (result status : json) (t : LiveTradingTest),
     dict_get result "status" JNull = Ok status ->
     eq_str status "ok" = false ->
     parse_order_result result t = Ok (t, Failed (JStr (py_str result)))) /\
  (forall (result status response ty : json) (t : LiveTradingTest),
     dict_get result "status" JNull = Ok status ->
     eq_str status "ok" = true ->
     dict_get result "response" (JObj []) = Ok response ->
     dict_get response "type" JNull = Ok ty ->
     eq_str ty "order" = false ->
     parse_order_result result t = Ok (t, unknown_result)) /\
  (forall (result : json) (items : list json) (t : LiveTradingTest),
     reaches_statuses result items ->
     Forall passed_over items ->
     parse_order_result result t = Ok (t, unknown_result)) /\
  (forall (result : json) (skipped : list json) (entry : json)
          (rest : list json) (err : json) (t : LiveTradingTest),
     reaches_statuses result (skipped ++ entry :: rest) ->
     Forall passed_over skipped ->
     contains "filled" entry = Ok false ->
     contains "error" entry = Ok true ->
     getitem_str entry "error" = Ok err ->
     parse_order_result result t = Ok (t, Failed err)) /\
  (forall (result : json) (skipped : list json) (entry : json)
          (rest : list json) (filled v_sz v_px oid : json)
          (total_sz avg_px : float) (t : LiveTradingTest),
     reaches_statuses result (skipped ++ entry :: rest) ->
     Forall passed_over skipped ->
     contains "filled" entry = Ok true ->
     getitem_str entry "filled" = Ok filled ->
     dict_get filled "totalSz" (JNum 0) = Ok v_sz ->
     py_float v_sz = Ok total_sz ->
     dict_get filled "avgPx" (JNum 0) = Ok v_px ->
     py_float v_px = Ok avg_px ->
     dict_get filled "oid" JNull = Ok oid ->
     parse_order_result result t
     = Ok (add_fee t (total_sz * avg_px * 0.00025)%float,
           Filled total_sz avg_px (total_sz * avg_px * 0.00025)%float oid)) /\
  (forall (result : json) (t t' : LiveTradingTest) (f : fill),
     parse_order_result result t = Ok (t', f) ->
     success f = true ->
     exists (items skipped : list json) (entry : json) (rest : list json),
       reaches_statuses result items /\
       items = skipped ++ entry :: rest /\
       Forall passed_over skipped /\
       contains "filled" entry = Ok true).
Proof.
  repeat apply conj.
  - intros result status t Hs Hok.
    unfold LiveTradingTest.parse_order_result.
    rewrite Hs. cbn [rbind]. rewrite Hok. reflexivity.
  - intros result status response ty t Hs Hok Hr Ht Hty.
    unfold LiveTradingTest.parse_order_result.
    rewrite Hs. cbn [rbind]. rewrite Hok. cbn [negb].
    rewrite Hr. cbn [rbind]. rewrite Ht. cbn [rbind]. rewrite Hty. reflexivity.
  - intros result items t R F.
    rewrite (parse_from_scan result items t R), (scan_runs_off items F).
    reflexivity.
  - intros result skipped entry rest err t R F Hf He Hg.
    rewrite (parse_from_scan result _ t R), (scan_passes_over skipped _ F).
    rewrite (scan_stops_at_error entry err rest Hf He Hg). reflexivity.
  - intros result skipped entry rest filled v_sz v_px oid total_sz avg_px t
           R F Hc Hg Hs Hfs Hp Hfp Ho.
    rewrite (parse_from_scan result _ t R), (scan_passes_over skipped _ F).
    rewrite (scan_stops_at_filled entry filled v_sz v_px oid total_sz avg_px rest
               Hc Hg Hs Hfs Hp Hfp Ho).
    reflexivity.
  - intros result t t' [size price fee oid|err] H S; [|discriminate].
    destruct (parse_filled_inv result t t' size price fee oid H)
      as (_ & _ & items & R & Hsc).
    destruct (scan_filled_inv items size price fee oid Hsc)
      as (skipped & entry & rest & E & F & C).
    exists items, skipped, entry, rest. auto.
Qed.

(** *** A whole cycle *)

#[local] Notation run_test :=
  (run_test SPOT_SYMBOL PERP_SYMBOL float_of_str py_str py_round
            account_state l2_snapshot exchange_order).
#[local] Notation get_current_prices :=
  (get_current_prices SPOT_SYMBOL PERP_SYMBOL float_of_str l2_snapshot).

Lemma record_fill_effect
    (store : LiveTradingTest -> fill -> LiveTradingTest)
    (result : json) (r : run_state) :
  record_fill float_of_str py_str store result r
  = match parse_order_result result (test r) with
    | Ok (t, f) => (with_test r (store t f), Ok f)
    | Raise e => (r, Raise e)
    end.
Proof.
  unfold record_fill, bind, get, lift, modify, ret.
  destruct (parse_order_result result (test r)) as [[t f]|e]; reflexivity.
Qed.

Lemma place_order_effect (req : order_request) (r : run_state) :
  place_order exchange_order req r
  = ({| test := test r; orders := orders r ++ [req]; summaries := summaries r |},
     exchange_order (List.length (orders r)) req).
Proof. reflexivity. Qed.

Lemma bind_unfold {S A B} (c : ST S A) (k : A -> ST S B) (s : S) :
  bind c k s
  = match c s with
    | (s', Ok a) => k a s'
    | (s', Raise e) => (s', Raise e)
    end.
Proof. reflexivity. Qed.

Lemma check_account_state_keeps (r : run_state) :
  fst (check_account_state float_of_str account_state r) = r.
Proof.
  unfold check_account_state.
  destruct account_state as [[a b]|]; reflexivity.
Qed.

Lemma parse_keeps_fills (result : json) (t t' : LiveTradingTest) (f : fill) :
  parse_order_result result t = Ok (t', f) ->
  entry_spot_fill t' = entry_spot_fill t /\
  entry_perp_fill t' = entry_perp_fill t /\
  exit_spot_fill t' = exit_spot_fill t /\
  exit_perp_fill t' = exit_perp_fill t.
Proof.
  intros H. destruct f as [size price fee oid|err].
  - apply parse_filled_inv in H. destruct H as (-> & _). repeat split.
  - apply parse_failed_inv in H. subst t'. repeat split.
Qed.

(** Either the run stops before the last fill is recorded, or it goes
    through all four orders and prints one summary. *)
Lemma run_test_inv (size_usd : float) :
  exit_perp_fill (test (fst (run_test size_usd fresh))) = None \/
  exists (j1 j2 j3 j4 : json) (t1 t2 t3 t4 : LiveTradingTest) (f1 f2 f3 f4 : fill)
         (o1 o2 o3 o4 : order_request),
    [o1; o2; o3; o4]
    = (let '(_, spot_ask, perp_bid, _) := get_current_prices 0 in
       let '(spot_bid', _, _, perp_ask') := get_current_prices 1 in
       let size := py_round (size_usd / spot_ask)%float 2 in
       [mkOrder SPOT_SYMBOL true size (py_round (spot_ask * 1.001)%float 4)
          "Ioc" false;
        mkOrder PERP_SYMBOL false size (py_round (perp_bid * 0.999)%float 4)
          "Ioc" false;
        mkOrder SPOT_SYMBOL false (filled_size f1 size)
          (py_round (spot_bid' * 0.999)%float 4) "Ioc" false;
        mkOrder PERP_SYMBOL true (filled_size f2 size)
          (py_round (perp_ask' * 1.001)%float 4) "Ioc" true]) /\
    exchange_order 0 o1 = Ok j1 /\
    parse_order_result j1 init = Ok (t1, f1) /\
    exchange_order 1 o2 = Ok j2 /\
    parse_order_result j2 (set_entry_spot t1 f1) = Ok (t2, f2) /\
    success f1 = true /\ success f2 = true /\
    exchange_order 2 o3 = Ok j3 /\
    parse_order_result j3 (set_entry_perp t2 f2) = Ok (t3, f3) /\
    exchange_order 3 o4 = Ok j4 /\
    parse_order_result j4 (set_exit_spot t3 f3) = Ok (t4, f4) /\
    run_test size_usd fresh
    = ({| test := set_exit_perp t4 f4;
          orders := [o1; o2; o3; o4];
          summaries := [_print_summary (set_exit_perp t4 f4)] |}, Ok tt).
Proof.
  unfold LiveTradingTest.run_test.
  rewrite bind_unfold.
  pose proof (check_account_state_keeps fresh) as K.
  destruct (check_account_state float_of_str account_state fresh)
    as [r0 [[]|e0]]; cbn [fst] in K; subst r0; [|left; reflexivity].
  destruct (get_current_prices 0) as [[[sb0 sa0] pb0] pa0].
  destruct ((sa0 =? 0)%float || (pb0 =? 0)%float); [left; reflexivity|].
  set (size := py_round (size_usd / sa0)%float 2).
  unfold place_spot_order, place_perp_order.
  rewrite bind_unfold, place_order_effect. cbn [orders fresh List.length app test summaries].
  destruct (exchange_order 0 _) as [j1|] eqn:X1; [|left; reflexivity].
  rewrite bind_unfold, record_fill_effect. cbn [test].
  destruct (parse_order_result j1 init) as [[t1 f1]|] eqn:P1; [|left; reflexivity].
  rewrite bind_unfold, place_order_effect.
  cbn [orders with_test List.length app test summaries].
  pose proof (parse_keeps_fills _ _ _ _ P1) as (_ & _ & _ & K1).
  change (exit_perp_fill init) with (@None fill) in K1.
  destruct (exchange_order 1 _) as [j2|] eqn:X2; [|left; exact K1].
  rewrite bind_unfold, record_fill_effect. cbn [test].
  destruct (parse_order_result j2 (set_entry_spot t1 f1)) as [[t2 f2]|] eqn:P2;
    [|left; exact K1].
  pose proof (parse_keeps_fills _ _ _ _ P2) as (_ & _ & _ & K2).
  cbn [set_entry_spot exit_perp_fill] in K2. rewrite K1 in K2.
  destruct (success f1 && success f2) eqn:S12; cbn [negb]; [|left; exact K2].
  apply andb_true_iff in S12. destruct S12 as [S1 S2].
  destruct (get_current_prices 1) as [[[sb1 sa1] pb1] pa1].
  rewrite bind_unfold, place_order_effect.
  cbn [orders with_test List.length app test summaries].
  destruct (exchange_order 2 _) as [j3|] eqn:X3; [|left; exact K2].
  rewrite bind_unfold, record_fill_effect. cbn [test with_test].
  destruct (parse_order_result j3 (set_entry_perp t2 f2)) as [[t3 f3]|] eqn:P3;
    [|left; exact K2].
  pose proof (parse_keeps_fills _ _ _ _ P3) as (_ & _ & _ & K3).
  cbn [set_entry_perp exit_perp_fill] in K3. rewrite K2 in K3.
  rewrite bind_unfold, place_order_effect.
  cbn [orders with_test List.length app test summaries].
  destruct (exchange_order 3 _) as [j4|] eqn:X4; [|left; exact K3].
  rewrite bind_unfold, record_fill_effect. cbn [test with_test].
  destruct (parse_order_result j4 (set_exit_spot t3 f3)) as [[t4 f4]|] eqn:P4;
    [|left; exact K3].
  right.
  exists j1, j2, j3, j4, t1, t2, t3, t4, f1, f2, f3, f4.
  do 4 eexists. split; [reflexivity|].
  repeat split; assumption.
Qed.

(** C8.  When a run of [run_test] on a new [LiveTradingTest] ends with
    all four fills recorded as successes, it returned, having printed one
    summary whose P&L block reports spot P&L = (exit spot price - entry
    spot price) x entry spot filled size, perp P&L = (entry perp price -
    exit perp price) x entry perp filled size, gross = their sum and net =
    gross - [total_fees], the fees of the four fills added up in order,
    each fee its fill's size x price x 0.00025; and it submitted four
    orders: a spot buy and a perp sell of the requested size, then a spot
    sell of the entry spot fill's size and a reduce-only perp buy of the
    entry perp fill's size. *)
Theorem full_cycle_summary (size_usd : float)
    (es_size es_price es_fee ep_size ep_price ep_fee : float)
    (xs_size xs_price xs_fee xp_size xp_price xp_fee : float)
    (es_oid ep_oid xs_oid xp_oid : json) :
  let r := fst (run_test size_usd fresh) in
  entry_spot_fill (test r) = Some (Filled es_size es_price es_fee es_oid) ->
  entry_perp_fill (test r) = Some (Filled ep_size ep_price ep_fee ep_oid) ->
  exit_spot_fill (test r) = Some (Filled xs_size xs_price xs_fee xs_oid) ->
  exit_perp_fill (test r) = Some (Filled xp_size xp_price xp_fee xp_oid) ->
  let spot_leg := ((xs_price - es_price) * es_size)%float in
  let perp_leg := ((ep_price - xp_price) * ep_size)%float in
  let fees := (0 + es_fee + ep_fee + xs_fee + xp_fee)%float in
  snd (run_test size_usd fresh) = Ok tt /\
  total_fees (test r) = fees /\
  (es_fee = (es_size * es_price * 0.00025)%float /\
   ep_fee = (ep_size * ep_price * 0.00025)%float /\
   xs_fee = (xs_size * xs_price * 0.00025)%float /\
   xp_fee = (xp_size * xp_price * 0.00025)%float) /\
  (exists report : pnl_report,
     summaries r = [Some report] /\
     spot_pnl report = spot_leg /\
     perp_pnl report = perp_leg /\
     gross_pnl report = (spot_leg + perp_leg)%float /\
     reported_fees report = fees /\
     net_pnl report = (spot_leg + perp_leg - fees)%float) /\
  orders r
  = (let '(_, spot_ask, perp_bid, _) := get_current_prices 0 in
     let '(spot_bid', _, _, perp_ask') := get_current_prices 1 in
     let size := py_round (size_usd / spot_ask)%float 2 in
     [mkOrder SPOT_SYMBOL true size (py_round (spot_ask * 1.001)%float 4)
        "Ioc" false;
      mkOrder PERP_SYMBOL false size (py_round (perp_bid * 0.999)%float 4)
        "Ioc" false;
      mkOrder SPOT_SYMBOL false es_size
        (py_round (spot_bid' * 0.999)%float 4) "Ioc" false;
      mkOrder PERP_SYMBOL true ep_size
        (py_round (perp_ask' * 1.001)%float 4) "Ioc" true]).
Proof.
  cbv zeta. intros H1 H2 H3 H4.
  destruct (run_test_inv size_usd)
    as [N | (j1 & j2 & j3 & j4 & t1 & t2 & t3 & t4 & f1 & f2 & f3 & f4 &
             o1 & o2 & o3 & o4 & O & X1 & P1 & X2 & P2 & S1 & S2 &
             X3 & P3 & X4 & P4 & E)].
  { rewrite N in H4. discriminate. }
  rewrite E in H1, H2, H3, H4 |- *. cbn [fst snd test orders summaries] in *.
  destruct (parse_keeps_fills _ _ _ _ P4) as (A4 & B4 & C4 & _).
  destruct (parse_keeps_fills _ _ _ _ P3) as (A3 & B3 & _ & _).
  destruct (parse_keeps_fills _ _ _ _ P2) as (A2 & _ & _ & _).
  cbn [set_exit_perp set_exit_spot set_entry_perp set_entry_spot
       entry_spot_fill entry_perp_fill exit_spot_fill exit_perp_fill] in *.
  rewrite A4, A3, A2 in H1. rewrite B4, B3 in H2. rewrite C4 in H3.
  injection H1 as ->. injection H2 as ->. injection H3 as ->. injection H4 as ->.
  destruct (parse_filled_inv _ _ _ _ _ _ _ P1) as (T1 & F1 & _).
  destruct (parse_filled_inv _ _ _ _ _ _ _ P2) as (T2 & F2 & _).
  destruct (parse_filled_inv _ _ _ _ _ _ _ P3) as (T3 & F3 & _).
  destruct (parse_filled_inv _ _ _ _ _ _ _ P4) as (T4 & F4 & _).
  assert (TF : total_fees t4 = (0 + es_fee + ep_fee + xs_fee + xp_fee)%float).
  { subst t4 t3 t2 t1. reflexivity. }
  split; [reflexivity|]. split; [exact TF|].
  split; [repeat split; assumption|].
  split.
  - eexists. split.
    + unfold _print_summary.
      cbn [set_exit_perp entry_spot_fill entry_perp_fill exit_spot_fill
           exit_perp_fill total_fees].
      rewrite A4, A3, A2, B4, B3, C4. reflexivity.
    + cbn [spot_pnl perp_pnl gross_pnl reported_fees net_pnl].
      rewrite TF. repeat split.
  - rewrite O. cbn [filled_size].
    destruct (get_current_prices 0) as [[[sb0 sa0] pb0] pa0].
    destruct (get_current_prices 1) as [[[sb1 sa1] pb1] pa1].
    reflexivity.
Qed.

End Cycle.

(** *** At example responses *)

Import Examples.

(** C7, as the specification states it, at two responses with status ["ok"] and type
    ["order"].  With a filled entry followed by an error entry, an entry
    contains ["error"] and the result is a success; with the error entry
    first, an entry contains ["filled"] and the result is a failure. *)
Lemma first_entry_decides :
  contains "error" error_status = Ok true /\
  parse_order_result no_float_of_str repr
    (order_response [filled_status 0.5 20; error_status]) init
  = Ok (add_fee init (0.5 * 20 * 0.00025)%float,
        Filled 0.5 20 (0.5 * 20 * 0.00025)%float (JNum 77)) /\
  contains "filled" (filled_status 0.5 20) = Ok true /\
  parse_order_result no_float_of_str repr
    (order_response [error_status; filled_status 0.5 20]) init
  = Ok (init, Failed (JStr "Insufficient margin")).
Proof. repeat split. Qed.

Lemma reaches_example_statuses (statuses : list json) :
  reaches_statuses (order_response statuses) statuses.
Proof.
  exists (JStr "ok"),
    (JObj [("type", JStr "order");
           ("data", JObj [("statuses", JArr statuses)])]%string),
    (JStr "order"), (JObj [("statuses", JArr statuses)]%string), (JArr statuses).
  repeat split.
Defined.

Lemma parse_resting_then_filled :
  parse_order_result no_float_of_str repr
    (order_response [resting_status; filled_status 0.5 20; error_status]) init
  = Ok (add_fee init (0.5 * 20 * 0.00025)%float,
        Filled 0.5 20 (0.5 * 20 * 0.00025)%float (JNum 77)).
Proof.
  destruct (parse_order_result_outcome no_float_of_str repr)
    as (_ & _ & _ & _ & P & _).
  apply (P _ [resting_status] (filled_status 0.5 20) [error_status]
           (JObj [("totalSz", JNum 0.5); ("avgPx", JNum 20); ("oid", JNum 77)]%string)
           (JNum 0.5) (JNum 20) (JNum 77) 0.5%float 20%float init
           (reaches_example_statuses _)).
  - repeat constructor.
  - reflexivity.
  - reflexivity.
  - reflexivity.
  - reflexivity.
  - reflexivity.
  - reflexivity.
  - reflexivity.
Defined.

Lemma full_cycle_at_example_exchange :
  snd (run_test SPOT_SYMBOL PERP_SYMBOL no_float_of_str repr no_rounding None
         l2_quotes fills_in_full 10 fresh) = Ok tt.
Proof.
  refine (proj1 (full_cycle_summary SPOT_SYMBOL PERP_SYMBOL no_float_of_str repr
                   no_rounding None l2_quotes fills_in_full 10
                   _ _ _ _ _ _ _ _ _ _ _ _ _ _ _ _ _ _ _ _)); reflexivity.
Defined.

End CycleFacts.

(** ** More on the market data stream: what runs preserve *)

Module StreamInvariants.
Import Py PriceModel WebSocketManager StreamObservers.

Section Stream.

Variable SPOT_SYMBOL PERP_SYMBOL : string.
Variable WS_RECONNECT_DELAY WS_RECONNECT_MAX_DELAY : Z.
Variable float_of_str : string -> option float.
Variable Callback : Type.

#[local] Notation manager := (manager Callback).
#[local] Notation task := (task Callback).
#[local] Notation handle :=
  (@_handle_message SPOT_SYMBOL PERP_SYMBOL float_of_str Callback).
#[local] Notation step :=
  (@step SPOT_SYMBOL PERP_SYMBOL WS_RECONNECT_DELAY WS_RECONNECT_MAX_DELAY
         float_of_str Callback).
#[local] Notation run :=
  (@run SPOT_SYMBOL PERP_SYMBOL WS_RECONNECT_DELAY WS_RECONNECT_MAX_DELAY
        float_of_str Callback).
#[local] Notation init := (@init SPOT_SYMBOL PERP_SYMBOL WS_RECONNECT_DELAY Callback).
#[local] Notation subscriptions := (subscriptions SPOT_SYMBOL PERP_SYMBOL).
#[local] Notation well_observed := (@well_observed SPOT_SYMBOL PERP_SYMBOL Callback).

(** *** The handler, by cases *)

(** The handler on an [l2Book] frame, the coin read. *)
Lemma handle_book_frame (data channel book_data coin : json)
    (timestamp : float) (m : manager) :
  dict_get data "channel" JNull = Ok channel ->
  eq_str channel "l2Book" = true ->
  dict_get data "data" (JObj []) = Ok book_data ->
  dict_get book_data "coin" (JStr "") = Ok coin ->
  handle data timestamp m
  = match read_levels float_of_str book_data with
    | Ok (best_bid, best_ask, bid_size, ask_size) =>
        let m' :=
          if eq_str coin SPOT_SYMBOL then
            set_spot m (mkBook SPOT_SYMBOL best_bid best_ask bid_size ask_size
                          timestamp)
          else if eq_str coin PERP_SYMBOL then
            set_perp m (mkBook PERP_SYMBOL best_bid best_ask bid_size ask_size
                          timestamp)
          else m in
        Ok (m', notify m')
    | Raise e => Raise e
    end.
Proof.
  intros Hch Hl2 Hbd Hcoin.
  assert (Hsub : eq_str channel "subscriptionResponse" = false).
  { destruct channel; cbn in Hl2 |- *; try discriminate.
    apply String.eqb_eq in Hl2. subst s. reflexivity. }
  unfold _handle_message.
  rewrite Hch. cbn [rbind]. rewrite Hsub, Hl2, Hbd. cbn [rbind].
  rewrite Hcoin. cbn [rbind].
  destruct (read_levels float_of_str book_data) as [[[[bb ba] bs] sz]|e];
    reflexivity.
Qed.

(** Whatever the frame, a handler that returns has left the manager as it
    was or replaced one book by one carrying that leg's symbol, and has
    made no listener call or the call of [notify] on the manager it
    leaves. *)
Lemma handle_shapes (data : json) (timestamp : float) (m m' : manager)
    (cs : list (Callback * PriceState)) :
  handle data timestamp m = Ok (m', cs) ->
  (m' = m \/
   (exists b, symbol b = SPOT_SYMBOL /\ m' = set_spot m b) \/
   (exists b, symbol b = PERP_SYMBOL /\ m' = set_perp m b)) /\
  (cs = [] \/ cs = notify m').
Proof.
  unfold _handle_message.
  repeat
    match goal with
    | |- context [rbind ?r _] => destruct r; cbn [rbind]
    | |- context [let '(_, _) := ?p in _] => destruct p
    end;
    try discriminate;
    repeat
      match goal with
      | |- context [if ?b then _ else _] => destruct b
      end;
    intros H; inversion H; subst; split;
    first [ left; reflexivity
          | right; reflexivity
          | right; left; eexists; (split; [|reflexivity]); reflexivity
          | right; right; eexists; (split; [|reflexivity]); reflexivity ].
Qed.

Lemma notify_ready (m : manager) :
  Forall (fun c => is_ready (snd c) = true) (notify m) /\
  (List.length (notify m) <= 1)%nat /\
  (on_price_update m = None -> notify m = []).
Proof.
  unfold notify.
  destruct (on_price_update m) as [cb|]; [|repeat split; auto].
  destruct (is_ready (price_state m)) eqn:R; cbn; repeat split;
    auto; try discriminate.
Qed.

(** Frames change the books and nothing else: the listener, the socket,
    the running flag and the stored delay are as before, and a frame whose
    channel is not ["l2Book"] changes nothing at all and reaches no
    listener. *)
Theorem frames_touch_only_the_books (data : json) (timestamp : float)
    (m m' : manager) (cs : list (Callback * PriceState)) :
  handle data timestamp m = Ok (m', cs) ->
  on_price_update m' = on_price_update m /\
  _ws m' = _ws m /\
  _running m' = _running m /\
  _reconnect_delay m' = _reconnect_delay m /\
  (forall channel : json,
     dict_get data "channel" JNull = Ok channel ->
     eq_str channel "l2Book" = false ->
     m' = m /\ cs = []).
Proof.
  intros H.
  pose proof (handle_shapes data timestamp m m' cs H) as (S & _).
  split; [|split; [|split; [|split]]].
  1-4: destruct S as [-> | [(b & _ & ->) | (b & _ & ->)]]; reflexivity.
  intros channel Hch Hl2. revert H. unfold _handle_message.
  rewrite Hch. cbn [rbind]. rewrite Hl2.
  destruct (eq_str channel "subscriptionResponse");
    intros H; inversion H; auto.
Qed.

(** *** Empty sides and missing books *)

Lemma notify_not_ready (m : manager) :
  is_ready (price_state m) = false -> notify m = [].
Proof.
  intros R. unfold notify. rewrite R.
  destruct (on_price_update m); reflexivity.
Qed.

(** An [l2Book] frame for one of the two legs whose best bid or best ask
    reads as zero leaves the price state not ready and reaches no
    listener, whatever the state was before; and that is how an empty side
    reads: with no bids the best bid is 0, and with no asks (or no second
    entry in [levels]) the best ask is 0. *)
Theorem empty_side_silences_the_listener
    (data channel book_data coin levels : json) (timestamp : float)
    (m : manager) (best_bid best_ask bid_size ask_size : float) :
  dict_get data "channel" JNull = Ok channel ->
  eq_str channel "l2Book" = true ->
  dict_get data "data" (JObj []) = Ok book_data ->
  dict_get book_data "coin" (JStr "") = Ok coin ->
  dict_get book_data "levels" (JArr [JArr []; JArr []]) = Ok levels ->
  read_levels float_of_str book_data
  = Ok (best_bid, best_ask, bid_size, ask_size) ->
  (eq_str coin SPOT_SYMBOL = true \/ eq_str coin PERP_SYMBOL = true ->
   (best_bid =? 0)%float = true \/ (best_ask =? 0)%float = true ->
   exists m' : manager,
     handle data timestamp m = Ok (m', []) /\
     is_ready (price_state m') = false) /\
  (forall rest, levels = JArr (JArr [] :: rest) -> best_bid = 0%float) /\
  (forall bids rest,
     levels = JArr [bids] \/ levels = JArr (bids :: JArr [] :: rest) ->
     best_ask = 0%float).
Proof.
  intros Hch Hl2 Hbd Hcoin Hlev Hread.
  split; [|split].
  - intros Hleg Hzero.
    rewrite (handle_book_frame data channel book_data coin timestamp m
               Hch Hl2 Hbd Hcoin), Hread.
    cbv zeta.
    destruct (eq_str coin SPOT_SYMBOL) eqn:Hs.
    + eexists. split.
      * rewrite notify_not_ready; [reflexivity|].
        apply PriceModelFacts.not_ready_when_a_price_is_zero. cbn. tauto.
      * apply PriceModelFacts.not_ready_when_a_price_is_zero. cbn. tauto.
    + destruct Hleg as [Hleg|Hp]; [discriminate|]. rewrite Hp.
      eexists. split.
      * rewrite notify_not_ready; [reflexivity|].
        apply PriceModelFacts.not_ready_when_a_price_is_zero. cbn. tauto.
      * apply PriceModelFacts.not_ready_when_a_price_is_zero. cbn. tauto.
  - intros rest ->. revert Hread. unfold read_levels.
    rewrite Hlev. cbn.
    repeat
      match goal with
      | |- context [rbind ?r _] => destruct r; cbn [rbind]
      end;
      try discriminate; intros H; inversion H; reflexivity.
  - intros bids rest [->| ->]; revert Hread; unfold read_levels;
      rewrite Hlev; cbn;
      repeat
        match goal with
        | |- context [rbind ?r _] => destruct r; cbn [rbind]
        end;
      try discriminate; intros H; inversion H; reflexivity.
Qed.

(** No listener call before both books are valid: a frame for the spot
    symbol reaches no listener while the perp book is not valid, and a
    frame for any other coin reaches none while the spot book is not
    valid; a new manager has neither book valid. *)
Theorem listener_waits_for_both_books
    (data channel book_data coin : json) (timestamp : float)
    (m m' : manager) (cs : list (Callback * PriceState)) :
  dict_get data "channel" JNull = Ok channel ->
  eq_str channel "l2Book" = true ->
  dict_get data "data" (JObj []) = Ok book_data ->
  dict_get book_data "coin" (JStr "") = Ok coin ->
  handle data timestamp m = Ok (m', cs) ->
  (eq_str coin SPOT_SYMBOL = true ->
   is_valid (perp (price_state m)) = false -> cs = []) /\
  (eq_str coin SPOT_SYMBOL = false ->
   is_valid (spot (price_state m)) = false -> cs = []) /\
  (forall cb, is_valid (spot (price_state (init cb))) = false /\
              is_valid (perp (price_state (init cb))) = false).
Proof.
  intros Hch Hl2 Hbd Hcoin.
  rewrite (handle_book_frame data channel book_data coin timestamp m
             Hch Hl2 Hbd Hcoin).
  destruct (read_levels float_of_str book_data) as [[[[bb ba] bs] sz]|e];
    [|discriminate].
  cbv zeta. intros H. split; [|split].
  - intros Hs Hv. rewrite Hs in H. inversion H.
    apply notify_not_ready. unfold is_ready.
    cbn [price_state set_spot set_perp spot perp]. rewrite Hv.
    apply andb_false_r.
  - intros Hs Hv. rewrite Hs in H.
    destruct (eq_str coin PERP_SYMBOL); inversion H; subst;
      apply notify_not_ready; unfold is_ready;
      cbn [price_state set_spot set_perp spot perp]; rewrite Hv; reflexivity.
  - intros cb. split; reflexivity.
Qed.

(** *** Over whole runs *)

Lemma step_not_frame (e : event) (t : task) :
  is_frame e = false ->
  calls (step e t) = calls t /\
  price_state (self (step e t)) = price_state (self t) /\
  on_price_update (self (step e t)) = on_price_update (self t).
Proof.
  intros H. unfold WebSocketManager.step.
  destruct e as [ws| |d ts| | |]; try discriminate;
    destruct (at_point t); cbn; auto;
    unfold after_try, loop_head; cbn;
    repeat match goal with
           | |- context [if ?b then _ else _] => destruct b; cbn
           end; auto.
Qed.

Lemma step_frame (d : option json) (ts : float) (t : task) :
  step (Frame d ts) t = t \/
  exists data m' cs,
    d = Some data /\
    handle data ts (self t) = Ok (m', cs) /\
    step (Frame d ts) t
    = {| self := m'; at_point := Listening; sleeps := sleeps t;
         sent := sent t; calls := calls t ++ cs |}.
Proof.
  unfold WebSocketManager.step.
  destruct d as [data|]; destruct (at_point t); auto.
  destruct (_handle_message _ _ _ data ts (self t)) as [[m' cs]|x] eqn:E; auto.
  right. exists data, m', cs. auto.
Qed.

Lemma step_well_observed (cb : option Callback) (n : nat) (e : event) (t : task) :
  well_observed cb n t ->
  well_observed cb (n + (if is_frame e then 1 else 0)) (step e t).
Proof.
  intros (F & L & C & N & Ss & Sp).
  destruct (is_frame e) eqn:Hf.
  - destruct e as [ws| |d ts| | |]; try discriminate.
    destruct (step_frame d ts t) as [-> | (data & m' & cs & _ & H & ->)].
    + repeat split; auto. lia.
    + destruct (handle_shapes data ts (self t) m' cs H) as (Sh & Cs).
      destruct (notify_ready m') as (NF & NL & NN).
      assert (C' : on_price_update m' = cb).
      { destruct Sh as [-> | [(b & _ & ->) | (b & _ & ->)]]; exact C. }
      unfold well_observed. cbn [calls self].
      repeat split.
      * apply Forall_app. split; [exact F|].
        destruct Cs as [-> | ->]; [constructor | exact NF].
      * rewrite length_app. destruct Cs as [-> | ->]; cbn [List.length]; lia.
      * exact C'.
      * intros Hn. rewrite (N Hn).
        destruct Cs as [-> | ->]; [reflexivity|].
        apply NN. rewrite C'. exact Hn.
      * destruct Sh as [-> | [(b & Hb & ->) | (b & _ & ->)]]; auto.
      * destruct Sh as [-> | [(b & _ & ->) | (b & Hb & ->)]]; auto.
  - destruct (step_not_frame e t Hf) as (Ec & Ep & Eo).
    unfold well_observed. rewrite Ec, Ep, Eo.
    repeat split; auto. lia.
Qed.

Lemma run_well_observed (cb : option Callback) (es : list event) :
  forall (n : nat) (t : task),
    well_observed cb n t ->
    well_observed cb (n + frames_among es) (run es t).
Proof.
  induction es as [|e es IH]; intros n t H.
  - cbn. rewrite Nat.add_0_r. exact H.
  - cbn [WebSocketManager.run fold_left].
    apply (step_well_observed cb n e t) in H.
    apply IH in H.
    replace (n + frames_among (e :: es))%nat
      with (n + (if is_frame e then 1 else 0) + frames_among es)%nat; [exact H|].
    unfold frames_among. cbn [filter].
    destruct (is_frame e); cbn [List.length]; lia.
Qed.

(** Whatever events [connect()] is given after it starts on a new
    manager: every listener call made was made on a ready price state,
    there are at most as many calls as frames received, none at all when
    no listener is registered, and the spot and perp books still carry
    the spot and perp symbols. *)
Theorem calls_are_ready_and_bounded (cb : option Callback) (es : list event) :
  Forall (fun c => is_ready (snd c) = true)
    (calls (run es (connect (init cb)))) /\
  (List.length (calls (run es (connect (init cb)))) <= frames_among es)%nat /\
  (cb = None -> calls (run es (connect (init cb))) = []) /\
  symbol (spot (price_state (self (run es (connect (init cb)))))) = SPOT_SYMBOL /\
  symbol (perp (price_state (self (run es (connect (init cb)))))) = PERP_SYMBOL.
Proof.
  assert (W : well_observed cb 0 (connect (init cb))).
  { unfold well_observed. cbn. repeat split; auto. }
  destruct (run_well_observed cb es 0 _ W) as (F & L & _ & N & Ss & Sp).
  repeat split; auto.
Qed.

(** *** After [disconnect()] *)

Lemma step_when_stopped (e : event) (t : task) :
  _running (self t) = false ->
  _running (self (step e t)) = false /\
  sleeps (step e t) = sleeps t /\
  (at_point t = Returned -> at_point (step e t) = Returned).
Proof.
  intros R. unfold WebSocketManager.step.
  destruct e as [ws| |[data|] ts| | |], (at_point t) eqn:P; cbn;
    unfold after_try, loop_head; cbn; rewrite ?R; cbn;
    try (repeat split; solve [auto | congruence]).
  destruct (_handle_message _ _ _ data ts (self t)) as [[m cs]|x] eqn:E; cbn.
  - destruct (StreamFacts.handle_keeps_connection _ _ _ _ _ _ _ _ _ E)
      as (_ & Hr & _).
    rewrite Hr. repeat split; auto; congruence.
  - rewrite P. repeat split; auto; congruence.
Qed.

(** Once [_running] is cleared (which only [disconnect()] does while
    [connect()] runs), whatever events follow, it stays cleared and
    [connect()] starts no further backoff wait; its next resumption from a
    failed connect, from the end of the session, or from the end of a wait
    it was already in makes it return, and once returned it stays so. *)
Theorem stopped_connect_winds_down (es : list event) (t : task) :
  _running (self t) = false ->
  _running (self (run es t)) = false /\
  sleeps (run es t) = sleeps t /\
  (at_point t = Returned -> at_point (run es t) = Returned) /\
  (at_point t = Connecting -> at_point (step ConnectFail t) = Returned) /\
  (at_point t = Listening -> at_point (step SessionEnd t) = Returned) /\
  (forall d, at_point t = Sleeping d -> at_point (step SleepDone t) = Returned).
Proof.
  intros R.
  assert (G : _running (self (run es t)) = false /\
              sleeps (run es t) = sleeps t /\
              (at_point t = Returned -> at_point (run es t) = Returned)).
  { revert t R. induction es as [|e es IH]; intros t R; [auto|].
    change (run (e :: es) t) with (run es (step e t)).
    destruct (step_when_stopped e t R) as (R' & S' & P').
    destruct (IH (step e t) R') as (A & B & C).
    repeat split; [exact A | congruence | auto]. }
  destruct G as (A & B & C).
  split; [exact A|]. split; [exact B|]. split; [exact C|].
  split; [|split].
  - intros P. unfold WebSocketManager.step. rewrite P.
    unfold after_try. rewrite R. unfold loop_head. rewrite R. reflexivity.
  - intros P. unfold WebSocketManager.step. rewrite P.
    unfold after_try. cbn [self with_self close_ws _running]. rewrite R.
    unfold loop_head. cbn [self with_self close_ws _running]. rewrite R.
    reflexivity.
  - intros d P. unfold WebSocketManager.step. rewrite P.
    unfold loop_head. cbn [self with_self set_delay _running]. rewrite R.
    reflexivity.
Qed.

(** *** A session that drops *)

Lemma frames_keep_listening (fs : list event) :
  forallb is_frame fs = true ->
  forall t : task,
    at_point t = Listening ->
    at_point (run fs t) = Listening /\
    sleeps (run fs t) = sleeps t /\
    sent (run fs t) = sent t /\
    _ws (self (run fs t)) = _ws (self t) /\
    _running (self (run fs t)) = _running (self t) /\
    _reconnect_delay (self (run fs t)) = _reconnect_delay (self t).
Proof.
  induction fs as [|e fs IH]; intros F t P; [cbn; auto 10|].
  cbn [forallb] in F. apply andb_true_iff in F. destruct F as [Fe F].
  destruct e as [ws| |d ts| | |]; try discriminate.
  change (run (Frame d ts :: fs) t) with (run fs (step (Frame d ts) t)).
  destruct (step_frame d ts t) as [E | (data & m' & cs & _ & H & E)];
    rewrite E.
  - apply IH; assumption.
  - destruct (StreamFacts.handle_keeps_connection _ _ _ _ _ _ _ _ _ H)
      as (Hw & Hr & Hd).
    match goal with
    | |- context [run fs ?x] =>
        destruct (IH F x eq_refl) as (A & B & C & D & G & K)
    end.
    cbn [self sleeps sent] in *.
    repeat split; congruence.
Qed.

(** A session that connects, receives any number of frames and then
    drops, with [connect()] still running, is followed by a wait of the
    initial delay [D], whatever the delay had grown to before: the socket
    is left closed and [connect()] sleeps [D]. *)
Theorem dropped_session_restarts_the_backoff
    (t : task) (ws : socket) (fs : list event) :
  at_point t = Connecting ->
  _running (self t) = true ->
  forallb is_frame fs = true ->
  at_point (run (ConnectOk ws :: fs ++ [SessionEnd]) t)
  = Sleeping WS_RECONNECT_DELAY /\
  sleeps (run (ConnectOk ws :: fs ++ [SessionEnd]) t)
  = sleeps t ++ [WS_RECONNECT_DELAY] /\
  _ws (self (run (ConnectOk ws :: fs ++ [SessionEnd]) t)) = Some (close ws).
Proof.
  intros P R F.
  change (run (ConnectOk ws :: fs ++ [SessionEnd]) t)
    with (run (fs ++ [SessionEnd]) (step (ConnectOk ws) t)).
  rewrite StreamFacts.run_app.
  set (t1 := step (ConnectOk ws) t).
  assert (P1 : at_point t1 = Listening)
    by (subst t1; unfold WebSocketManager.step; rewrite P; reflexivity).
  assert (S1 : sleeps t1 = sleeps t)
    by (subst t1; unfold WebSocketManager.step; rewrite P; reflexivity).
  assert (W1 : _ws (self t1) = Some ws)
    by (subst t1; unfold WebSocketManager.step; rewrite P; reflexivity).
  assert (R1 : _running (self t1) = true)
    by (subst t1; unfold WebSocketManager.step; rewrite P; exact R).
  assert (D1 : _reconnect_delay (self t1) = WS_RECONNECT_DELAY)
    by (subst t1; unfold WebSocketManager.step; rewrite P; reflexivity).
  destruct (frames_keep_listening fs F t1 P1) as (A & B & _ & W & G & K).
  set (t2 := run fs t1) in *.
  cbn [WebSocketManager.run fold_left].
  unfold WebSocketManager.step. rewrite A.
  unfold after_try. cbn [self with_self close_ws _running _reconnect_delay].
  rewrite G, R1. cbn [at_point sleeps self _ws close_ws with_self].
  rewrite K, D1, B, S1, W, W1. auto.
Qed.

(** *** Subscriptions *)

Lemma step_sent (e : event) (t : task) :
  sent (step e t) = sent t \/
  (is_connect_ok e = true /\
   sent (step e t)
   = sent t ++ [("l2Book"%string, SPOT_SYMBOL); ("l2Book"%string, PERP_SYMBOL)]).
Proof.
  unfold WebSocketManager.step.
  destruct e as [ws| |[data|] ts| | |], (at_point t); cbn; auto;
    unfold after_try, loop_head; cbn;
    repeat match goal with
           | |- context [if ?b then _ else _] => destruct b; cbn
           end; auto.
  destruct (_handle_message _ _ _ data ts (self t)) as [[m cs]|x]; auto.
Qed.

Lemma run_sent (es : list event) :
  forall (n : nat) (t : task),
    sent t = subscriptions n ->
    exists k : nat,
      (k <= connects_among es)%nat /\
      sent (run es t) = subscriptions (n + k).
Proof.
  induction es as [|e es IH]; intros n t H.
  - exists 0%nat. rewrite Nat.add_0_r. split; [apply Nat.le_0_l | exact H].
  - change (run (e :: es) t) with (run es (step e t)).
    destruct (step_sent e t) as [E | (C & E)].
    + rewrite H in E. destruct (IH n _ E) as (k & L & Hk).
      exists k. split; [|exact Hk].
      unfold connects_among in *. cbn [filter].
      destruct (is_connect_ok e); cbn [List.length]; lia.
    + rewrite H in E.
      change (subscriptions n ++ [("l2Book"%string, SPOT_SYMBOL);
                                   ("l2Book"%string, PERP_SYMBOL)])
        with (subscriptions (S n)) in E.
      destruct (IH (S n) _ E) as (k & L & Hk).
      exists (S k). split.
      * unfold connects_among in *. cbn [filter]. rewrite C.
        cbn [List.length]. lia.
      * rewrite Hk. f_equal. lia.
Qed.

(** Whatever events [connect()] is given, what it has sent is, for some
    number of sessions no greater than the number of successful connects
    among the events, the two subscription requests of each session in
    turn, the spot book's then the perp book's: nothing else is ever
    sent. *)
Theorem two_subscriptions_per_session (cb : option Callback) (es : list event) :
  exists k : nat,
    (k <= connects_among es)%nat /\
    sent (run es (connect (init cb))) = subscriptions k.
Proof.
  destruct (run_sent es 0 (connect (init cb)) eq_refl) as (k & L & Hk).
  exists k. split; [exact L | exact Hk].
Qed.

End Stream.

#[local] Open Scope string_scope.

Lemma spot_frame_touches_only_the_books :
  exists (m' : manager unit) (cs : list (unit * PriceState)),
    _handle_message Examples.SPOT_SYMBOL Examples.PERP_SYMBOL
      Examples.no_float_of_str (Examples.spot_frame Examples.good_levels)
      1700000000 (Examples.ready_manager 5)
    = Ok (m', cs) /\
    on_price_update m' = Some tt /\
    _ws m' = Some (mkSocket 0 true) /\
    _running m' = true /\
    _reconnect_delay m' = 5%Z.
Proof.
  eexists. eexists. split.
  { reflexivity. }
  destruct (frames_touch_only_the_books
              Examples.SPOT_SYMBOL Examples.PERP_SYMBOL
              Examples.no_float_of_str unit
              (Examples.spot_frame Examples.good_levels) 1700000000%float
              (Examples.ready_manager 5) _ _ eq_refl)
    as (A & B & C & D & _).
  repeat split; assumption.
Defined.

Lemma one_sided_spot_frame_is_silent :
  exists m' : manager unit,
    _handle_message Examples.SPOT_SYMBOL Examples.PERP_SYMBOL
      Examples.no_float_of_str
      (Examples.spot_frame MoreExamples.one_sided_levels)
      1700000000 (Examples.ready_manager 5)
    = Ok (m', []) /\
    is_ready (price_state m') = false.
Proof.
  apply (proj1 (empty_side_silences_the_listener
                  Examples.SPOT_SYMBOL Examples.PERP_SYMBOL
                  Examples.no_float_of_str unit
                  (Examples.spot_frame MoreExamples.one_sided_levels)
                  (JStr "l2Book")
                  (MoreExamples.book_of "@107" MoreExamples.one_sided_levels)
                  (JStr "@107") MoreExamples.one_sided_levels
                  1700000000%float (Examples.ready_manager 5)
                  30000%float 0%float 1%float 0%float
                  eq_refl eq_refl eq_refl eq_refl eq_refl eq_refl)).
  - left. reflexivity.
  - right. reflexivity.
Defined.

Lemma first_spot_frame_is_not_announced :
  exists (m' : manager unit) (cs : list (unit * PriceState)),
    _handle_message Examples.SPOT_SYMBOL Examples.PERP_SYMBOL
      Examples.no_float_of_str (Examples.spot_frame Examples.good_levels)
      1700000000
      (init Examples.SPOT_SYMBOL Examples.PERP_SYMBOL 5 (Some tt))
    = Ok (m', cs) /\
    is_valid (spot (price_state m')) = true /\
    cs = [].
Proof.
  eexists. eexists. split.
  { reflexivity. }
  split.
  { reflexivity. }
  apply (proj1 (listener_waits_for_both_books
                  Examples.SPOT_SYMBOL Examples.PERP_SYMBOL 5
                  Examples.no_float_of_str unit
                  (Examples.spot_frame Examples.good_levels) (JStr "l2Book")
                  (MoreExamples.book_of "@107" Examples.good_levels)
                  (JStr "@107") 1700000000%float
                  (init Examples.SPOT_SYMBOL Examples.PERP_SYMBOL 5 (Some tt))
                  _ _ eq_refl eq_refl eq_refl eq_refl eq_refl));
    reflexivity.
Defined.

Lemma stopped_listener_returns :
  _running
    (self (run Examples.SPOT_SYMBOL Examples.PERP_SYMBOL 5 60
             Examples.no_float_of_str
             [Frame (Some (Examples.spot_frame Examples.good_levels)) 1700000000;
              SessionEnd; SleepDone; ConnectFail]
             MoreExamples.stopped)) = false /\
  sleeps (run Examples.SPOT_SYMBOL Examples.PERP_SYMBOL 5 60
            Examples.no_float_of_str
            [Frame (Some (Examples.spot_frame Examples.good_levels)) 1700000000;
             SessionEnd; SleepDone; ConnectFail]
            MoreExamples.stopped) = [] /\
  at_point (step Examples.SPOT_SYMBOL Examples.PERP_SYMBOL 5 60
              Examples.no_float_of_str SessionEnd MoreExamples.stopped)
  = Returned.
Proof.
  destruct (stopped_connect_winds_down
              Examples.SPOT_SYMBOL Examples.PERP_SYMBOL 5 60
              Examples.no_float_of_str unit
              [Frame (Some (Examples.spot_frame Examples.good_levels))
                 1700000000%float;
               SessionEnd; SleepDone; ConnectFail]
              MoreExamples.stopped eq_refl)
    as (A & B & _ & _ & C & _).
  split; [exact A|]. split; [exact B|]. exact (C eq_refl).
Defined.

Lemma drop_after_two_failures_waits_the_initial_delay :
  sleeps (run Examples.SPOT_SYMBOL Examples.PERP_SYMBOL 5 60
            Examples.no_float_of_str
            [ConnectFail; SleepDone; ConnectFail; SleepDone;
             ConnectOk (mkSocket 1 true);
             Frame (Some (Examples.spot_frame Examples.good_levels)) 1700000000;
             SessionEnd]
            (connect (init Examples.SPOT_SYMBOL Examples.PERP_SYMBOL 5
                        (Some tt))))
  = [5; 10; 5]%Z.
Proof.
  exact (proj1 (proj2 (dropped_session_restarts_the_backoff
                         Examples.SPOT_SYMBOL Examples.PERP_SYMBOL 5 60
                         Examples.no_float_of_str unit
                         (run Examples.SPOT_SYMBOL Examples.PERP_SYMBOL 5 60
                            Examples.no_float_of_str
                            [ConnectFail; SleepDone; ConnectFail; SleepDone]
                            (connect (init Examples.SPOT_SYMBOL
                                        Examples.PERP_SYMBOL 5 (Some tt))))
                         (mkSocket 1 true)
                         [Frame (Some (Examples.spot_frame Examples.good_levels))
                            1700000000%float]
                         eq_refl eq_refl eq_refl))).
Defined.

End StreamInvariants.

(** ** More on the event bus: restarts, failed writes, reads *)

Module BusRoundTrips.
Import Py TradeEvents BusTraces.

Lemma slice_from_nil {A} (start : Z) : slice_from start (@nil A) = [].
Proof. unfold slice_from. apply skipn_nil. Qed.

Lemma slice_from_positive {A} (k : Z) (l : list A) :
  (0 < k)%Z -> slice_from k l = skipn (Z.to_nat k) l.
Proof.
  intros H. unfold slice_from.
  replace (k <? 0)%Z with false by (symmetry; apply Z.ltb_ge; lia).
  destruct (Z_le_gt_dec k (Z.of_nat (List.length l))) as [L|G].
  - rewrite Z.min_l by lia. reflexivity.
  - rewrite Z.min_r by lia. rewrite Nat2Z.id.
    rewrite skipn_all. symmetry. apply skipn_all2. lia.
Qed.

Section Bus.

Variable isoformat_now : nat -> string.
Variable entry_message : float -> float -> float -> string.
Variable exit_message : float -> float -> float -> float -> string.

#[local] Notation _save := (_save isoformat_now).
#[local] Notation reset := (reset isoformat_now).
#[local] Notation perform := (perform isoformat_now entry_message exit_message).
#[local] Notation perform_all := (perform_all isoformat_now entry_message exit_message).
#[local] Notation exec := (exec isoformat_now entry_message exit_message).
#[local] Notation exec_all := (exec_all isoformat_now entry_message exit_message).

Lemma load_after_persist (c : call) (w : world) :
  bus (fst (_load (fst (perform Written c w))))
  = truncated (bus (fst (perform Written c w))).
Proof.
  destruct c; unfold TradeEvents._load; cbn;
    rewrite !(BusFacts.slice_from_negative 100) by lia;
    change (Z.to_nat 100) with 100%nat;
    rewrite BusFacts.most_recent_twice; reflexivity.
Qed.

(** A restart round trip: a bus created over the file that a completed
    persist left has the counters and the position mirror the writer had,
    and the most recent 100 of its events. *)
Theorem restart_restores_the_bus :
  (forall w : world,
     bus (new (disk (fst (_save Written w)))) = truncated (bus w)) /\
  (forall (c : call) (w : world),
     bus (new (disk (fst (perform Written c w))))
     = truncated (bus (fst (perform Written c w)))).
Proof.
  split.
  - intros w. unfold new, TradeEvents._load. cbn.
    rewrite !(BusFacts.slice_from_negative 100) by lia.
    change (Z.to_nat 100) with 100%nat.
    rewrite BusFacts.most_recent_twice. reflexivity.
  - intros c w. destruct c; unfold new, TradeEvents._load; cbn;
      rewrite !(BusFacts.slice_from_negative 100) by lia;
      change (Z.to_nat 100) with 100%nat;
      rewrite BusFacts.most_recent_twice; reflexivity.
Qed.

(** What the next read sees after a write that failed.  When the file
    could not be opened and holds an older snapshot, the read reloads that
    snapshot: [get_stats] answers with the file's counters and the event
    and counters of the failed call are gone from memory.  When the dump
    was interrupted the file is unreadable, the reload is skipped, and the
    read answers from memory, the failed call's update included; likewise
    when there is no file. *)
Theorem read_after_failed_write (c : call) (w : world) :
  (forall data : snapshot,
     disk w = Stored data ->
     snd (get_stats (fst (perform OpenRaises c w)))
     = Ok (default 0%Z (trades_executed data),
           default 0%float (total_pnl data),
           current_position data) /\
     _events (bus (fst (get_stats (fst (perform OpenRaises c w)))))
     = slice_from (-100) (default [] (events data))) /\
  (bus (fst (get_stats (fst (perform DumpRaises c w))))
   = bus (fst (perform Written c w)) /\
   snd (get_stats (fst (perform DumpRaises c w)))
   = Ok (_trades_executed (bus (fst (perform Written c w))),
         _total_pnl (bus (fst (perform Written c w))),
         _current_position (bus (fst (perform Written c w))))) /\
  (disk w = Absent ->
   bus (fst (get_stats (fst (perform OpenRaises c w))))
   = bus (fst (perform Written c w))).
Proof.
  split; [|split].
  - intros data D.
    assert (D' : disk (fst (perform OpenRaises c w)) = Stored data).
    { rewrite BusFacts.perform_disk by discriminate. exact D. }
    unfold get_stats, bind, get, ret, TradeEvents._load.
    rewrite D'. split; reflexivity.
  - assert (D' : disk (fst (perform DumpRaises c w)) = Garbled).
    { rewrite BusFacts.perform_disk by discriminate. reflexivity. }
    unfold get_stats, bind, get, ret, TradeEvents._load.
    rewrite D'. cbn [fst snd].
    rewrite (BusFacts.perform_same_memory _ _ _ DumpRaises c w).
    split; reflexivity.
  - intros D.
    assert (D' : disk (fst (perform OpenRaises c w)) = Absent).
    { rewrite BusFacts.perform_disk by discriminate. exact D. }
    unfold get_stats, bind, get, ret, TradeEvents._load.
    rewrite D'. cbn [fst snd].
    apply BusFacts.perform_same_memory.
Qed.

(** [reset()] empties the bus: with its write completing, every later
    read finds no events, zero trades, a zero total and no position; with
    the file not opened and an older snapshot in it, memory is emptied but
    the next read brings the file's events and counters back. *)
Theorem reset_empties_the_bus (limit : Z) (w : world) :
  snd (reset Written w) = Ok tt /\
  snd (get_events limit (fst (reset Written w))) = Ok [] /\
  snd (get_stats (fst (reset Written w))) = Ok (0%Z, 0%float, None) /\
  _events (bus (fst (reset OpenRaises w))) = [] /\
  (forall data : snapshot,
     disk w = Stored data ->
     snd (get_events limit (fst (reset OpenRaises w)))
     = Ok (slice_from (- limit) (slice_from (-100) (default [] (events data))))).
Proof.
  repeat apply conj; try reflexivity.
  - unfold get_events, bind, get, ret, TradeEvents._load. cbn.
    rewrite !slice_from_nil. reflexivity.
  - intros data D.
    unfold get_events, bind, get, ret, TradeEvents._load. cbn.
    rewrite D. reflexivity.
Qed.

(** [get_events] with a negative limit: the slice [[-limit:]] then starts
    from the front, so the call drops the oldest [|limit|] events of the
    list it reloaded and returns all the rest. *)
Theorem get_events_negative_limit (limit : Z) (w : world) :
  (limit < 0)%Z ->
  snd (get_events limit w)
  = Ok (skipn (Z.to_nat (- limit)) (_events (bus (fst (_load w))))).
Proof.
  intros H.
  unfold get_events, bind, get, ret.
  destruct (_load w) as [w' [[]|e]] eqn:L; cbn.
  - rewrite slice_from_positive by lia. reflexivity.
  - unfold TradeEvents._load in L. destruct (disk w); discriminate.
Qed.

(** *** Counters over a sequence of calls *)

Lemma perform_all_cons (c : call) (cs : list call) (w : world) :
  perform_all (c :: cs) w = perform_all cs (fst (perform Written c w)).
Proof. reflexivity. Qed.

(** After any sequence of mutating calls, each write completing:
    [trades_executed] has grown by the number of [exit_executed] calls,
    [total_pnl] is the old total with the exits' net P&L added in call
    order, a position is mirrored exactly when the last entry or exit call
    was an entry, and the list has one more event per call. *)
Theorem counters_follow_the_calls (cs : list call) :
  forall w : world,
    _trades_executed (bus (perform_all cs w))
    = (_trades_executed (bus w) + Z.of_nat (exits_among cs))%Z /\
    _total_pnl (bus (perform_all cs w)) = pnl_after cs (_total_pnl (bus w)) /\
    is_some (_current_position (bus (perform_all cs w)))
    = open_after cs (is_some (_current_position (bus w))) /\
    List.length (_events (bus (perform_all cs w)))
    = (List.length (_events (bus w)) + List.length cs)%nat.
Proof.
  induction cs as [|c cs IH]; intros w.
  - cbn. repeat split; lia.
  - rewrite perform_all_cons.
    destruct (IH (fst (perform Written c w))) as (A & B & C & D).
    rewrite A, B, C, D.
    unfold exits_among, pnl_after, open_after. cbn [filter fold_left].
    destruct c; cbn [is_exit List.length];
      cbn [perform add_event entry_executed exit_executed error bind modify
           now _save get raise fst snd bus with_bus with_disk append_event
           _events _trades_executed _total_pnl _current_position is_some];
      rewrite ?length_app; cbn [List.length];
      (split; [lia | split; [reflexivity | split; [reflexivity | lia]]]).
Qed.

(** *** Reads among the calls *)

Lemma perform_in_step (c : call) (r p : world) :
  in_step r p ->
  in_step (fst (perform Written c r)) (fst (perform Written c p)).
Proof.
  destruct r as [[er tr pr cr] dr kr], p as [[ep tp pp cp] dp kp].
  unfold in_step. cbn [clock disk bus _events _trades_executed _total_pnl
                       _current_position].
  intros (-> & -> & -> & -> & -> & E & _).
  change 100%nat with (S 99) in E.
  destruct c; cbn -[most_recent slice_from];
    rewrite !(BusFacts.slice_from_negative 100) by lia;
    change (Z.to_nat 100) with (S 99);
    rewrite !(BusFacts.most_recent_snoc_eq 99 er ep _ E);
    repeat split; reflexivity.
Qed.

Lemma load_in_step (r p : world) :
  in_step r p -> in_step (fst (_load r)) p.
Proof.
  destruct r as [[er tr pr cr] dr kr], p as [[ep tp pp cp] dp kp].
  unfold in_step, TradeEvents._load.
  cbn [clock disk bus _events _trades_executed _total_pnl _current_position].
  intros (-> & -> & -> & -> & -> & E & S).
  destruct dp as [| |data]; cbn -[most_recent slice_from];
    [auto 10 | contradiction |].
  destruct S as (S1 & S2 & S3 & S4). rewrite S1, S2, S3, S4. cbn [default].
  rewrite (BusFacts.slice_from_negative 100) by lia.
  change (Z.to_nat 100) with 100%nat.
  rewrite !BusFacts.most_recent_twice.
  repeat split; reflexivity.
Qed.

Lemma exec_in_step (o : op) (r p : world) :
  in_step r p ->
  in_step (exec o r)
    (match o with
     | Mutate c => fst (perform Written c p)
     | _ => p
     end).
Proof.
  intros H. destruct o as [c|limit|]; cbn [BusTraces.exec].
  - apply perform_in_step. exact H.
  - apply load_in_step in H.
    unfold get_events, bind, get, ret.
    destruct (_load r) as [r' [[]|e]]; exact H.
  - apply load_in_step in H.
    unfold get_stats, bind, get, ret.
    destruct (_load r) as [r' [[]|e]]; exact H.
Qed.

Lemma exec_all_in_step (ops : list op) :
  forall r p : world,
    in_step r p ->
    in_step (exec_all ops r) (perform_all (calls_of ops) p).
Proof.
  induction ops as [|o ops IH]; intros r p H; [exact H|].
  change (exec_all (o :: ops) r) with (exec_all ops (exec o r)).
  apply (exec_in_step o) in H.
  destruct o as [c|limit|]; cbn [calls_of]; [|apply IH; exact H ..].
  rewrite perform_all_cons. apply IH. exact H.
Qed.

(** Reads are transparent to what is stored.  On a new bus with no file,
    a sequence of mutating calls with [get_events] and [get_stats] calls
    anywhere among them (every write completing) ends with the same file,
    the same counters and position mirror in memory, and the same most
    recent 100 events as the mutating calls alone. *)
Theorem reads_are_transparent (ops : list op) :
  disk (exec_all ops (new Absent))
  = disk (perform_all (calls_of ops) (new Absent)) /\
  _trades_executed (bus (exec_all ops (new Absent)))
  = _trades_executed (bus (perform_all (calls_of ops) (new Absent))) /\
  _total_pnl (bus (exec_all ops (new Absent)))
  = _total_pnl (bus (perform_all (calls_of ops) (new Absent))) /\
  _current_position (bus (exec_all ops (new Absent)))
  = _current_position (bus (perform_all (calls_of ops) (new Absent))) /\
  most_recent 100 (_events (bus (exec_all ops (new Absent))))
  = most_recent 100 (_events (bus (perform_all (calls_of ops) (new Absent)))).
Proof.
  assert (H : in_step (new Absent) (new Absent)).
  { unfold in_step. cbn. repeat split. }
  destruct (exec_all_in_step ops _ _ H) as (_ & D & T & P & C & E & _).
  repeat split; assumption.
Qed.

End Bus.

Lemma negative_limit_drops_the_oldest :
  snd (get_events (-1)
         (perform_all Examples.clock_reading Examples.entry_text
            Examples.exit_text
            [EntryExecuted 1 10 10.1 0.01; ExitExecuted 1 10.1 10 0.2]
            (new Absent)))
  = Ok (skipn (Z.to_nat (- (-1)))
          (_events
             (bus (fst (_load
                          (perform_all Examples.clock_reading
                             Examples.entry_text Examples.exit_text
                             [EntryExecuted 1 10 10.1 0.01;
                              ExitExecuted 1 10.1 10 0.2]
                             (new Absent))))))) /\
  List.length
    (skipn (Z.to_nat (- (-1)))
       (_events
          (bus (fst (_load
                       (perform_all Examples.clock_reading
                          Examples.entry_text Examples.exit_text
                          [EntryExecuted 1 10 10.1 0.01;
                           ExitExecuted 1 10.1 10 0.2]
                          (new Absent))))))) = 1%nat.
Proof.
  split.
  - apply (get_events_negative_limit (-1)). lia.
  - reflexivity.
Defined.

Lemma failed_open_reloads_the_file :
  exists data : snapshot,
    disk (fst (perform Examples.clock_reading Examples.entry_text
                 Examples.exit_text Written (EntryExecuted 1 10 10.1 0.01)
                 (new Absent)))
    = Stored data /\
    trades_executed data = Some 0%Z /\
    snd (get_stats
           (fst (perform Examples.clock_reading Examples.entry_text
                   Examples.exit_text OpenRaises (ExitExecuted 1 10.1 10 0.2)
                   (fst (perform Examples.clock_reading Examples.entry_text
                           Examples.exit_text Written
                           (EntryExecuted 1 10 10.1 0.01) (new Absent))))))
    = Ok (default 0%Z (trades_executed data),
          default 0%float (total_pnl data),
          current_position data).
Proof.
  eexists. split.
  { reflexivity. }
  split.
  { reflexivity. }
  apply (proj1 (read_after_failed_write
                  Examples.clock_reading Examples.entry_text Examples.exit_text
                  (ExitExecuted 1 10.1 10 0.2)
                  (fst (perform Examples.clock_reading Examples.entry_text
                          Examples.exit_text Written
                          (EntryExecuted 1 10 10.1 0.01) (new Absent))))
           _ eq_refl).
Defined.

Lemma failed_reset_brings_the_file_back :
  exists data : snapshot,
    disk (fst (perform Examples.clock_reading Examples.entry_text
                 Examples.exit_text Written (EntryExecuted 1 10 10.1 0.01)
                 (new Absent)))
    = Stored data /\
    snd (get_events 50
           (fst (reset Examples.clock_reading OpenRaises
                   (fst (perform Examples.clock_reading Examples.entry_text
                           Examples.exit_text Written
                           (EntryExecuted 1 10 10.1 0.01) (new Absent))))))
    = Ok (slice_from (- 50) (slice_from (-100) (default [] (events data)))) /\
    List.length (slice_from (- 50) (slice_from (-100) (default [] (events data))))
    = 1%nat.
Proof.
  eexists. split.
  { reflexivity. }
  split.
  - destruct (reset_empties_the_bus Examples.clock_reading 50
                (fst (perform Examples.clock_reading Examples.entry_text
                        Examples.exit_text Written
                        (EntryExecuted 1 10 10.1 0.01) (new Absent))))
      as (_ & _ & _ & _ & R).
    exact (R _ eq_refl).
  - reflexivity.
Defined.

End BusRoundTrips.

(** ** More on the live trading cycle: how far a run gets *)

Module CycleOutcomes.
Import Py LiveTradingTest CyclePlan.
#[local] Open Scope result_scope.

Section Cycle.

Variable SPOT_SYMBOL PERP_SYMBOL : string.
Variable float_of_str : string -> option float.
Variable py_str : json -> string.
Variable py_round : float -> Z -> float.
Variable account_state : option (json * json).
Variable l2_snapshot : nat -> string -> result json.
Variable exchange_order : nat -> order_request -> result json.

#[local] Notation parse_order_result := (parse_order_result float_of_str py_str).
#[local] Notation run_test :=
  (run_test SPOT_SYMBOL PERP_SYMBOL float_of_str py_str py_round
            account_state l2_snapshot exchange_order).
#[local] Notation get_current_prices :=
  (get_current_prices SPOT_SYMBOL PERP_SYMBOL float_of_str l2_snapshot).
#[local] Notation requested_size :=
  (requested_size SPOT_SYMBOL PERP_SYMBOL float_of_str py_round l2_snapshot).
#[local] Notation entry_spot_order :=
  (entry_spot_order SPOT_SYMBOL PERP_SYMBOL float_of_str py_round l2_snapshot).
#[local] Notation entry_perp_order :=
  (entry_perp_order SPOT_SYMBOL PERP_SYMBOL float_of_str py_round l2_snapshot).
#[local] Notation exit_spot_order :=
  (exit_spot_order SPOT_SYMBOL PERP_SYMBOL float_of_str py_round l2_snapshot).
#[local] Notation exit_perp_order :=
  (exit_perp_order SPOT_SYMBOL PERP_SYMBOL float_of_str py_round l2_snapshot).
#[local] Notation ends_in :=
  (ends_in SPOT_SYMBOL PERP_SYMBOL float_of_str py_str py_round l2_snapshot).
#[local] Notation PerpEntryRaised :=
  (PerpEntryRaised SPOT_SYMBOL PERP_SYMBOL float_of_str py_str py_round l2_snapshot).
#[local] Notation EntryFailed :=
  (EntryFailed SPOT_SYMBOL PERP_SYMBOL float_of_str py_str py_round l2_snapshot).
#[local] Notation SpotExitRaised :=
  (SpotExitRaised SPOT_SYMBOL PERP_SYMBOL float_of_str py_str py_round l2_snapshot).
#[local] Notation PerpExitRaised :=
  (PerpExitRaised SPOT_SYMBOL PERP_SYMBOL float_of_str py_str py_round l2_snapshot).
#[local] Notation Summarised :=
  (Summarised SPOT_SYMBOL PERP_SYMBOL float_of_str py_str py_round l2_snapshot).

Lemma run_test_ends (size_usd : float) :
  ends_in size_usd (fst (run_test size_usd fresh)) (snd (run_test size_usd fresh)).
Proof.
  unfold LiveTradingTest.run_test.
  rewrite CycleFacts.bind_unfold.
  pose proof (CycleFacts.check_account_state_keeps float_of_str account_state
                fresh) as K.
  destruct (check_account_state float_of_str account_state fresh)
    as [r0 [[]|e0]]; cbn [fst] in K; subst r0; [|apply NothingSent].
  destruct (get_current_prices 0) as [[[sb0 sa0] pb0] pa0] eqn:G0.
  destruct ((sa0 =? 0)%float || (pb0 =? 0)%float); [apply NothingSent|].
  assert (O1 : entry_spot_order size_usd
               = mkOrder SPOT_SYMBOL true (py_round (size_usd / sa0)%float 2)
                   (py_round (sa0 * 1.001)%float 4) "Ioc" false)
    by (unfold entry_spot_order, requested_size; rewrite G0; reflexivity).
  assert (O2 : entry_perp_order size_usd
               = mkOrder PERP_SYMBOL false (py_round (size_usd / sa0)%float 2)
                   (py_round (pb0 * 0.999)%float 4) "Ioc" false)
    by (unfold entry_perp_order, requested_size; rewrite G0; reflexivity).
  unfold place_spot_order, place_perp_order.
  rewrite CycleFacts.bind_unfold, CycleFacts.place_order_effect.
  cbn [orders fresh List.length app test summaries].
  rewrite <- O1.
  destruct (exchange_order 0 _) as [j1|] eqn:X1; [|apply SpotEntryRaised].
  rewrite CycleFacts.bind_unfold, CycleFacts.record_fill_effect. cbn [test].
  destruct (parse_order_result j1 init) as [[t1 f1]|] eqn:P1;
    [|apply SpotEntryRaised].
  rewrite CycleFacts.bind_unfold, CycleFacts.place_order_effect.
  cbn [orders with_test List.length app test summaries].
  rewrite <- O2.
  destruct (exchange_order 1 _) as [j2|] eqn:X2;
    [|apply (PerpEntryRaised size_usd j1 t1 f1 _ P1)].
  rewrite CycleFacts.bind_unfold, CycleFacts.record_fill_effect. cbn [test].
  destruct (parse_order_result j2 (set_entry_spot t1 f1)) as [[t2 f2]|] eqn:P2;
    [|apply (PerpEntryRaised size_usd j1 t1 f1 _ P1)].
  destruct (success f1 && success f2) eqn:S12; cbn [negb];
    [|apply (EntryFailed size_usd j1 j2 t1 t2 f1 f2 P1 P2 S12)].
  destruct (get_current_prices 1) as [[[sb1 sa1] pb1] pa1] eqn:G1.
  assert (O3 : exit_spot_order size_usd f1
               = mkOrder SPOT_SYMBOL false
                   (filled_size f1 (py_round (size_usd / sa0)%float 2))
                   (py_round (sb1 * 0.999)%float 4) "Ioc" false)
    by (unfold exit_spot_order, requested_size; rewrite G0, G1; reflexivity).
  assert (O4 : exit_perp_order size_usd f2
               = mkOrder PERP_SYMBOL true
                   (filled_size f2 (py_round (size_usd / sa0)%float 2))
                   (py_round (pa1 * 1.001)%float 4) "Ioc" true)
    by (unfold exit_perp_order, requested_size; rewrite G0, G1; reflexivity).
  rewrite CycleFacts.bind_unfold, CycleFacts.place_order_effect.
  cbn [orders with_test List.length app test summaries].
  rewrite <- O3.
  destruct (exchange_order 2 _) as [j3|] eqn:X3;
    [|apply (SpotExitRaised size_usd j1 j2 t1 t2 f1 f2 _ P1 P2 S12)].
  rewrite CycleFacts.bind_unfold, CycleFacts.record_fill_effect.
  cbn [test with_test].
  destruct (parse_order_result j3 (set_entry_perp t2 f2)) as [[t3 f3]|] eqn:P3;
    [|apply (SpotExitRaised size_usd j1 j2 t1 t2 f1 f2 _ P1 P2 S12)].
  rewrite CycleFacts.bind_unfold, CycleFacts.place_order_effect.
  cbn [orders with_test List.length app test summaries].
  rewrite <- O4.
  destruct (exchange_order 3 _) as [j4|] eqn:X4;
    [|apply (PerpExitRaised size_usd j1 j2 j3 t1 t2 t3 f1 f2 f3 _ P1 P2 S12 P3)].
  rewrite CycleFacts.bind_unfold, CycleFacts.record_fill_effect.
  cbn [test with_test].
  destruct (parse_order_result j4 (set_exit_spot t3 f3)) as [[t4 f4]|] eqn:P4;
    [|apply (PerpExitRaised size_usd j1 j2 j3 t1 t2 t3 f1 f2 f3 _ P1 P2 S12 P3)].
  apply (Summarised size_usd j1 j2 j3 j4 t1 t2 t3 t4 f1 f2 f3 f4
           P1 P2 S12 P3 P4).
Qed.

(** *** Fills and fees along a run *)

Lemma parse_step (result : json) (t t' : LiveTradingTest) (f : fill) :
  parse_order_result result t = Ok (t', f) ->
  entry_spot_fill t' = entry_spot_fill t /\
  entry_perp_fill t' = entry_perp_fill t /\
  exit_spot_fill t' = exit_spot_fill t /\
  exit_perp_fill t' = exit_perp_fill t /\
  total_fees t' = with_fee_of (total_fees t) (Some f) /\
  (forall size price fee oid,
     f = Filled size price fee oid ->
     fee = (size * price * taker_fee_rate)%float).
Proof.
  intros H.
  destruct (CycleFacts.parse_keeps_fills _ _ _ _ _ _ H) as (A & B & C & D).
  repeat split; auto.
  - destruct f as [size price fee oid|err].
    + apply CycleFacts.parse_filled_inv in H. destruct H as (-> & _).
      reflexivity.
    + apply CycleFacts.parse_failed_inv in H. subst t'. reflexivity.
  - intros size price fee oid ->.
    apply CycleFacts.parse_filled_inv in H. tauto.
Qed.

Lemma order_tifs (size_usd : float) (f : fill) :
  tif (entry_spot_order size_usd) = "Ioc"%string /\
  tif (entry_perp_order size_usd) = "Ioc"%string /\
  tif (exit_spot_order size_usd f) = "Ioc"%string /\
  tif (exit_perp_order size_usd f) = "Ioc"%string.
Proof.
  unfold entry_spot_order, entry_perp_order, exit_spot_order, exit_perp_order.
  destruct (get_current_prices 0) as [[[sb0 sa0] pb0] pa0].
  destruct (get_current_prices 1) as [[[sb1 sa1] pb1] pa1].
  repeat split.
Qed.

(** Whatever the exchange does, the orders a run submits are the first
    [n <= 4] of the plan, in order: spot buy, perp sell, spot sell, perp
    reduce-only buy, all immediate-or-cancel; and an exit order is
    submitted only after both entry legs were recorded as filled, sized to
    those fills. *)
Theorem orders_follow_the_plan (size_usd : float) :
  exists (n : nat) (f1 f2 : fill),
    (n <= 4)%nat /\
    orders (fst (run_test size_usd fresh))
    = firstn n [entry_spot_order size_usd; entry_perp_order size_usd;
                exit_spot_order size_usd f1; exit_perp_order size_usd f2] /\
    Forall (fun o => tif o = "Ioc"%string)
      (orders (fst (run_test size_usd fresh))) /\
    ((2 < n)%nat ->
     entry_spot_fill (test (fst (run_test size_usd fresh))) = Some f1 /\
     entry_perp_fill (test (fst (run_test size_usd fresh))) = Some f2 /\
     success f1 = true /\ success f2 = true).
Proof.
  pose proof (run_test_ends size_usd) as E.
  set (r := fst (run_test size_usd fresh)) in *.
  set (res := snd (run_test size_usd fresh)) in *.
  clearbody r res.
  destruct E as [res | e | j1 t1 f1 e P1 | j1 j2 t1 t2 f1 f2 P1 P2 S12
                | j1 j2 t1 t2 f1 f2 e P1 P2 S12
                | j1 j2 j3 t1 t2 t3 f1 f2 f3 e P1 P2 S12 P3
                | j1 j2 j3 j4 t1 t2 t3 t4 f1 f2 f3 f4 P1 P2 S12 P3 P4].
  - exists 0%nat, unknown_result, unknown_result.
    repeat split; [lia | constructor | lia ..].
  - exists 1%nat, unknown_result, unknown_result.
    destruct (order_tifs size_usd unknown_result) as (T1 & _).
    repeat split; [lia | repeat constructor; exact T1 | lia ..].
  - exists 2%nat, unknown_result, unknown_result.
    destruct (order_tifs size_usd unknown_result) as (T1 & T2 & _).
    repeat split; [lia | repeat constructor; assumption | lia ..].
  - exists 2%nat, unknown_result, unknown_result.
    destruct (order_tifs size_usd unknown_result) as (T1 & T2 & _).
    repeat split; [lia | repeat constructor; assumption | lia ..].
  - exists 3%nat, f1, f2.
    destruct (order_tifs size_usd f1) as (T1 & T2 & T3 & _).
    destruct (parse_step _ _ _ _ P2) as (A2 & _).
    apply andb_true_iff in S12. destruct S12 as [S1 S2].
    cbn [test orders firstn entry_spot_fill entry_perp_fill set_entry_perp].
    repeat split; [lia | repeat constructor; assumption | | exact S1 | exact S2].
    rewrite A2. reflexivity.
  - exists 4%nat, f1, f2.
    destruct (order_tifs size_usd f1) as (T1 & T2 & T3 & _).
    destruct (order_tifs size_usd f2) as (_ & _ & _ & T4).
    destruct (parse_step _ _ _ _ P2) as (A2 & _).
    destruct (parse_step _ _ _ _ P3) as (A3 & B3 & _).
    apply andb_true_iff in S12. destruct S12 as [S1 S2].
    cbn [test orders firstn entry_spot_fill entry_perp_fill set_exit_spot].
    repeat split;
      [lia | repeat constructor; assumption | | | exact S1 | exact S2].
    + rewrite A3. cbn [set_entry_perp entry_spot_fill]. rewrite A2. reflexivity.
    + rewrite B3. reflexivity.
  - exists 4%nat, f1, f2.
    destruct (order_tifs size_usd f1) as (T1 & T2 & T3 & _).
    destruct (order_tifs size_usd f2) as (_ & _ & _ & T4).
    destruct (parse_step _ _ _ _ P2) as (A2 & _).
    destruct (parse_step _ _ _ _ P3) as (A3 & B3 & _).
    destruct (parse_step _ _ _ _ P4) as (A4 & B4 & _).
    apply andb_true_iff in S12. destruct S12 as [S1 S2].
    cbn [test orders firstn entry_spot_fill entry_perp_fill set_exit_perp].
    repeat split;
      [lia | repeat constructor; assumption | | | exact S1 | exact S2].
    + rewrite A4. cbn [set_exit_spot entry_spot_fill]. rewrite A3.
      cbn [set_entry_perp entry_spot_fill]. rewrite A2. reflexivity.
    + rewrite B4. cbn [set_exit_spot entry_perp_fill]. rewrite B3. reflexivity.
Qed.

(** When the entry did not fill on both legs, the run stops there: it
    returns having submitted the two entry orders and no exit order (the
    perp entry went out whether or not the spot entry had filled), it
    records no exit fill, and its one summary has no P&L block. *)
Theorem failed_entry_sends_no_exit (size_usd : float) (f1 f2 : fill) :
  entry_spot_fill (test (fst (run_test size_usd fresh))) = Some f1 ->
  entry_perp_fill (test (fst (run_test size_usd fresh))) = Some f2 ->
  success f1 && success f2 = false ->
  snd (run_test size_usd fresh) = Ok tt /\
  orders (fst (run_test size_usd fresh))
  = [entry_spot_order size_usd; entry_perp_order size_usd] /\
  summaries (fst (run_test size_usd fresh)) = [None] /\
  exit_spot_fill (test (fst (run_test size_usd fresh))) = None /\
  exit_perp_fill (test (fst (run_test size_usd fresh))) = None.
Proof.
  pose proof (run_test_ends size_usd) as E.
  set (r := fst (run_test size_usd fresh)) in *.
  set (res := snd (run_test size_usd fresh)) in *.
  clearbody r res.
  destruct E as [res | e | j1 t1 g1 e P1 | j1 j2 t1 t2 g1 g2 P1 P2 S12
                | j1 j2 t1 t2 g1 g2 e P1 P2 S12
                | j1 j2 j3 t1 t2 t3 g1 g2 g3 e P1 P2 S12 P3
                | j1 j2 j3 j4 t1 t2 t3 t4 g1 g2 g3 g4 P1 P2 S12 P3 P4];
    cbn [test orders summaries]; intros H1 H2 F.
  - discriminate.
  - discriminate.
  - destruct (parse_step _ _ _ _ P1) as (_ & B1 & _).
    cbn [set_entry_spot entry_perp_fill] in H2. rewrite B1 in H2. discriminate.
  - destruct (parse_step _ _ _ _ P1) as (_ & _ & C1 & D1 & _).
    destruct (parse_step _ _ _ _ P2) as (_ & _ & C2 & D2 & _).
    assert (X : exit_spot_fill (set_entry_perp t2 g2) = None).
    { cbn [set_entry_perp exit_spot_fill]. rewrite C2.
      cbn [set_entry_spot exit_spot_fill]. rewrite C1. reflexivity. }
    assert (Y : exit_perp_fill (set_entry_perp t2 g2) = None).
    { cbn [set_entry_perp exit_perp_fill]. rewrite D2.
      cbn [set_entry_spot exit_perp_fill]. rewrite D1. reflexivity. }
    repeat split; auto.
    unfold _print_summary. rewrite X.
    destruct (entry_spot_fill (set_entry_perp t2 g2)) as [[]|];
      destruct (entry_perp_fill (set_entry_perp t2 g2)) as [[]|]; reflexivity.
  - destruct (parse_step _ _ _ _ P2) as (A2 & _).
    cbn [set_entry_perp entry_spot_fill entry_perp_fill] in H1, H2.
    rewrite A2 in H1. cbn [set_entry_spot entry_spot_fill] in H1.
    congruence.
  - destruct (parse_step _ _ _ _ P2) as (A2 & _).
    destruct (parse_step _ _ _ _ P3) as (A3 & B3 & _).
    cbn [set_exit_spot entry_spot_fill entry_perp_fill] in H1, H2.
    rewrite A3 in H1. rewrite B3 in H2.
    cbn [set_entry_perp entry_spot_fill entry_perp_fill] in H1, H2.
    rewrite A2 in H1. cbn [set_entry_spot entry_spot_fill] in H1.
    congruence.
  - destruct (parse_step _ _ _ _ P2) as (A2 & _).
    destruct (parse_step _ _ _ _ P3) as (A3 & B3 & _).
    destruct (parse_step _ _ _ _ P4) as (A4 & B4 & _).
    cbn [set_exit_perp entry_spot_fill entry_perp_fill] in H1, H2.
    rewrite A4 in H1. rewrite B4 in H2.
    cbn [set_exit_spot entry_spot_fill entry_perp_fill] in H1, H2.
    rewrite A3 in H1. rewrite B3 in H2.
    cbn [set_entry_perp entry_spot_fill entry_perp_fill] in H1, H2.
    rewrite A2 in H1. cbn [set_entry_spot entry_spot_fill] in H1.
    congruence.
Qed.

(** However far a run gets, [total_fees] ends as zero plus the fees of the
    fills recorded as successes, added in the order entry spot, entry
    perp, exit spot, exit perp; a failed or missing fill adds nothing, and
    each recorded success carries the fee size x price x 0.00025. *)
Theorem fees_are_those_of_the_fills (size_usd : float) :
  let t := test (fst (run_test size_usd fresh)) in
  total_fees t
  = fold_left with_fee_of
      [entry_spot_fill t; entry_perp_fill t; exit_spot_fill t; exit_perp_fill t]
      0%float /\
  (forall size price fee oid,
     In (Some (Filled size price fee oid))
        [entry_spot_fill t; entry_perp_fill t; exit_spot_fill t;
         exit_perp_fill t] ->
     fee = (size * price * 0.00025)%float).
Proof.
  cbv zeta.
  pose proof (run_test_ends size_usd) as E.
  set (r := fst (run_test size_usd fresh)) in *.
  set (res := snd (run_test size_usd fresh)) in *.
  clearbody r res.
  destruct E as [res | e | j1 t1 g1 e P1 | j1 j2 t1 t2 g1 g2 P1 P2 S12
                | j1 j2 t1 t2 g1 g2 e P1 P2 S12
                | j1 j2 j3 t1 t2 t3 g1 g2 g3 e P1 P2 S12 P3
                | j1 j2 j3 j4 t1 t2 t3 t4 g1 g2 g3 g4 P1 P2 S12 P3 P4];
    try unfold fresh; cbn [test];
    try destruct (parse_step _ _ _ _ P1) as (A1 & B1 & C1 & D1 & T1 & F1);
    try destruct (parse_step _ _ _ _ P2) as (A2 & B2 & C2 & D2 & T2 & F2);
    try destruct (parse_step _ _ _ _ P3) as (A3 & B3 & C3 & D3 & T3 & F3);
    try destruct (parse_step _ _ _ _ P4) as (A4 & B4 & C4 & D4 & T4 & F4);
    cbn [set_entry_spot set_entry_perp set_exit_spot set_exit_perp
         entry_spot_fill entry_perp_fill exit_spot_fill exit_perp_fill
         total_fees] in *;
    repeat match goal with
           | H : _ = _ |- _ => rewrite H
           end;
    cbn [set_entry_spot set_entry_perp set_exit_spot set_exit_perp
         entry_spot_fill entry_perp_fill exit_spot_fill exit_perp_fill
         total_fees init fold_left with_fee_of];
    (split; [reflexivity|]);
    intros size price fee oid I; cbn [In] in I;
    repeat match goal with
           | H : _ \/ _ |- _ => destruct H
           | H : False |- _ => contradiction
           | H : None = Some _ |- _ => discriminate H
           | H : Some _ = Some _ |- _ => injection H as H; symmetry in H
           end;
    eauto.
Qed.

(** *** Missing prices *)

(** [get_current_prices] answers four zeros when either book cannot be
    fetched, and [run_test] submits nothing, records nothing and prints no
    summary when the spot ask or the perp bid it got is zero. *)
Theorem missing_price_sends_nothing (size_usd : float) :
  (forall e, l2_snapshot 0 SPOT_SYMBOL = Raise e ->
     get_current_prices 0 = (0, 0, 0, 0)%float) /\
  (forall e, l2_snapshot 0 PERP_SYMBOL = Raise e ->
     get_current_prices 0 = (0, 0, 0, 0)%float) /\
  ((let '(_, spot_ask, perp_bid, _) := get_current_prices 0 in
    (spot_ask =? 0)%float || (perp_bid =? 0)%float) = true ->
   fst (run_test size_usd fresh) = fresh).
Proof.
  split; [|split].
  - intros e H. unfold LiveTradingTest.get_current_prices.
    rewrite H. reflexivity.
  - intros e H. unfold LiveTradingTest.get_current_prices.
    rewrite H.
    repeat match goal with
           | |- context [rbind ?r _] => destruct r; cbn [rbind]
           end; reflexivity.
  - intros H. unfold LiveTradingTest.run_test.
    rewrite CycleFacts.bind_unfold.
    pose proof (CycleFacts.check_account_state_keeps float_of_str account_state
                  fresh) as K.
    destruct (check_account_state float_of_str account_state fresh)
      as [r0 [[]|e0]]; cbn [fst] in K; subst r0; [|reflexivity].
    destruct (get_current_prices 0) as [[[sb0 sa0] pb0] pa0].
    rewrite H. reflexivity.
Qed.

(** *** A fill without size or price *)

(** A statuses entry whose ["filled"] object has neither ["totalSz"] nor
    ["avgPx"] is still reported as a success: of size 0 at price 0, with
    fee 0 x 0 x 0.00025 = 0 added to [total_fees]. *)
Theorem fill_without_numbers_is_a_success
    (result : json) (skipped : list json) (entry : json) (rest : list json)
    (kvs : list (string * json)) (t : LiveTradingTest) :
  reaches_statuses result (skipped ++ entry :: rest) ->
  Forall passed_over skipped ->
  contains "filled" entry = Ok true ->
  getitem_str entry "filled" = Ok (JObj kvs) ->
  assoc "totalSz" kvs = None ->
  assoc "avgPx" kvs = None ->
  parse_order_result result t
  = Ok (add_fee t 0%float,
        Filled 0 0 0 (match assoc "oid" kvs with Some v => v | None => JNull end)).
Proof.
  intros R F C G Hs Hp.
  rewrite (CycleFacts.parse_from_scan float_of_str py_str result _ t R).
  rewrite (CycleFacts.scan_passes_over float_of_str skipped _ F).
  rewrite (CycleFacts.scan_stops_at_filled float_of_str entry (JObj kvs)
             (JNum 0) (JNum 0)
             (match assoc "oid" kvs with Some v => v | None => JNull end)
             0%float 0%float rest C G).
  - reflexivity.
  - cbn. rewrite Hs. reflexivity.
  - reflexivity.
  - cbn. rewrite Hp. reflexivity.
  - reflexivity.
  - reflexivity.
Qed.

End Cycle.

#[local] Open Scope string_scope.

Lemma rejected_entry_sends_two_orders :
  snd (run_test Examples.SPOT_SYMBOL Examples.PERP_SYMBOL
         Examples.no_float_of_str Examples.repr Examples.no_rounding None
         Examples.l2_quotes MoreExamples.rejects_all 10 fresh) = Ok tt /\
  orders (fst (run_test Examples.SPOT_SYMBOL Examples.PERP_SYMBOL
                 Examples.no_float_of_str Examples.repr Examples.no_rounding
                 None Examples.l2_quotes MoreExamples.rejects_all 10 fresh))
  = [entry_spot_order Examples.SPOT_SYMBOL Examples.PERP_SYMBOL
       Examples.no_float_of_str Examples.no_rounding Examples.l2_quotes 10;
     entry_perp_order Examples.SPOT_SYMBOL Examples.PERP_SYMBOL
       Examples.no_float_of_str Examples.no_rounding Examples.l2_quotes 10] /\
  summaries (fst (run_test Examples.SPOT_SYMBOL Examples.PERP_SYMBOL
                    Examples.no_float_of_str Examples.repr Examples.no_rounding
                    None Examples.l2_quotes MoreExamples.rejects_all 10 fresh))
  = [None] /\
  exit_spot_fill
    (test (fst (run_test Examples.SPOT_SYMBOL Examples.PERP_SYMBOL
                  Examples.no_float_of_str Examples.repr Examples.no_rounding
                  None Examples.l2_quotes MoreExamples.rejects_all 10 fresh)))
  = None /\
  exit_perp_fill
    (test (fst (run_test Examples.SPOT_SYMBOL Examples.PERP_SYMBOL
                  Examples.no_float_of_str Examples.repr Examples.no_rounding
                  None Examples.l2_quotes MoreExamples.rejects_all 10 fresh)))
  = None.
Proof.
  apply (failed_entry_sends_no_exit
           Examples.SPOT_SYMBOL Examples.PERP_SYMBOL Examples.no_float_of_str
           Examples.repr Examples.no_rounding None Examples.l2_quotes
           MoreExamples.rejects_all 10
           (Failed (JStr "Insufficient margin"))
           (Failed (JStr "Insufficient margin")));
    reflexivity.
Defined.

Lemma no_books_no_orders :
  fst (run_test Examples.SPOT_SYMBOL Examples.PERP_SYMBOL
         Examples.no_float_of_str Examples.repr Examples.no_rounding None
         MoreExamples.no_books Examples.fills_in_full 10 fresh)
  = fresh.
Proof.
  apply (proj2 (proj2 (missing_price_sends_nothing
                         Examples.SPOT_SYMBOL Examples.PERP_SYMBOL
                         Examples.no_float_of_str Examples.repr
                         Examples.no_rounding None MoreExamples.no_books
                         Examples.fills_in_full 10))).
  reflexivity.
Defined.

Lemma bare_fill_is_a_success :
  parse_order_result Examples.no_float_of_str Examples.repr
    (Examples.order_response [Examples.resting_status; MoreExamples.bare_fill])
    init
  = Ok (add_fee init 0, Filled 0 0 0 (JNum 77)).
Proof.
  apply (fill_without_numbers_is_a_success
           Examples.no_float_of_str Examples.repr
           (Examples.order_response
              [Examples.resting_status; MoreExamples.bare_fill])
           [Examples.resting_status] MoreExamples.bare_fill []
           [("oid", JNum 77)] init
           (CycleFacts.reaches_example_statuses _)).
  - repeat constructor.
  - reflexivity.
  - reflexivity.
  - reflexivity.
  - reflexivity.
Defined.

End CycleOutcomes.

(** ** The funding rate *)

Module FundingFacts.
Import Py FundingRate.
#[local] Open Scope string_scope.

Section Funding.

Variable PERP_SYMBOL : string.
Variable float_of_str : string -> option float.

#[local] Notation scan_universe := (scan_universe PERP_SYMBOL float_of_str).
#[local] Notation get_funding_rate := (get_funding_rate PERP_SYMBOL float_of_str).

(** The loop goes past the assets whose name is not the perp symbol. *)
Lemma scan_skips_other_assets (before rest : list json) :
  Forall (fun a => exists name,
            dict_get a "name" JNull = Ok name /\
            eq_str name PERP_SYMBOL = false) before ->
  scan_universe (before ++ rest) = scan_universe rest.
Proof.
  induction 1 as [|a before (name & N & E) F IH]; [reflexivity|].
  cbn [app FundingRate.scan_universe]. rewrite N. cbn [rbind]. rewrite E.
  exact IH.
Qed.

(** The first asset of the universe named as the perp symbol decides the
    funding rate, whatever is listed after it: the rate is [float(...)] of
    its ["funding"], 0 when it has none, and 0.0 when [float] raises on
    it. *)
Theorem first_listing_gives_the_rate
    (m asset name funding : json) (before rest : list json) :
  dict_get m "universe" (JArr []) = Ok (JArr (before ++ asset :: rest)) ->
  Forall (fun a => exists name,
            dict_get a "name" JNull = Ok name /\
            eq_str name PERP_SYMBOL = false) before ->
  dict_get asset "name" JNull = Ok name ->
  eq_str name PERP_SYMBOL = true ->
  dict_get asset "funding" (JNum 0) = Ok funding ->
  get_funding_rate (Ok m)
  = match py_float float_of_str funding with
    | Ok x => x
    | Raise _ => 0%float
    end.
Proof.
  intros U F N E G.
  unfold FundingRate.get_funding_rate. cbn [rbind]. rewrite U.
  cbn [rbind py_iter]. rewrite (scan_skips_other_assets before _ F).
  cbn [FundingRate.scan_universe]. rewrite N. cbn [rbind]. rewrite E, G.
  cbn [rbind]. destruct (py_float float_of_str funding); reflexivity.
Qed.

(** Where the funding rate is 0.0: when [meta()] raises, when the answer
    has no ["universe"], when no asset of the universe is named as the
    perp symbol, and when an entry that is not a dict comes before the
    perp's (the loop raises on it and the handler answers 0.0, whatever is
    listed after). *)
Theorem funding_rate_defaults_to_zero :
  (forall e, get_funding_rate (Raise e) = 0%float) /\
  (forall kvs, assoc "universe" kvs = None ->
     get_funding_rate (Ok (JObj kvs)) = 0%float) /\
  (forall m assets,
     dict_get m "universe" (JArr []) = Ok (JArr assets) ->
     Forall (fun a => exists name,
               dict_get a "name" JNull = Ok name /\
               eq_str name PERP_SYMBOL = false) assets ->
     get_funding_rate (Ok m) = 0%float) /\
  (forall m before x rest,
     dict_get m "universe" (JArr []) = Ok (JArr (before ++ x :: rest)) ->
     Forall (fun a => exists name,
               dict_get a "name" JNull = Ok name /\
               eq_str name PERP_SYMBOL = false) before ->
     (forall kvs, x <> JObj kvs) ->
     get_funding_rate (Ok m) = 0%float).
Proof.
  split; [|split; [|split]].
  - reflexivity.
  - intros kvs H. unfold FundingRate.get_funding_rate.
    cbn [rbind dict_get]. rewrite H. reflexivity.
  - intros m assets U F. unfold FundingRate.get_funding_rate.
    cbn [rbind]. rewrite U. cbn [rbind py_iter].
    rewrite <- (app_nil_r assets).
    rewrite (scan_skips_other_assets assets [] F). reflexivity.
  - intros m before x rest U F X. unfold FundingRate.get_funding_rate.
    cbn [rbind]. rewrite U. cbn [rbind py_iter].
    rewrite (scan_skips_other_assets before _ F).
    cbn [FundingRate.scan_universe].
    destruct x as [ |b|y|y|ys|kvs]; try reflexivity.
    destruct (X kvs eq_refl).
Qed.

End Funding.

Lemma first_hype_listing_decides :
  get_funding_rate Examples.PERP_SYMBOL Examples.no_float_of_str
    (Ok MoreExamples.listed_twice)
  = 0.0000125%float.
Proof.
  apply (first_listing_gives_the_rate
           Examples.PERP_SYMBOL Examples.no_float_of_str
           MoreExamples.listed_twice
           (JObj [("name", JStr "HYPE"); ("funding", JNum 0.0000125)])
           (JStr "HYPE") (JNum 0.0000125)
           [JObj [("name", JStr "BTC"); ("funding", JNum 0.0001)]]
           [JObj [("name", JStr "HYPE"); ("funding", JNum 0.5)]]).
  - reflexivity.
  - constructor; [|constructor]. exists (JStr "BTC"). split; reflexivity.
  - reflexivity.
  - reflexivity.
  - reflexivity.
Defined.

Lemma stray_entry_hides_the_listing :
  get_funding_rate Examples.PERP_SYMBOL Examples.no_float_of_str
    (Ok (JObj [("universe",
                JArr [JStr "HYPE";
                      JObj [("name", JStr "HYPE"); ("funding", JNum 0.5)]])]))
  = 0%float.
Proof.
  destruct (funding_rate_defaults_to_zero
              Examples.PERP_SYMBOL Examples.no_float_of_str)
    as (_ & _ & _ & Z).
  apply (Z _ [] (JStr "HYPE")
           [JObj [("name", JStr "HYPE"); ("funding", JNum 0.5)]]).
  - reflexivity.
  - constructor.
  - intros kvs H. discriminate H.
Defined.

End FundingFacts.
